(** * The investment-plan ledger of [controllers.js], embedded in Rocq

    The controllers of the repository are embedded as pure functions over an
    explicit ledger (the MongoDB collections).  Conventions of the embedding:

    - A JavaScript [Number] holding money or a rate is an exact rational
      ([Q]) in the ledger, and what a theorem says of an amount is the value
      of the expression that the code evaluates, before rounding.  Whether
      a debit and the credit that undoes it give back the number one
      started from depends on the rounding, and is decided on binary64
      floats ([debitDouble], [creditBackDouble]).  A [Date] is its
      millisecond timestamp ([Z]).
    - A collection from which the code never deletes (users, investments,
      withdrawals) is a list in natural (insertion) order, and the [_id] of
      a document is its position; [Model.create] appends.  Plans can be
      deleted, so they live in a [gmap].
    - [Model.findById] is a lookup; [Model.findOne] returns the first match
      in natural order.
    - [doc.save()] on a loaded document sends a [$set] of the paths that
      were assigned a different value, and nothing else: the other fields
      of the stored document are left as they are.
    - [Query.populate] loads the referenced documents when the query runs;
      parents that reference the same document share one in-memory copy.
    - Store calls succeed and the logging helpers have no effect on the
      ledger.  Stored documents satisfy the range validators of their
      schemas, so a [save()] raises no validation error; the validators that
      [create()] applies to submitted values (password length, withdrawal
      amount) are modelled where they can fail. *)

From Stdlib Require Import ZArith QArith String Ascii PrimFloat.
From stdpp Require Import base option list gmap pretty.

Local Open Scope Z_scope.

(** ** Documents (models.js) *)

Inductive UserStatus := active | blocked.
Inductive InvestmentStatus := inv_active | inv_completed | inv_cancelled.
Inductive RequestStatus := pending | approved | rejected.

Global Instance UserStatus_eq_dec : EqDecision UserStatus.
Proof. solve_decision. Defined.
Global Instance InvestmentStatus_eq_dec : EqDecision InvestmentStatus.
Proof. solve_decision. Defined.
Global Instance RequestStatus_eq_dec : EqDecision RequestStatus.
Proof. solve_decision. Defined.

Record User := mkUser {
  phoneNumber : string;
  password : string;
  balance : Q;
  status : UserStatus;
  visitorId : string;
  isAdmin : bool;
  referralCode : option string;
  invitedBy : option string;
  referredUsers : list nat;
  activeInvestments : list nat;
  withdrawalHistory : list nat
}.

Record InvestmentPlan := mkPlan {
  name : string;
  minAmount : Q;
  maxAmount : Q;
  dailyProfitRate : Q;
  durationDays : Z;
  isActive : bool
}.

Record Investment := mkInvestment {
  userId : nat;
  planId : nat;
  investedAmount : Q;
  inv_dailyProfitRate : Q;
  startDate : Z;
  endDate : Z;
  currentProfit : Q;
  lastProfitCreditDate : option Z;
  inv_status : InvestmentStatus
}.

Record Withdrawal := mkWithdrawal {
  w_userId : nat;
  amount : Q;
  walletAddress : string;
  w_status : RequestStatus;
  requestDate : Z;
  approvalDate : option Z;
  adminId : option nat
}.

Record AdminConfig := mkConfig {
  isPromotionActive : bool;
  commissionOnPlanActivation : Q;
  commissionOnDailyProfit : Q;
  withdrawalStartTime : string;
  withdrawalEndTime : string;
  minWithdrawalAmount : Q;
  maxWithdrawalAmount : Q
}.

Record Ledger := mkLedger {
  users : list User;
  plans : gmap nat InvestmentPlan;
  investments : list Investment;
  withdrawals : list Withdrawal;
  adminConfig : option AdminConfig
}.

(** ** Assignments to one path of a document *)

Definition set_balance (b : Q) (u : User) : User :=
  mkUser (phoneNumber u) (password u) b (status u) (visitorId u) (isAdmin u)
    (referralCode u) (invitedBy u) (referredUsers u) (activeInvestments u)
    (withdrawalHistory u).

Definition set_status (st : UserStatus) (u : User) : User :=
  mkUser (phoneNumber u) (password u) (balance u) st (visitorId u) (isAdmin u)
    (referralCode u) (invitedBy u) (referredUsers u) (activeInvestments u)
    (withdrawalHistory u).

Definition set_activeInvestments (l : list nat) (u : User) : User :=
  mkUser (phoneNumber u) (password u) (balance u) (status u) (visitorId u)
    (isAdmin u) (referralCode u) (invitedBy u) (referredUsers u) l
    (withdrawalHistory u).

Definition set_withdrawalHistory (l : list nat) (u : User) : User :=
  mkUser (phoneNumber u) (password u) (balance u) (status u) (visitorId u)
    (isAdmin u) (referralCode u) (invitedBy u) (referredUsers u)
    (activeInvestments u) l.

Definition set_referredUsers (l : list nat) (u : User) : User :=
  mkUser (phoneNumber u) (password u) (balance u) (status u) (visitorId u)
    (isAdmin u) (referralCode u) (invitedBy u) l (activeInvestments u)
    (withdrawalHistory u).

Definition set_inv_status (st : InvestmentStatus) (i : Investment) : Investment :=
  mkInvestment (userId i) (planId i) (investedAmount i) (inv_dailyProfitRate i)
    (startDate i) (endDate i) (currentProfit i) (lastProfitCreditDate i) st.

Definition set_profit (p : Q) (d : option Z) (i : Investment) : Investment :=
  mkInvestment (userId i) (planId i) (investedAmount i) (inv_dailyProfitRate i)
    (startDate i) (endDate i) p d (inv_status i).

Definition set_plan (pid : nat) (amt rate : Q) (e : Z) (d : option Z)
    (i : Investment) : Investment :=
  mkInvestment (userId i) pid amt rate (startDate i) e (currentProfit i) d
    (inv_status i).

Definition set_decision (st : RequestStatus) (d : Z) (a : nat)
    (w : Withdrawal) : Withdrawal :=
  mkWithdrawal (w_userId w) (amount w) (walletAddress w) st (requestDate w)
    (Some d) (Some a).

(** ** Writes to the store *)

Definition with_users (us : list User) (s : Ledger) : Ledger :=
  mkLedger us (plans s) (investments s) (withdrawals s) (adminConfig s).

Definition with_investments (ivs : list Investment) (s : Ledger) : Ledger :=
  mkLedger (users s) (plans s) ivs (withdrawals s) (adminConfig s).

Definition with_withdrawals (ws : list Withdrawal) (s : Ledger) : Ledger :=
  mkLedger (users s) (plans s) (investments s) ws (adminConfig s).

(** [$set] of some paths of user [id], of investment [id], of withdrawal [id]. *)
Definition updateUser (id : nat) (f : User → User) (s : Ledger) : Ledger :=
  with_users (alter f id (users s)) s.

Definition updateInvestment (id : nat) (f : Investment → Investment)
    (s : Ledger) : Ledger :=
  with_investments (alter f id (investments s)) s.

Definition updateWithdrawal (id : nat) (f : Withdrawal → Withdrawal)
    (s : Ledger) : Ledger :=
  with_withdrawals (alter f id (withdrawals s)) s.

(** ** JavaScript comparisons and truthiness *)

Definition Qltb (x y : Q) : bool := negb (Qle_bool y x).

(** A string is truthy when it is not empty; [null] and [undefined] are not. *)
Definition truthy (s : string) : bool :=
  match s with EmptyString => false | String _ _ => true end.

Definition truthy_opt (o : option string) : bool :=
  match o with Some s => truthy s | None => false end.

(** ** [String.prototype.trim] and the [required] validator of a trimmed path *)

(** White space and line terminators among the code units below 256. *)
Definition isSpace (c : ascii) : bool :=
  let n := nat_of_ascii c in
  ((9 <=? n)%nat && (n <=? 13)%nat) || (n =? 32)%nat || (n =? 160)%nat.

Fixpoint trimStart (s : string) : string :=
  match s with
  | EmptyString => EmptyString
  | String c s' => if isSpace c then trimStart s' else s
  end.

Fixpoint trimEnd (s : string) : string :=
  match s with
  | EmptyString => EmptyString
  | String c s' =>
      match trimEnd s' with
      | EmptyString => if isSpace c then EmptyString else String c EmptyString
      | t => String c t
      end
  end.

Definition trim (s : string) : string := trimEnd (trimStart s).

(** [User.findOne({ referralCode: code })]. *)
Definition findByReferralCode (code : string) (us : list User)
    : option (nat * User) :=
  list_find (λ u, referralCode u = Some code) us.

(** ** The withdrawal time window *)

Definition isDigit (c : ascii) : bool :=
  let n := nat_of_ascii c in (48 <=? n)%nat && (n <=? 57)%nat.

Fixpoint digitsValue (acc : Z) (s : string) : option Z :=
  match s with
  | EmptyString => Some acc
  | String c s' =>
      if isDigit c
      then digitsValue (10 * acc + Z.of_nat (nat_of_ascii c - 48)) s'
      else None
  end.

(** [Number(str)] on the strings the configuration can hold: a run of
    decimal digits is its value and the empty string is 0; [None] is [NaN].
    Other numeric literals of JavaScript (signs, exponents, blanks) are
    outside the configuration's [HH:MM] format and are read as [NaN]. *)
Definition Number (s : string) : option Z := digitsValue 0 s.

(** [str.split(':')]. *)
Fixpoint split_colon (cur : string → string) (s : string) : list string :=
  match s with
  | EmptyString => [cur EmptyString]
  | String c s' =>
      if Ascii.eqb c ":"%char
      then cur EmptyString :: split_colon (λ x, x) s'
      else split_colon (λ x, cur (String c x)) s'
  end.

Definition parseTime (timeStr : string) : Z :=
  match Number <$> split_colon (λ x, x) timeStr with
  | Some hour :: Some minute :: _ => hour * 60 + minute
  | _ => -1
  end.

(** [isWithdrawalTimeAllowed]; the clock reading [now.getHours()],
    [now.getMinutes()] is passed in. *)
Definition isWithdrawalTimeAllowed (startTime endTime : string)
    (currentHour currentMinute : Z) : bool :=
  let currentTimeInMinutes := currentHour * 60 + currentMinute in
  let startTimeInMinutes := parseTime startTime in
  let endTimeInMinutes := parseTime endTime in
  if (startTimeInMinutes =? -1) || (endTimeInMinutes =? -1) then true
  else (startTimeInMinutes <=? currentTimeInMinutes)
       && (currentTimeInMinutes <=? endTimeInMinutes).

(** The format check [/^\d{2}:\d{2}$/] of the schema and of
    [updateAdminConfig]. *)
Definition timeRegex_test (s : string) : bool :=
  match s with
  | String a (String b (String c (String d (String e EmptyString)))) =>
      isDigit a && isDigit b && Ascii.eqb c ":"%char && isDigit d && isDigit e
  | _ => false
  end.

(** ** Responses of the controllers *)

Inductive Response :=
| MissingFields
| InvalidPhoneNumber
| DuplicateVisitorId
| PhoneNumberTaken
| NotFound
| AlreadyInvested
| InvalidAmount
| InsufficientFunds
| NoActiveInvestment
| InvalidActiveInvestment
| PriceNotHigher
| OutsideWithdrawalWindow
| BelowMinimum
| AboveMaximum
| NotPending
| ServerError
| Created (id : nat)
| Success.

Definition httpStatus (r : Response) : nat :=
  match r with
  | DuplicateVisitorId => 403
  | NotFound => 404
  | ServerError => 500
  | Created _ => 201
  | Success => 200
  | _ => 400
  end.

(** ** registerUser *)

Definition phoneRegex_test (s : string) : bool :=
  (String.length s =? 9)%nat && forallb isDigit (list_ascii_of_string s).

(** The [pre('save')] hash of the password is not modelled: the field keeps
    what was submitted. *)

(** The [while (codeExists)] loop around [generateReferralCode]: [draws k] is
    the k-th code the generator returns; the loop stops at the first code no
    user holds.  [None]: the loop is still running when the fuel ends. *)
Fixpoint pickReferralCode (fuel : nat) (draws : nat → string) (k : nat)
    (us : list User) : option string :=
  match fuel with
  | O => None
  | S fuel' =>
      match findByReferralCode (draws k) us with
      | None => Some (draws k)
      | Some _ => pickReferralCode fuel' draws (S k) us
      end
  end.

(** The loop of step 3: every account found with the visitor id is blocked
    if it is active, one [save()] at a time. *)
Definition blockAccounts (found : list (nat * User)) (s : Ledger) : Ledger :=
  foldl (λ acc p, if bool_decide (status p.2 = active)
                  then updateUser p.1 (set_status blocked) acc
                  else acc) s found.

(** [User.find({ visitorId })]. *)
Definition findByVisitorId (v : string) (us : list User) : list (nat * User) :=
  filter (λ p, visitorId p.2 = v) (imap pair us).

Definition registerUser (fuel : nat) (draws : nat → string)
    (phone pass visitor : string) (inviteCode : option string) (s : Ledger)
    : option (Ledger * Response) :=
  if negb (truthy phone) || negb (truthy pass) || negb (truthy visitor)
  then Some (s, MissingFields)
  else if negb (phoneRegex_test phone) then Some (s, InvalidPhoneNumber)
  else
    let existingUsersWithSameVisitorId := findByVisitorId visitor (users s) in
    if (0 <? length existingUsersWithSameVisitorId)%nat
    then Some (blockAccounts existingUsersWithSameVisitorId s, DuplicateVisitorId)
    else
      match list_find (λ u, phoneNumber u = phone) (users s) with
      | Some _ => Some (s, PhoneNumberTaken)
      | None =>
          match pickReferralCode fuel draws 0 (users s) with
          | None => None
          | Some code =>
              let invitingUser :=
                if truthy_opt inviteCode
                then match findByReferralCode (default EmptyString inviteCode)
                             (users s) with
                     | Some (rid, r) =>
                         if String.eqb (visitorId r) visitor then None
                         else Some (rid, r)
                     | None => None
                     end
                else None in
              if (String.length pass <? 6)%nat then Some (s, ServerError)
              else
                let newId := length (users s) in
                let newUser :=
                  mkUser phone pass 0%Q active visitor false (Some code)
                    (match invitingUser with
                     | Some (_, r) => referralCode r
                     | None => None
                     end) [] [] [] in
                let s1 := with_users (users s ++ [newUser]) s in
                let s2 :=
                  match invitingUser with
                  | Some (rid, r) =>
                      updateUser rid
                        (set_referredUsers (referredUsers r ++ [newId])) s1
                  | None => s1
                  end in
                Some (s2, Created newId)
          end
      end.

(** ** activateInvestment and upgradeInvestment *)

(** The plan id of the request body, when it is present: a value that
    Mongoose casts to an ObjectId, or one that it does not, for which
    [InvestmentPlan.findById] throws a [CastError] inside the [try] of the
    handler.  [None] is a body without the id. *)
Inductive BodyId := Malformed | ObjectId (id : nat).

Definition msPerDay : Z := 86400000.

(** [d.setDate(d.getDate() + days)] on the timestamp [now]. *)
Definition addDays (now days : Z) : Z := now + days * msPerDay.

(** The commission block shared by activation and upgrade: the guard on
    [user.invitedBy], the configuration, the promotion flag and the rate,
    then the lookup of the inviter and the credit to its balance. *)
Definition creditActivationCommission (user : User) (base : Q) (s : Ledger)
    : Ledger :=
  match invitedBy user, adminConfig s with
  | Some code, Some cfg =>
      if truthy code && isPromotionActive cfg
         && Qltb 0 (commissionOnPlanActivation cfg)
      then match findByReferralCode code (users s) with
           | Some (rid, inviter) =>
               let commissionRate := commissionOnPlanActivation cfg in
               let commissionAmount := (base * commissionRate)%Q in
               updateUser rid
                 (set_balance (balance inviter + commissionAmount)%Q) s
           | None => s
           end
      else s
  | _, _ => s
  end.

Definition activateInvestment (now : Z) (uid : nat)
    (planIdArg : option BodyId) (s : Ledger) : Ledger * Response :=
  match planIdArg with
  | None => (s, MissingFields)
  | Some Malformed => (s, ServerError)
  | Some (ObjectId pid) =>
      match users s !! uid, plans s !! pid with
      | Some user, Some plan =>
          if negb (isActive plan) then (s, NotFound)
          else if (0 <? length (activeInvestments user))%nat
          then (s, AlreadyInvested)
          else
            let amount := minAmount plan in
            if Qle_bool amount 0 then (s, InvalidAmount)
            else if Qltb (balance user) amount then (s, InsufficientFunds)
            else
              let newBalance := (balance user - amount)%Q in
              let endDate := addDays now (durationDays plan) in
              let id := length (investments s) in
              let investment :=
                mkInvestment uid pid amount (dailyProfitRate plan) now endDate
                  0%Q (Some now) inv_active in
              let s1 := with_investments (investments s ++ [investment]) s in
              let s2 :=
                updateUser uid
                  (λ u, set_activeInvestments (activeInvestments user ++ [id])
                          (set_balance newBalance u)) s1 in
              let s3 :=
                creditActivationCommission user amount s2 in
              (s3, Created id)
      | _, _ => (s, NotFound)
      end
  end.

Definition upgradeInvestment (now : Z) (uid : nat)
    (newPlanIdArg : option BodyId) (s : Ledger) : Ledger * Response :=
  match newPlanIdArg with
  | None => (s, MissingFields)
  | Some Malformed => (s, ServerError)
  | Some (ObjectId newPlanId) =>
      match users s !! uid, plans s !! newPlanId with
      | Some user, Some newPlan =>
          if negb (isActive newPlan) then (s, NotFound)
          else
            match activeInvestments user with
            | [] => (s, NoActiveInvestment)
            | first :: _ =>
                match investments s !! first with
                | None =>
                    (updateUser uid
                       (set_activeInvestments
                          (filter (λ id, id ≠ first) (activeInvestments user)))
                       s,
                     InvalidActiveInvestment)
                | Some activeInvestment =>
                    let currentPlan := plans s !! planId activeInvestment in
                    let currentAmount := investedAmount activeInvestment in
                    let newAmount := minAmount newPlan in
                    if Qle_bool newAmount currentAmount
                    then match currentPlan with
                         | Some _ => (s, PriceNotHigher)
                         | None => (s, ServerError)
                         end
                    else
                      let priceDifference := (newAmount - currentAmount)%Q in
                      if Qltb (balance user) priceDifference
                      then (s, InsufficientFunds)
                      else
                        let newBalance := (balance user - priceDifference)%Q in
                        let newEndDate := addDays now (durationDays newPlan) in
                        let s1 :=
                          updateInvestment first
                            (set_plan newPlanId newAmount
                               (dailyProfitRate newPlan) newEndDate (Some now))
                            s in
                        let s2 := updateUser uid (set_balance newBalance) s1 in
                        match currentPlan with
                        | None => (s2, ServerError)
                        | Some _ =>
                            (creditActivationCommission user priceDifference
                               s2,
                             Success)
                        end
                end
            end
      | _, _ => (s, NotFound)
      end
  end.

(** ** Withdrawals *)

(** [requestWithdrawal].  [Withdrawal.create] trims the wallet address and
    rejects an amount below 1 or an address that is empty once trimmed;
    the balance assigned before is then not saved. *)
Definition requestWithdrawal (currentHour currentMinute now : Z) (uid : nat)
    (amt : Q) (wallet : string) (s : Ledger) : Ledger * Response :=
  if Qeq_bool amt 0 || negb (truthy wallet) then (s, MissingFields)
  else if Qle_bool amt 0 then (s, InvalidAmount)
  else
    match users s !! uid with
    | None => (s, NotFound)
    | Some user =>
        let timeAllowed :=
          match adminConfig s with
          | Some cfg =>
              if truthy (withdrawalStartTime cfg)
                 && truthy (withdrawalEndTime cfg)
              then isWithdrawalTimeAllowed (withdrawalStartTime cfg)
                     (withdrawalEndTime cfg) currentHour currentMinute
              else true
          | None => true
          end in
        if negb timeAllowed then (s, OutsideWithdrawalWindow)
        else
          let belowMin :=
            match adminConfig s with
            | Some cfg => Qltb amt (minWithdrawalAmount cfg)
            | None => Qltb amt 1
            end in
          let aboveMax :=
            match adminConfig s with
            | Some cfg => Qltb (maxWithdrawalAmount cfg) amt
            | None => false
            end in
          if belowMin then (s, BelowMinimum)
          else if aboveMax then (s, AboveMaximum)
          else if Qltb (balance user) amt then (s, InsufficientFunds)
          else if Qltb amt 1 || negb (truthy (trim wallet))
          then (s, ServerError)
          else
            let newBalance := (balance user - amt)%Q in
            let id := length (withdrawals s) in
            let withdrawal :=
              mkWithdrawal uid amt (trim wallet) pending now None None in
            let s1 := with_withdrawals (withdrawals s ++ [withdrawal]) s in
            let s2 :=
              updateUser uid
                (λ u, set_withdrawalHistory (withdrawalHistory user ++ [id])
                        (set_balance newBalance u)) s1 in
            (s2, Created id)
    end.

Definition approveWithdrawal (now : Z) (admin wid : nat) (s : Ledger)
    : Ledger * Response :=
  match withdrawals s !! wid with
  | None => (s, NotFound)
  | Some withdrawal =>
      if negb (bool_decide (w_status withdrawal = pending)) then (s, NotPending)
      else (updateWithdrawal wid (set_decision approved now admin) s, Success)
  end.

Definition rejectWithdrawal (now : Z) (admin wid : nat) (s : Ledger)
    : Ledger * Response :=
  match withdrawals s !! wid with
  | None => (s, NotFound)
  | Some withdrawal =>
      if negb (bool_decide (w_status withdrawal = pending)) then (s, NotPending)
      else
        let s1 := updateWithdrawal wid (set_decision rejected now admin) s in
        let s2 :=
          match users s1 !! w_userId withdrawal with
          | Some user =>
              updateUser (w_userId withdrawal)
                (set_balance (balance user + amount withdrawal)%Q) s1
          | None => s1
          end in
        (s2, Success)
  end.

(** ** The balance of a withdrawal in double precision

    A [Number] is a binary64 float.  The two handlers above are followed
    here on the balance alone, with the operations of the doubles. *)





(** ** The daily batch *)

(** The filter of [Investment.find]: status active, and the last credit
    before [today] or absent. *)
Definition creditDue (today : Z) (i : Investment) : bool :=
  bool_decide (inv_status i = inv_active)
  && match lastProfitCreditDate i with
     | Some d => d <? today
     | None => true
     end.

Definition findCreditDue (today : Z) (ivs : list Investment)
    : list (nat * Investment) :=
  filter (λ p, creditDue today p.2) (imap pair ivs).

(** The branch taken when the populated owner is missing or blocked. *)
Definition closeIfEnded (today : Z) (iid : nat) (investment : Investment)
    (s : Ledger) : Ledger :=
  if endDate investment <=? today
  then updateInvestment iid (set_inv_status inv_completed) s
  else s.

(** The commission block of the batch; the inviter is fetched from the
    ledger by [User.findOne] at that moment. *)
Definition creditDailyCommission (isPromotionActive : bool)
    (commissionRate : Q) (user : User) (dailyProfit : Q) (s : Ledger)
    : Ledger :=
  if isPromotionActive && Qltb 0 commissionRate && truthy_opt (invitedBy user)
  then match findByReferralCode (default EmptyString (invitedBy user))
               (users s) with
       | Some (rid, inviter) =>
           if bool_decide (status inviter = active)
           then let commissionAmount := (dailyProfit * commissionRate)%Q in
                updateUser rid
                  (set_balance (balance inviter + commissionAmount)%Q) s
           else s
       | None => s
       end
  else s.

(** One iteration of the loop.  The state is the ledger together with the
    owners as [populate] loaded them when the query ran ([mem]); the
    iteration reads and assigns the owner in [mem], and its [save()] writes
    the assigned path to the ledger. *)
Definition processInvestment (today : Z) (isPromotionActive : bool)
    (commissionRate : Q) (st : Ledger * list User) (p : nat * Investment)
    : Ledger * list User :=
  let '(s, mem) := st in
  let '(iid, investment) := p in
  match mem !! userId investment with
  | None => (closeIfEnded today iid investment s, mem)
  | Some user =>
      if bool_decide (status user = blocked)
      then (closeIfEnded today iid investment s, mem)
      else if endDate investment <=? today
      then
        let s1 := updateInvestment iid (set_inv_status inv_completed) s in
        let remaining :=
          filter (λ id, id ≠ iid) (activeInvestments user) in
        if bool_decide (remaining = activeInvestments user) then (s1, mem)
        else (updateUser (userId investment)
                (set_activeInvestments remaining) s1,
              alter (set_activeInvestments remaining) (userId investment) mem)
      else
        let dailyProfit :=
          (investedAmount investment * inv_dailyProfitRate investment)%Q in
        let newProfit := (currentProfit investment + dailyProfit)%Q in
        let newBalance := (balance user + dailyProfit)%Q in
        let s1 :=
          creditDailyCommission isPromotionActive commissionRate user
            dailyProfit s in
        let s2 := updateInvestment iid (set_profit newProfit (Some today)) s1 in
        if Qeq_bool newBalance (balance user) then (s2, mem)
        else (updateUser (userId investment) (set_balance newBalance) s2,
              alter (set_balance newBalance) (userId investment) mem)
  end.

Definition processDailyProfitsAndCommissions (today : Z) (s : Ledger)
    : Ledger :=
  let investments := findCreditDue today (investments s) in
  let populated := users s in
  let isPromotionActive :=
    match adminConfig s with
    | Some cfg => isPromotionActive cfg
    | None => false
    end in
  let commissionRate :=
    match adminConfig s with
    | Some cfg => commissionOnDailyProfit cfg
    | None => 0%Q
    end in
  (foldl (processInvestment today isPromotionActive commissionRate)
     (s, populated) investments).1.

(** An investment the loop leaves alone: its populated owner is missing or
    blocked (read off the owners' statuses) and it has not reached its end
    date. *)
Definition ownerIdle (statuses : list UserStatus) (i : Investment) : Prop :=
  statuses !! userId i = None ∨ statuses !! userId i = Some blocked.

Definition skipped (today : Z) (statuses : list UserStatus) (i : Investment)
    : Prop :=
  ownerIdle statuses i ∧ today < endDate i.

(** The last credit of an investment, if any, lies before its end date: so
    activation and upgrade leave it (for a plan of positive duration), and
    so does the batch. *)
Definition creditBeforeEnd (i : Investment) : Prop :=
  match lastProfitCreditDate i with Some d => d < endDate i | None => True end.

(** The referrer of [user] for the activation commission: the holder of the
    non-empty code stored in [user.invitedBy], while the promotion is on and
    the activation rate is positive. *)
Definition referrerAt (s : Ledger) (user : User) (rid : nat) (r : User)
    (rate : Q) : Prop :=
  ∃ cfg code,
    adminConfig s = Some cfg ∧ invitedBy user = Some code
    ∧ truthy code = true
    ∧ findByReferralCode code (users s) = Some (rid, r)
    ∧ isPromotionActive cfg = true
    ∧ rate = commissionOnPlanActivation cfg ∧ (0 < rate)%Q.

(** The eligibility predicate of the specification: the referrer exists, is
    active, the promotion is on and the rate is positive. *)
Definition eligibleReferrer (s : Ledger) (user : User) (rid : nat) (r : User)
    (rate : Q) : Prop :=
  status r = active ∧ referrerAt s user rid r rate.

(** ** The scenario of the specification

    Referrer R (referral code R1) invited investor A (balance 1000); the
    plan costs 500 at 2% a day for 60 days; the activation commission is 5%
    and the commission on daily profit 2%. *)

Definition ex_config : AdminConfig :=
  mkConfig true (5 # 100) (2 # 100) "08:00" "18:00" 1 5000.

Definition ex_plan : InvestmentPlan := mkPlan "Basic" 500 500 (2 # 100) 60 true.

Definition ex_referrer (st : UserStatus) : User :=
  mkUser "840000001" "secret1" 100 st "device-R" false (Some "R1"%string) None
    [1%nat] [] [].

Definition ex_investor : User :=
  mkUser "840000002" "secret2" 1000 active "device-A" false
    (Some "A1"%string) (Some "R1"%string) [] [] [].

Definition ex_premium : InvestmentPlan :=
  mkPlan "Premium" 800 800 (3 # 100) 60 true.

Definition ex_ledger (st : UserStatus) : Ledger :=
  mkLedger [ex_referrer st; ex_investor]
    (<[ 1%nat := ex_premium ]> {[ 0%nat := ex_plan ]}) [] [] (Some ex_config).

Definition ex_now : Z := 1700000000000.

(** The ledger after A activated the plan. *)
Definition ex_invested : Ledger :=
  (activateInvestment ex_now 1 (Some (ObjectId 0%nat)) (ex_ledger active)).1.

(** The midnight that follows [ex_now]. *)
Definition ex_tomorrow : Z := 1700006400000.

(** The ledger after A asked to withdraw 200 at 10:00. *)
Definition ex_requested : Ledger :=
  (requestWithdrawal 10 0 ex_now 1 200 "M-Pesa 840000002" ex_invested).1.

(** The ledger after A then upgraded to the premium plan. *)
Definition ex_upgraded : Ledger :=
  (upgradeInvestment ex_now 1 (Some (ObjectId 1%nat)) ex_invested).1.

(** A midnight after the sixty days of A's investment. *)
Definition ex_after_term : Z := 1705190400000.

(** A was blocked after investing. *)
Definition ex_blocked_owner : Ledger :=
  updateUser 1 (set_status blocked) ex_invested.

(** An investment of 500 at 2% made at [ex_now] by user [uid]. *)
Definition ex_investment (uid : nat) : Investment :=
  mkInvestment uid 0 500 (2 # 100) ex_now (addDays ex_now 60) 0 (Some ex_now)
    inv_active.

(** Both R (balance 600) and A (balance 500) hold such an investment; in
    [ex_investor_first] A's was created first, in [ex_referrer_first] R's. *)
Definition ex_both (ivs : list Investment) (rs as_ : list nat) : Ledger :=
  mkLedger
    [set_activeInvestments rs (set_balance 600 (ex_referrer active));
     set_activeInvestments as_ (set_balance 500 ex_investor)]
    (<[ 1%nat := ex_premium ]> {[ 0%nat := ex_plan ]}) ivs [] (Some ex_config).

Definition ex_investor_first : Ledger :=
  ex_both [ex_investment 1; ex_investment 0] [1%nat] [0%nat].

Definition ex_referrer_first : Ledger :=
  ex_both [ex_investment 0; ex_investment 1] [0%nat] [1%nat].

(** The balance of user [uid], 0 when there is no such user. *)
Definition balanceOf (s : Ledger) (uid : nat) : Q :=
  default 0%Q (balance <$> users s !! uid).

(** * The rest of the controllers, the middleware and the log reader *)

(** ** Documents and paths outside the records above

    The deposits collection, the [depositHistory] path of every user and
    the [minDepositAmount] path of the configuration are kept beside the
    ledger.  [minDepositAmount] is read only while a configuration exists.
    The other paths of the documents (image URL, payment numbers and names,
    login address and time, time stamps) decide nothing below and are left
    out. *)

Record Deposit := mkDeposit {
  dep_userId : nat;
  dep_amount : Q;
  confirmationMessage : string;
  dep_status : RequestStatus;
  dep_requestDate : Z;
  dep_approvalDate : option Z;
  dep_adminId : option nat
}.

Record Bank := mkBank {
  ledger : Ledger;
  deposits : list Deposit;
  depositHistory : gmap nat (list nat);
  minDepositAmount : Q
}.

Definition with_ledger (s : Ledger) (b : Bank) : Bank :=
  mkBank s (deposits b) (depositHistory b) (minDepositAmount b).

Definition with_deposits (ds : list Deposit) (b : Bank) : Bank :=
  mkBank (ledger b) ds (depositHistory b) (minDepositAmount b).

Definition with_adminConfig (c : option AdminConfig) (s : Ledger) : Ledger :=
  mkLedger (users s) (plans s) (investments s) (withdrawals s) c.

Definition with_plans (ps : gmap nat InvestmentPlan) (s : Ledger) : Ledger :=
  mkLedger (users s) ps (investments s) (withdrawals s) (adminConfig s).

Definition set_password (p : string) (u : User) : User :=
  mkUser (phoneNumber u) p (balance u) (status u) (visitorId u) (isAdmin u)
    (referralCode u) (invitedBy u) (referredUsers u) (activeInvestments u)
    (withdrawalHistory u).

Definition set_deposit_decision (st : RequestStatus) (d : Z) (a : nat)
    (x : Deposit) : Deposit :=
  mkDeposit (dep_userId x) (dep_amount x) (confirmationMessage x) st
    (dep_requestDate x) (Some d) (Some a).

(** ** middleware.js *)

(** What [protect] finds in the request: no [Bearer] header, a token that
    [jwt.verify] rejects, or a token that decodes to the id of a user. *)
Inductive Credentials := NoBearer | RejectedToken | Token (id : nat).

Inductive Denial :=
| NoTokenGiven
| TokenFailed
| TokenUserMissing
| AccountBlocked
| NotAnAdmin.

Definition denialStatus (d : Denial) : nat :=
  match d with
  | AccountBlocked | NotAnAdmin => 403
  | _ => 401
  end.

(** [protect]: on success [req.user] is the user of the token. *)
Definition protect (c : Credentials) (s : Ledger) : Denial + nat * User :=
  match c with
  | NoBearer => inl NoTokenGiven
  | RejectedToken => inl TokenFailed
  | Token id =>
      match users s !! id with
      | None => inl TokenUserMissing
      | Some u =>
          if bool_decide (status u = blocked) then inl AccountBlocked
          else inr (id, u)
      end
  end.

Definition authorizeAdmin (reqUser : option (nat * User)) : option Denial :=
  match reqUser with
  | None => Some NotAnAdmin
  | Some (_, u) => if isAdmin u then None else Some NotAnAdmin
  end.

(** [router.METHOD(path, protect, handler)]: the handler runs for the user
    that [protect] admitted. *)
Definition userRoute {R} (handler : nat → Ledger → Ledger * R)
    (c : Credentials) (s : Ledger) : Ledger * (Denial + R) :=
  match protect c s with
  | inl d => (s, inl d)
  | inr (id, _) => let '(s', r) := handler id s in (s', inr r)
  end.

(** [router.METHOD(path, protect, authorizeAdmin, handler)]. *)
Definition adminRoute {R} (handler : nat → Ledger → Ledger * R)
    (c : Credentials) (s : Ledger) : Ledger * (Denial + R) :=
  match protect c s with
  | inl d => (s, inl d)
  | inr (id, u) =>
      match authorizeAdmin (Some (id, u)) with
      | Some d => (s, inl d)
      | None => let '(s', r) := handler id s in (s', inr r)
      end
  end.

(** ** loginUser *)

Inductive LoginResponse :=
| LoginMissingFields
| InvalidCredentials
| LoginBlocked
| LoggedIn (id : nat).

Definition loginStatus (r : LoginResponse) : nat :=
  match r with
  | LoginMissingFields => 400
  | InvalidCredentials => 401
  | LoginBlocked => 403
  | LoggedIn _ => 200
  end.

(** [matchPassword] is the comparison of bcrypt, passed in.  The filter of
    [User.findOne] goes through the setters of the schema, so the phone
    number is trimmed before it is compared.  The paths that a login writes
    ([lastLoginIp], [lastLoginAt]) are not in the ledger, so only the
    response is modelled. *)
Definition loginUser (matchPassword : User → string → bool)
    (phone pass : string) (s : Ledger) : LoginResponse :=
  if negb (truthy phone) || negb (truthy pass) then LoginMissingFields
  else
    match list_find (λ u, phoneNumber u = trim phone) (users s) with
    | None => InvalidCredentials
    | Some (id, user) =>
        if bool_decide (status user = blocked) then LoginBlocked
        else if matchPassword user pass then LoggedIn id
        else InvalidCredentials
    end.

(** ** Administration of users *)

Inductive AdminResponse :=
| AdminNotFound
| CannotBlockAdmin
| AdminMissingFields
| AdminInvalidPhone
| AdminPhoneTaken
| AdminDuplicateKey
| PasswordTooShort
| AdminServerError
| AdminCreated (id : nat)
| AdminOk.

Definition adminStatus (r : AdminResponse) : nat :=
  match r with
  | AdminNotFound => 404
  | CannotBlockAdmin => 403
  | AdminServerError => 500
  | AdminCreated _ => 201
  | AdminOk => 200
  | _ => 400
  end.

Definition blockUser (id : nat) (s : Ledger) : Ledger * AdminResponse :=
  match users s !! id with
  | None => (s, AdminNotFound)
  | Some user =>
      if isAdmin user then (s, CannotBlockAdmin)
      else (updateUser id (set_status blocked) s, AdminOk)
  end.

Definition unblockUser (id : nat) (s : Ledger) : Ledger * AdminResponse :=
  match users s !! id with
  | None => (s, AdminNotFound)
  | Some user => (updateUser id (set_status active) s, AdminOk)
  end.

Definition changeUserPasswordByAdmin (id : nat) (newPassword : string)
    (s : Ledger) : Ledger * AdminResponse :=
  if negb (truthy newPassword) || (String.length newPassword <? 6)%nat
  then (s, PasswordTooShort)
  else
    match users s !! id with
    | None => (s, AdminNotFound)
    | Some user => (updateUser id (set_password newPassword) s, AdminOk)
    end.

(** The unique indexes of the users collection, as [User.create] checks
    them: phone number, visitor id, and referral code when there is one. *)
Definition duplicateKey (u : User) (us : list User) : bool :=
  existsb (λ v, String.eqb (phoneNumber v) (phoneNumber u)
                || String.eqb (visitorId v) (visitorId u)
                || match referralCode v, referralCode u with
                   | Some a, Some b => String.eqb a b
                   | _, _ => false
                   end) us.

(** [createAdmin]; [code] is what [generateReferralCode()] returns and [now]
    what [Date.now()] returns. *)
Definition createAdmin (now : Z) (code : string) (phone pass : string)
    (s : Ledger) : Ledger * AdminResponse :=
  if negb (truthy phone) || negb (truthy pass) then (s, AdminMissingFields)
  else if negb (phoneRegex_test phone) then (s, AdminInvalidPhone)
  else
    match list_find (λ u, phoneNumber u = phone) (users s) with
    | Some _ => (s, AdminPhoneTaken)
    | None =>
        let visitor := String.append "admin_" (pretty now) in
        let newAdmin :=
          mkUser phone pass 0%Q active visitor true (Some code) None [] [] [] in
        if (String.length pass <? 6)%nat then (s, AdminServerError)
        else if duplicateKey newAdmin (users s) then (s, AdminDuplicateKey)
        else (with_users (users s ++ [newAdmin]) s,
              AdminCreated (length (users s)))
    end.

(** [AdminConfig.create({})]: the defaults of the schema. *)
Definition defaultConfig : AdminConfig :=
  mkConfig true (5 # 100) (2 # 100) "08:00" "18:00" 1 5000.

Definition createConfig (b : Bank) : Bank :=
  mkBank (with_adminConfig (Some defaultConfig) (ledger b)) (deposits b)
    (depositHistory b) 50.

Definition ensureConfig (b : Bank) : Bank :=
  match adminConfig (ledger b) with
  | Some _ => b
  | None => createConfig b
  end.

(** [createInitialAdmin]: the [return] of the phone-number check and the
    [catch] of a duplicate key both leave the function before the
    configuration is looked at. *)
Definition createInitialAdmin (code : string) (b : Bank) : Bank :=
  match list_find (λ u, isAdmin u = true) (users (ledger b)) with
  | Some _ => ensureConfig b
  | None =>
      match list_find (λ u, phoneNumber u = "848441231"%string)
              (users (ledger b)) with
      | Some _ => b
      | None =>
          let initialAdmin :=
            mkUser "848441231" "147258" 0%Q active "initialAdminFingerprint"
              true (Some code) None [] [] [] in
          if duplicateKey initialAdmin (users (ledger b)) then b
          else
            ensureConfig
              (with_ledger
                 (with_users (users (ledger b) ++ [initialAdmin]) (ledger b))
                 b)
      end
  end.

(** ** Deposits *)

(** The minimum that [requestDeposit] applies. *)
Definition currentMinDeposit (b : Bank) : Q :=
  match adminConfig (ledger b) with
  | Some _ => minDepositAmount b
  | None => 50
  end.

(** [requestDeposit].  [Deposit.create] trims the message and rejects an
    amount below 1 or a message that is empty once trimmed; a user that is
    missing makes [user.depositHistory] throw after the deposit was
    created. *)
Definition requestDeposit (now : Z) (uid : nat) (amt : Q) (message : string)
    (b : Bank) : Bank * Response :=
  if Qeq_bool amt 0 || negb (truthy message) then (b, MissingFields)
  else if Qltb amt (currentMinDeposit b) then (b, BelowMinimum)
  else if Qltb amt 1 || negb (truthy (trim message)) then (b, ServerError)
  else
    let id := length (deposits b) in
    let deposit := mkDeposit uid amt (trim message) pending now None None in
    let b1 := with_deposits (deposits b ++ [deposit]) b in
    match users (ledger b) !! uid with
    | None => (b1, ServerError)
    | Some _ =>
        (mkBank (ledger b1) (deposits b1)
           (<[ uid := default [] (depositHistory b !! uid) ++ [id] ]>
              (depositHistory b))
           (minDepositAmount b1),
         Created id)
    end.

Definition approveDeposit (now : Z) (admin did : nat) (b : Bank)
    : Bank * Response :=
  match deposits b !! did with
  | None => (b, NotFound)
  | Some deposit =>
      if negb (bool_decide (dep_status deposit = pending)) then (b, NotPending)
      else
        let b1 :=
          with_deposits
            (alter (set_deposit_decision approved now admin) did (deposits b))
            b in
        let b2 :=
          match users (ledger b1) !! dep_userId deposit with
          | Some user =>
              with_ledger
                (updateUser (dep_userId deposit)
                   (set_balance (balance user + dep_amount deposit)%Q)
                   (ledger b1)) b1
          | None => b1
          end in
        (b2, Success)
  end.

Definition rejectDeposit (now : Z) (admin did : nat) (b : Bank)
    : Bank * Response :=
  match deposits b !! did with
  | None => (b, NotFound)
  | Some deposit =>
      if negb (bool_decide (dep_status deposit = pending)) then (b, NotPending)
      else
        (with_deposits
           (alter (set_deposit_decision rejected now admin) did (deposits b)) b,
         Success)
  end.

(** ** Administration of plans *)

Inductive PlanResponse :=
| PlanMissingFields
| PlanValidationError
| PlanDuplicateName
| PlanNotFound
| PlanInUse
| PlanCreated (id : nat)
| PlanOk.

Definition planStatus (r : PlanResponse) : nat :=
  match r with
  | PlanNotFound => 404
  | PlanCreated _ => 201
  | PlanOk => 200
  | _ => 400
  end.

(** The unique index on the name of a plan, for the document [self]. *)
Definition nameTaken (nm : string) (self : nat)
    (ps : gmap nat InvestmentPlan) : bool :=
  existsb (λ kp, negb (kp.1 =? self)%nat && String.eqb (name kp.2) nm)
    (map_to_list ps).

(** [createInvestmentPlan].  Numbers are sent as JSON numbers.  A field
    that is absent from the body is the empty string or 0, which the first
    check refuses alike; [newId] is the id generated for the document. *)
Definition createInvestmentPlan (newId : nat) (nm : string)
    (minAmt rate : Q) (s : Ledger) : Ledger * PlanResponse :=
  if negb (truthy nm) || Qeq_bool minAmt 0 || Qeq_bool rate 0
  then (s, PlanMissingFields)
  else
    let maxAmt := minAmt in
    if negb (truthy (trim nm) && Qle_bool 0 minAmt && Qle_bool 0 maxAmt
             && Qle_bool 0 rate && Qle_bool rate 1)
    then (s, PlanValidationError)
    else if nameTaken (trim nm) newId (plans s) then (s, PlanDuplicateName)
    else
      (with_plans
         (<[ newId := mkPlan (trim nm) minAmt maxAmt rate 60 true ]> (plans s))
         s,
       PlanCreated newId).

(** [updateInvestmentPlan]; [None] is a field that is [undefined] in the
    body.  The validators run on the paths that were given. *)
Definition updateInvestmentPlan (pid : nat) (nm : option string)
    (minAmt rate : option Q) (act : option bool) (s : Ledger)
    : Ledger * PlanResponse :=
  match plans s !! pid with
  | None => (s, PlanNotFound)
  | Some plan =>
      let updatedMinAmount := default (minAmount plan) minAmt in
      let maxAmt := default (minAmount plan) minAmt in
      let newName := default (name plan) (trim <$> nm) in
      let newRate := default (dailyProfitRate plan) rate in
      let newActive := default (isActive plan) act in
      if negb (match nm with Some n => truthy (trim n) | None => true end
               && match minAmt with Some m => Qle_bool 0 m | None => true end
               && match rate with
                  | Some r => Qle_bool 0 r && Qle_bool r 1
                  | None => true
                  end)
      then (s, PlanValidationError)
      else if nameTaken newName pid (plans s) then (s, PlanDuplicateName)
      else
        (with_plans
           (<[ pid := mkPlan newName updatedMinAmount maxAmt newRate
                        (durationDays plan) newActive ]> (plans s)) s,
         PlanOk)
  end.

Definition deleteInvestmentPlan (pid : nat) (s : Ledger)
    : Ledger * PlanResponse :=
  match plans s !! pid with
  | None => (s, PlanNotFound)
  | Some plan =>
      if existsb (λ i, (planId i =? pid)%nat
                       && bool_decide (inv_status i = inv_active))
           (investments s)
      then (s, PlanInUse)
      else (with_plans (delete pid (plans s)) s, PlanOk)
  end.

(** [getUserActiveInvestments]: the investments of the user with status
    active. *)
Definition getUserActiveInvestments (uid : nat) (s : Ledger)
    : list (nat * Investment) :=
  filter (λ p, userId p.2 = uid ∧ inv_status p.2 = inv_active)
    (imap pair (investments s)).

(** ** updateAdminConfig *)

(** The body of the request; [None] is a field that is [undefined].  Numbers
    are sent as JSON numbers. *)
Record ConfigUpdate := mkConfigUpdate {
  upd_isPromotionActive : option bool;
  upd_commissionOnPlanActivation : option Q;
  upd_commissionOnDailyProfit : option Q;
  upd_minDepositAmount : option Q;
  upd_withdrawalStartTime : option string;
  upd_withdrawalEndTime : option string;
  upd_minWithdrawalAmount : option Q;
  upd_maxWithdrawalAmount : option Q
}.

Inductive ConfigResponse :=
| MinDepositTooLow
| MinWithdrawalTooLow
| MaxWithdrawalTooLow
| MinAboveMax
| BadStartTime
| BadEndTime
| ConfigValidationError
| ConfigUpdated.

Definition configStatus (r : ConfigResponse) : nat :=
  match r with ConfigUpdated => 200 | _ => 400 end.

Definition belowOne (v : option Q) : bool :=
  match v with Some x => Qltb x 1 | None => false end.

Definition badTime (v : option string) : bool :=
  match v with
  | Some t => (0 <? String.length t)%nat && negb (timeRegex_test t)
  | None => false
  end.

(** The validators of the schema on the paths that were given. *)
Definition rateInRange (v : option Q) : bool :=
  match v with Some r => Qle_bool 0 r && Qle_bool r 1 | None => true end.

Definition timeWellFormed (v : option string) : bool :=
  match v with Some t => timeRegex_test t | None => true end.

Definition updateAdminConfig (u : ConfigUpdate) (b : Bank)
    : Bank * ConfigResponse :=
  let b0 := ensureConfig b in
  let config := default defaultConfig (adminConfig (ledger b0)) in
  if belowOne (upd_minDepositAmount u) then (b0, MinDepositTooLow)
  else if belowOne (upd_minWithdrawalAmount u) then (b0, MinWithdrawalTooLow)
  else if belowOne (upd_maxWithdrawalAmount u) then (b0, MaxWithdrawalTooLow)
  else if match upd_minWithdrawalAmount u, upd_maxWithdrawalAmount u with
          | Some lo, Some hi => Qltb hi lo
          | _, _ => false
          end
  then (b0, MinAboveMax)
  else if badTime (upd_withdrawalStartTime u) then (b0, BadStartTime)
  else if badTime (upd_withdrawalEndTime u) then (b0, BadEndTime)
  else
    let newConfig :=
      mkConfig
        (default (isPromotionActive config) (upd_isPromotionActive u))
        (default (commissionOnPlanActivation config)
           (upd_commissionOnPlanActivation u))
        (default (commissionOnDailyProfit config)
           (upd_commissionOnDailyProfit u))
        (default (withdrawalStartTime config) (upd_withdrawalStartTime u))
        (default (withdrawalEndTime config) (upd_withdrawalEndTime u))
        (default (minWithdrawalAmount config) (upd_minWithdrawalAmount u))
        (default (maxWithdrawalAmount config) (upd_maxWithdrawalAmount u)) in
    if negb (rateInRange (upd_commissionOnPlanActivation u)
             && rateInRange (upd_commissionOnDailyProfit u)
             && timeWellFormed (upd_withdrawalStartTime u)
             && timeWellFormed (upd_withdrawalEndTime u))
    then (b0, ConfigValidationError)
    else
      (mkBank (with_adminConfig (Some newConfig) (ledger b0)) (deposits b0)
         (depositHistory b0)
         (default (currentMinDeposit b0) (upd_minDepositAmount u)),
       ConfigUpdated).

(** ** The log of administrative actions *)

(** [data.split('\n')]. *)
Fixpoint splitLines (cur : string → string) (s : string) : list string :=
  match s with
  | EmptyString => [cur EmptyString]
  | String c s' =>
      if Ascii.eqb c "010"%char
      then cur EmptyString :: splitLines (λ x, x) s'
      else splitLines (λ x, cur (String c x)) s'
  end.

(** The lines that [getAdminLogs] returns; [None] is a file that does not
    exist. *)
Definition getAdminLogs (file : option string) : list string :=
  match file with
  | None => []
  | Some data =>
      rev (filter (λ line, truthy (trim line)) (splitLines (λ x, x) data))
  end.

(** [writeLog]: [entry] is the text that [JSON.stringify] produced, and
    [formatLogMessage] adds the line feed. *)
Definition writeLog (file : option string) (entry : string) : option string :=
  Some (String.append (default EmptyString file)
          (String.append entry (String "010"%char EmptyString))).

(** ** Invariants of the collections *)

(** The unique indexes of the users collection, and no user invited by its
    own code. *)
Definition usersUnique (us : list User) : Prop :=
  NoDup (phoneNumber <$> us) ∧ NoDup (visitorId <$> us)
  ∧ NoDup (omap referralCode us)
  ∧ Forall (λ u, invitedBy u ≠ referralCode u) us.

(** A plan has a single price and runs for sixty days. *)
Definition planShape (p : InvestmentPlan) : Prop :=
  maxAmount p = minAmount p ∧ durationDays p = 60.

(** Every active investment refers to a plan that exists. *)
Definition plansLive (s : Ledger) : Prop :=
  ∀ i inv, investments s !! i = Some inv → inv_status inv = inv_active →
           is_Some (plans s !! planId inv).

Definition planNamesUnique (ps : gmap nat InvestmentPlan) : Prop :=
  ∀ i j p q, ps !! i = Some p → ps !! j = Some q → name p = name q → i = j.

(** The validators of the configuration schema. *)
Definition configValid (c : AdminConfig) : Prop :=
  (0 <= commissionOnPlanActivation c)%Q ∧ (commissionOnPlanActivation c <= 1)%Q
  ∧ (0 <= commissionOnDailyProfit c)%Q ∧ (commissionOnDailyProfit c <= 1)%Q
  ∧ timeRegex_test (withdrawalStartTime c) = true
  ∧ timeRegex_test (withdrawalEndTime c) = true
  ∧ (1 <= minWithdrawalAmount c)%Q ∧ (1 <= maxWithdrawalAmount c)%Q.

Definition bankConfigValid (b : Bank) : Prop :=
  match adminConfig (ledger b) with
  | Some c => configValid c ∧ (1 <= minDepositAmount b)%Q
  | None => True
  end.

(** No balance is negative and every recorded withdrawal is positive. *)
Definition fundsSound (s : Ledger) : Prop :=
  Forall (λ u, (0 <= balance u)%Q) (users s)
  ∧ Forall (λ w, (0 < amount w)%Q) (withdrawals s).

(** The paths of a user that the daily batch leaves alone, and the terms
    of an investment. *)
Definition userIdentity (u : User) :=
  (phoneNumber u, password u, status u, visitorId u, isAdmin u,
   referralCode u, invitedBy u, referredUsers u, withdrawalHistory u).

Definition investmentTerms (i : Investment) :=
  (userId i, planId i, investedAmount i, inv_dailyProfitRate i, startDate i,
   endDate i).

(** A bank, a plain text entry and line feed for the examples. *)
Definition ex_bank : Bank := mkBank (ex_ledger active) [] ∅ 50.

Definition ex_update_min_only : ConfigUpdate :=
  mkConfigUpdate None None None None None None (Some 6000%Q) None.

Definition ex_update_window : ConfigUpdate :=
  mkConfigUpdate None None None None (Some "18:00"%string)
    (Some "08:00"%string) None None.

(** The account that [createInitialAdmin] creates. *)
Definition initialAdminUser (code : string) : User :=
  mkUser "848441231" "147258" 0%Q active "initialAdminFingerprint" true
    (Some code) None [] [] [].

(** The paths of a user that are indexed or that link it to its inviter. *)
Definition userKeys (u : User) :=
  (phoneNumber u, visitorId u, referralCode u, invitedBy u).

(** Every user that stores an inviter's code is listed among the referred
    users of a holder of that code. *)
Definition referralsLinked (us : list User) : Prop :=
  ∀ i u c, us !! i = Some u → invitedBy u = Some c →
    ∃ rid r, us !! rid = Some r ∧ referralCode r = Some c
             ∧ i ∈ referredUsers r.

(** The bank after A asked to deposit 300. *)
Definition ex_deposited : Bank :=
  (requestDeposit ex_now 1 300 "M-Pesa ref 8XK2 " ex_bank).1.

(** The validators of the plan schema, with the single price. *)
Definition planValid (p : InvestmentPlan) : Prop :=
  planShape p ∧ truthy (name p) = true ∧ (0 <= minAmount p)%Q
  ∧ (0 <= dailyProfitRate p)%Q ∧ (dailyProfitRate p <= 1)%Q.

Definition catalogueValid (ps : gmap nat InvestmentPlan) : Prop :=
  planNamesUnique ps ∧ map_Forall (λ _ p, planValid p) ps.

(** The rule of one investment per user: no user lists more than one
    investment, and every active investment is listed by its owner. *)
Definition slotsSound (s : Ledger) : Prop :=
  Forall (λ l : list nat, (length l ≤ 1)%nat) (activeInvestments <$> users s)
  ∧ ∀ iid inv, investments s !! iid = Some inv → inv_status inv = inv_active →
      ∃ l, (activeInvestments <$> users s) !! userId inv = Some l ∧ iid ∈ l.

(** A was blocked, the batch ran after the term, and A was unblocked. *)
Definition ex_unblocked : Ledger :=
  (unblockUser 1
     (processDailyProfitsAndCommissions ex_after_term ex_blocked_owner)).1.

(** A text without line feed, as [JSON.stringify] produces. *)
Fixpoint lineFree (s : string) : bool :=
  match s with
  | EmptyString => true
  | String c s' => negb (Ascii.eqb c "010"%char) && lineFree s'
  end.

(** Every stored password has at least six characters. *)
Definition passwordsLong (us : list User) : Prop :=
  Forall (λ u, (6 ≤ String.length (password u))%nat) us.

(** The plan of A's completed investment was deleted after A was
    unblocked. *)
Definition ex_plan_deleted : Ledger := (deleteInvestmentPlan 0 ex_unblocked).1.

(** A plan that costs less than what A has invested. *)
Definition ex_starter : InvestmentPlan :=
  mkPlan "Starter" 400 400 (2 # 100) 60 true.

(** The administrator then offers the cheaper plan. *)
Definition ex_cheaper_offered : Ledger :=
  (createInvestmentPlan 2 "Starter" 400 (2 # 100) ex_plan_deleted).1.

(** The content of a log to which the entries were appended in order. *)
Definition logText (entries : list string) : string :=
  foldr (λ e acc, String.append e (String "010"%char acc)) EmptyString entries.

(** Every balance of [us] is at least the bound that [L] gives for its
    user. *)
Definition balancesAbove (L : nat → Q) (us : list User) : Prop :=
  ∀ k u, us !! k = Some u → (L k <= balance u)%Q.

(** * Properties *)

(** ** The withdrawal time window *)

Example parseTime_0800 : parseTime "08:00" = 480.
Proof. reflexivity. Qed.

Example parseTime_no_colon : parseTime "8h" = -1.
Proof. reflexivity. Qed.

Lemma isDigit_not_colon c : isDigit c = true → Ascii.eqb c ":"%char = false.
Proof.
  destruct c as [[] [] [] [] [] [] [] []]; vm_compute; congruence.
Qed.

Lemma isDigit_value c :
  isDigit c = true → 0 ≤ Z.of_nat (nat_of_ascii c - 48) ≤ 9.
Proof.
  destruct c as [[] [] [] [] [] [] [] []]; vm_compute; intuition congruence.
Qed.

(** On a string of the configured format, [parseTime] is the number of
    minutes the two digit pairs denote. *)
Lemma parseTime_HHMM a b c d e :
  timeRegex_test (String a (String b (String c (String d (String e EmptyString)))))
    = true →
  parseTime (String a (String b (String c (String d (String e EmptyString)))))
  = (10 * Z.of_nat (nat_of_ascii a - 48) + Z.of_nat (nat_of_ascii b - 48)) * 60
    + (10 * Z.of_nat (nat_of_ascii d - 48) + Z.of_nat (nat_of_ascii e - 48)).
Proof.
  unfold timeRegex_test. rewrite !andb_true_iff.
  intros [[[[Ha Hb] Hc] Hd] He].
  unfold parseTime. cbn [split_colon].
  rewrite (isDigit_not_colon a Ha), (isDigit_not_colon b Hb), Hc,
    (isDigit_not_colon d Hd), (isDigit_not_colon e He).
  cbn [fmap list_fmap Number digitsValue]. rewrite Ha, Hb, Hd, He.
  f_equal; lia.
Qed.

Lemma parseTime_valid_nonneg s : timeRegex_test s = true → 0 ≤ parseTime s.
Proof.
  intros H.
  destruct s as [|a [|b [|c [|d [|e [|? ?]]]]]]; try discriminate H.
  rewrite (parseTime_HHMM _ _ _ _ _ H).
  unfold timeRegex_test in H. rewrite !andb_true_iff in H.
  destruct H as [[[[Ha Hb] _] Hd] He].
  pose proof (isDigit_value a Ha). pose proof (isDigit_value b Hb).
  pose proof (isDigit_value d Hd). pose proof (isDigit_value e He). lia.
Qed.

(** C9 (as amended): with start and end times of the configured [HH:MM]
    format, the time check admits a request exactly when the local time in
    minutes lies in the closed interval from the start to the end time; the
    end minute itself is admitted. *)
Theorem withdrawal_window_is_closed (startTime endTime : string)
    (currentHour currentMinute : Z) :
  timeRegex_test startTime = true →
  timeRegex_test endTime = true →
  isWithdrawalTimeAllowed startTime endTime currentHour currentMinute = true
  ↔ parseTime startTime ≤ currentHour * 60 + currentMinute ≤ parseTime endTime.
Proof.
  intros Hs He.
  apply parseTime_valid_nonneg in Hs. apply parseTime_valid_nonneg in He.
  unfold isWithdrawalTimeAllowed.
  destruct (Z.eqb_spec (parseTime startTime) (-1)) as [E|_]; [lia|].
  destruct (Z.eqb_spec (parseTime endTime) (-1)) as [E|_]; [lia|].
  cbn [orb]. rewrite andb_true_iff, !Z.leb_le. tauto.
Qed.

Lemma withdrawal_window_is_closed_witness :
  isWithdrawalTimeAllowed "08:00" "18:00" 18 0 = true
  ↔ parseTime "08:00" ≤ 18 * 60 + 0 ≤ parseTime "18:00".
Proof.
  apply (withdrawal_window_is_closed "08:00" "18:00" 18 0); reflexivity.
Defined.

(** C9 (as stated) fails: a request at exactly the configured end time
    passes the time check, so the window is not half-open. *)
Lemma withdrawal_at_end_time_is_admitted :
  ¬ (isWithdrawalTimeAllowed "08:00" "18:00" 18 0 = true
     ↔ parseTime "08:00" ≤ 18 * 60 + 0 < parseTime "18:00").
Proof.
  intros [H _]. specialize (H eq_refl). vm_compute in H.
  destruct H as [_ H]. discriminate H.
Qed.

(** ** Positions in a collection *)

Lemma fst_imap_pair {A} (l : list A) : (imap pair l).*1 = seq 0 (length l).
Proof.
  rewrite fmap_imap. rewrite <- (list_fmap_id (seq 0 (length l))).
  apply (imap_seq_0 l (λ j, j)).
Qed.

Lemma NoDup_fst_filter_imap {A} (P : nat * A → Prop)
    `{∀ x, Decision (P x)} (l : list A) :
  NoDup (filter P (imap pair l)).*1.
Proof.
  apply (sublist_NoDup _ (imap pair l).*1).
  - rewrite fst_imap_pair. apply NoDup_seq.
  - apply fmap_sublist, sublist_filter.
Qed.

Lemma elem_of_filter_imap {A} (P : nat * A → Prop)
    `{∀ x, Decision (P x)} (l : list A) i x :
  (i, x) ∈ filter P (imap pair l) ↔ P (i, x) ∧ l !! i = Some x.
Proof.
  rewrite list_elem_of_filter, elem_of_lookup_imap. split.
  - intros (HP & j & y & E & Hl). simplify_eq. done.
  - intros [HP Hl]. split; [done|]. by exists i, x.
Qed.

(** ** registerUser *)

Lemma elem_of_findByVisitorId v us i u :
  (i, u) ∈ findByVisitorId v us ↔ us !! i = Some u ∧ visitorId u = v.
Proof. unfold findByVisitorId. rewrite elem_of_filter_imap. simpl. tauto. Qed.

Lemma blockAccounts_cons p found s :
  blockAccounts (p :: found) s
  = blockAccounts found
      (if bool_decide (status p.2 = active)
       then updateUser p.1 (set_status blocked) s else s).
Proof. done. Qed.

Lemma blockAccounts_length found s :
  length (users (blockAccounts found s)) = length (users s).
Proof.
  revert s. induction found as [|[i u] found IH]; intros s; [done|].
  rewrite blockAccounts_cons, IH.
  case_bool_decide; [|done]. simpl. apply length_alter.
Qed.

Lemma blockAccounts_other found s j :
  j ∉ found.*1 →
  users (blockAccounts found s) !! j = users s !! j.
Proof.
  revert s. induction found as [|[i u] found IH]; intros s Hj; [done|].
  rewrite fmap_cons, not_elem_of_cons in Hj. destruct Hj as [Hij Hj].
  rewrite blockAccounts_cons, IH by done.
  case_bool_decide; [|done]. simpl in *.
  by apply list_lookup_alter_ne.
Qed.

Lemma blockAccounts_found found s j u :
  NoDup found.*1 →
  (j, u) ∈ found →
  users s !! j = Some u →
  users (blockAccounts found s) !! j
  = Some (if bool_decide (status u = active) then set_status blocked u else u).
Proof.
  revert s. induction found as [|[i v] found IH]; intros s Hnd Hin Hs.
  { by apply elem_of_nil in Hin. }
  rewrite fmap_cons in Hnd. apply NoDup_cons in Hnd as [Hi Hnd].
  rewrite blockAccounts_cons.
  apply elem_of_cons in Hin as [E|Hin].
  - injection E as <- <-. rewrite blockAccounts_other by done. simpl.
    case_bool_decide; [|done]. simpl.
    by rewrite list_lookup_alter_eq, Hs.
  - assert (i ≠ j) as Hij.
    { intros ->. apply Hi. simpl. apply list_elem_of_fmap.
      by exists (j, u). }
    apply IH; [done|done|]. simpl.
    destruct (bool_decide (status v = active)); simpl; [|done].
    rewrite list_lookup_alter_ne; done.
Qed.

(** C10: a registration attempt that passes the input checks (phone number,
    password and visitor id present, phone number of nine digits) and whose
    visitor id is already attached to an existing user is refused with
    status 403; no user is created; every existing account with that
    visitor id that was active is blocked, and every other account is left
    as it was. *)
Theorem register_duplicate_visitor_blocks (fuel : nat) (draws : nat → string)
    (phone pass visitor : string) (inviteCode : option string) (s : Ledger)
    (k : nat) (owner : User) :
  truthy phone = true → truthy pass = true → truthy visitor = true →
  phoneRegex_test phone = true →
  users s !! k = Some owner → visitorId owner = visitor →
  ∃ s',
    registerUser fuel draws phone pass visitor inviteCode s
      = Some (s', DuplicateVisitorId)
    ∧ httpStatus DuplicateVisitorId = 403%nat
    ∧ length (users s') = length (users s)
    ∧ (∀ i u, users s !! i = Some u →
         users s' !! i
         = Some (if bool_decide (visitorId u = visitor ∧ status u = active)
                 then set_status blocked u else u))
    ∧ (∀ i u, users s !! i = Some u → visitorId u = visitor →
         (status <$> users s' !! i) = Some blocked)
    ∧ ∀ i u, users s !! i = Some u →
        (phoneNumber <$> users s' !! i) = Some (phoneNumber u)
        ∧ (balance <$> users s' !! i) = Some (balance u)
        ∧ (visitorId <$> users s' !! i) = Some (visitorId u).
Proof.
  intros Hp Hw Hv Hre Hk Hvis.
  exists (blockAccounts (findByVisitorId visitor (users s)) s).
  unfold registerUser. rewrite Hp, Hw, Hv, Hre. cbn [negb orb].
  assert ((k, owner) ∈ findByVisitorId visitor (users s)) as Hin.
  { by apply elem_of_findByVisitorId. }
  destruct (findByVisitorId visitor (users s)) as [|p found] eqn:Ef.
  { by apply elem_of_nil in Hin. }
  cbn [length Nat.ltb Nat.leb]. rewrite <- Ef. clear Hin.
  split; [done|]. split; [done|]. split; [apply blockAccounts_length|].
  assert (∀ i u, users s !! i = Some u →
            users (blockAccounts (findByVisitorId visitor (users s)) s) !! i
            = Some (if bool_decide (visitorId u = visitor ∧ status u = active)
                    then set_status blocked u else u)) as Hall.
  { intros i u Hi.
    destruct (decide (visitorId u = visitor)) as [E|E].
    - rewrite (blockAccounts_found _ _ i u);
        [|apply NoDup_fst_filter_imap| |done].
      + by rewrite (bool_decide_ext (status u = active)
                      (visitorId u = visitor ∧ status u = active)) by tauto.
      + by apply elem_of_findByVisitorId.
    - rewrite blockAccounts_other.
      + rewrite Hi. by rewrite bool_decide_eq_false_2 by tauto.
      + intros Hin. apply list_elem_of_fmap in Hin as ([i' u'] & -> & Hin).
        apply elem_of_findByVisitorId in Hin as [Hl Hv']. simpl in *.
        congruence. }
  split; [exact Hall|]. split.
  - intros i u Hi Hu. rewrite (Hall i u Hi).
    destruct (bool_decide_reflect (visitorId u = visitor ∧ status u = active))
      as [_|Hn]; [done|].
    simpl. destruct (status u) eqn:Est; [|done]. by destruct Hn.
  - intros i u Hi. rewrite (Hall i u Hi).
    by destruct (bool_decide (visitorId u = visitor ∧ status u = active)).
Qed.

Lemma register_duplicate_visitor_blocks_witness :
  ∃ s',
    registerUser 1 (λ _, "AAAAAAAA"%string) "840000009" "secret9" "device-A"
      None (ex_ledger active)
      = Some (s', DuplicateVisitorId)
    ∧ httpStatus DuplicateVisitorId = 403%nat
    ∧ length (users s') = length (users (ex_ledger active))
    ∧ (∀ i u, users (ex_ledger active) !! i = Some u →
         users s' !! i
         = Some (if bool_decide (visitorId u = "device-A"%string
                                 ∧ status u = active)
                 then set_status blocked u else u))
    ∧ (∀ i u, users (ex_ledger active) !! i = Some u →
         visitorId u = "device-A"%string →
         (status <$> users s' !! i) = Some blocked)
    ∧ ∀ i u, users (ex_ledger active) !! i = Some u →
        (phoneNumber <$> users s' !! i) = Some (phoneNumber u)
        ∧ (balance <$> users s' !! i) = Some (balance u)
        ∧ (visitorId <$> users s' !! i) = Some (visitorId u).
Proof.
  apply (register_duplicate_visitor_blocks 1 (λ _, "AAAAAAAA"%string)
           "840000009" "secret9" "device-A" None (ex_ledger active) 1%nat
           ex_investor); reflexivity.
Defined.

(** ** Lookups after a write *)

Lemma users_updateUser_eq i f s u :
  users s !! i = Some u → users (updateUser i f s) !! i = Some (f u).
Proof. intros H. simpl. by rewrite list_lookup_alter_eq, H. Qed.

Lemma users_updateUser_ne i j f s :
  i ≠ j → users (updateUser i f s) !! j = users s !! j.
Proof. intros H. simpl. by rewrite list_lookup_alter_ne. Qed.

Lemma findByReferralCode_Some code us i r :
  findByReferralCode code us = Some (i, r) →
  us !! i = Some r ∧ referralCode r = Some code.
Proof.
  unfold findByReferralCode. intros H.
  apply list_find_Some in H as (? & ? & _). done.
Qed.

(** A write that keeps referral codes does not change whom
    [User.findOne({ referralCode })] finds. *)
Lemma findByReferralCode_alter code f i us :
  (∀ u, referralCode (f u) = referralCode u) →
  findByReferralCode code (alter f i us)
  = (λ p, (p.1, if bool_decide (p.1 = i) then f p.2 else p.2))
    <$> findByReferralCode code us.
Proof.
  intros Hf. unfold findByReferralCode.
  revert i. induction us as [|u us IH]; intros i; [done|].
  destruct i as [|i]; cbn [alter list_alter list_find].
  - rewrite Hf. destruct (decide (referralCode u = Some code)); [done|].
    destruct (list_find _ us) as [[j r]|]; [|done]. done.
  - destruct (decide (referralCode u = Some code)); [done|].
    fold (alter f i us). rewrite IH.
    destruct (list_find _ us) as [[j r]|]; [|done]. simpl.
    f_equal. f_equal. by rewrite (bool_decide_ext (j = i) (S j = S i)) by lia.
Qed.

(** ** The activation commission *)

Lemma Qltb_lt x y : Qltb x y = true ↔ (x < y)%Q.
Proof.
  unfold Qltb. rewrite negb_true_iff. split.
  - intros H. apply Qnot_le_lt. intros Hle.
    apply Qle_bool_iff in Hle. congruence.
  - intros H. destruct (Qle_bool y x) eqn:E; [|done].
    apply Qle_bool_iff in E. by apply Qlt_not_le in H.
Qed.

Lemma creditActivationCommission_frame user base s :
  plans (creditActivationCommission user base s) = plans s
  ∧ investments (creditActivationCommission user base s) = investments s
  ∧ withdrawals (creditActivationCommission user base s) = withdrawals s
  ∧ adminConfig (creditActivationCommission user base s) = adminConfig s.
Proof.
  unfold creditActivationCommission.
  destruct (invitedBy user), (adminConfig s) as [cfg|] eqn:E; try done.
  destruct (_ && _); [|done].
  destruct (findByReferralCode _ _) as [[rid r]|]; done.
Qed.

(** A user whose own referral code is not the inviter's code is not the one
    credited. *)
Lemma creditActivationCommission_other user base s j u :
  users s !! j = Some u →
  referralCode u ≠ invitedBy user →
  users (creditActivationCommission user base s) !! j = Some u.
Proof.
  intros Hj Hne. unfold creditActivationCommission.
  destruct (invitedBy user) as [code|] eqn:Ei; [|done].
  destruct (adminConfig s) as [cfg|]; [|done].
  destruct (_ && _); [|done].
  destruct (findByReferralCode code (users s)) as [[rid r]|] eqn:Ef; [|done].
  apply findByReferralCode_Some in Ef as [Hr Hc].
  rewrite users_updateUser_ne; [done|].
  intros ->. congruence.
Qed.

Lemma creditActivationCommission_eligible user base s cfg code rid r :
  adminConfig s = Some cfg →
  invitedBy user = Some code → truthy code = true →
  isPromotionActive cfg = true →
  (0 < commissionOnPlanActivation cfg)%Q →
  findByReferralCode code (users s) = Some (rid, r) →
  users (creditActivationCommission user base s) !! rid
  = Some (set_balance (balance r + base * commissionOnPlanActivation cfg)%Q r).
Proof.
  intros Hc Hi Ht Hp Hr Hf. unfold creditActivationCommission.
  rewrite Hi, Hc, Ht, Hp. apply Qltb_lt in Hr. rewrite Hr. cbn [andb].
  rewrite Hf. apply users_updateUser_eq.
  by apply findByReferralCode_Some in Hf as [? _].
Qed.

(** ** upgradeInvestment refuses a price that is not higher *)

(** The price validation while the current plan is stored: an upgrade call
    that reaches it (the user and the new plan exist, the new plan is
    active, the first active investment and its current plan are found)
    with a new price that is less than or equal to the current invested
    amount answers [PriceNotHigher] and returns the ledger it was given: no
    balance and no investment changes. *)
Theorem upgrade_price_not_higher (now : Z) (uid newPlanId : nat) (s : Ledger)
    (user : User) (newPlan currentPlan : InvestmentPlan) (first : nat)
    (others : list nat) (activeInvestment : Investment) :
  users s !! uid = Some user →
  plans s !! newPlanId = Some newPlan →
  isActive newPlan = true →
  activeInvestments user = first :: others →
  investments s !! first = Some activeInvestment →
  plans s !! planId activeInvestment = Some currentPlan →
  (minAmount newPlan <= investedAmount activeInvestment)%Q →
  upgradeInvestment now uid (Some (ObjectId newPlanId)) s = (s, PriceNotHigher).
Proof.
  intros Hu Hp Ha Hl Hi Hc Hle. unfold upgradeInvestment.
  rewrite Hu, Hp, Ha, Hl, Hi, Hc. cbn [negb].
  apply Qle_bool_iff in Hle. by rewrite Hle.
Qed.

Lemma upgrade_price_not_higher_witness :
  upgradeInvestment ex_tomorrow 1 (Some (ObjectId 0%nat)) ex_invested
  = (ex_invested, PriceNotHigher).
Proof.
  apply (upgrade_price_not_higher ex_tomorrow 1 0 ex_invested
           (set_activeInvestments [0%nat] (set_balance (1000 - 500)%Q ex_investor))
           ex_plan ex_plan 0 []
           (mkInvestment 1 0 500 (2 # 100) ex_now (addDays ex_now 60) 0
              (Some ex_now) inv_active));
    try reflexivity.
  vm_compute. discriminate.
Defined.

(** C6 fails on the code.  A was blocked, the batch completed A's
    investment of 500 and left it first in A's active list, A was
    unblocked, and the administrator deleted the plan of that investment,
    which no active investment referred to any more, and offered a plan
    at 400.  A asks to upgrade to it.  The price validation is reached
    and the new price is not higher, but the message of the price error
    reads the name of the current plan, which the populate left null: the
    handler answers 500 and not the price error.  Nothing is written.
    With the current plan still stored, the same request is answered with
    the price error. *)
Theorem upgrade_to_cheaper_plan_is_answered_500 :
  blockUser 1 ex_invested = (ex_blocked_owner, AdminOk)
  ∧ unblockUser 1
      (processDailyProfitsAndCommissions ex_after_term ex_blocked_owner)
    = (ex_unblocked, AdminOk)
  ∧ deleteInvestmentPlan 0 ex_unblocked = (ex_plan_deleted, PlanOk)
  ∧ createInvestmentPlan 2 "Starter" 400 (2 # 100) ex_plan_deleted
    = (ex_cheaper_offered, PlanCreated 2)
  ∧ (activeInvestments <$> users ex_cheaper_offered !! 1%nat)
    = Some [0%nat]
  ∧ investments ex_cheaper_offered !! 0%nat
    = Some (set_inv_status inv_completed (ex_investment 1))
  ∧ plans ex_cheaper_offered !! 0%nat = None
  ∧ plans ex_cheaper_offered !! 2%nat = Some ex_starter
  ∧ (minAmount ex_starter <= investedAmount (ex_investment 1))%Q
  ∧ upgradeInvestment ex_after_term 1 (Some (ObjectId 2%nat))
      ex_cheaper_offered
    = (ex_cheaper_offered, ServerError)
  ∧ httpStatus ServerError = 500%nat
  ∧ upgradeInvestment ex_after_term 1 (Some (ObjectId 2%nat))
      (createInvestmentPlan 2 "Starter" 400 (2 # 100) ex_unblocked).1
    = ((createInvestmentPlan 2 "Starter" 400 (2 # 100) ex_unblocked).1,
       PriceNotHigher).
Proof.
  repeat apply conj; try reflexivity. by vm_compute.
Qed.

(** ** Effects of a successful activation or upgrade *)

Lemma activateInvestment_success now uid pid s s' id :
  activateInvestment now uid (Some (ObjectId pid)) s = (s', Created id) →
  ∃ user plan,
    users s !! uid = Some user ∧ plans s !! pid = Some plan
    ∧ isActive plan = true ∧ activeInvestments user = []
    ∧ (0 < minAmount plan)%Q ∧ (minAmount plan <= balance user)%Q
    ∧ id = length (investments s)
    ∧ s' = creditActivationCommission user (minAmount plan)
             (updateUser uid
                (λ u, set_activeInvestments (activeInvestments user ++ [id])
                        (set_balance (balance user - minAmount plan)%Q u))
                (with_investments
                   (investments s
                    ++ [mkInvestment uid pid (minAmount plan)
                          (dailyProfitRate plan) now
                          (addDays now (durationDays plan)) 0%Q (Some now)
                          inv_active]) s)).
Proof.
  unfold activateInvestment. intros H.
  destruct (users s !! uid) as [user|] eqn:Eu; [|done].
  destruct (plans s !! pid) as [plan|] eqn:Ep; [|done].
  destruct (isActive plan) eqn:Ea; [|done]. cbn [negb] in H.
  destruct (activeInvestments user) as [|x l] eqn:El; [|done].
  cbn [length Nat.ltb Nat.leb] in H.
  destruct (Qle_bool (minAmount plan) 0) eqn:E0; [done|].
  destruct (Qltb (balance user) (minAmount plan)) eqn:Eb; [done|].
  injection H as <- <-. exists user, plan. rewrite El.
  repeat split; try done.
  - apply Qnot_le_lt. intros Hle. apply Qle_bool_iff in Hle. congruence.
  - apply Qnot_lt_le. intros Hlt. apply Qltb_lt in Hlt. congruence.
Qed.

Lemma upgradeInvestment_success now uid pid s s' :
  upgradeInvestment now uid (Some (ObjectId pid)) s = (s', Success) →
  ∃ user newPlan first others cur,
    users s !! uid = Some user ∧ plans s !! pid = Some newPlan
    ∧ isActive newPlan = true
    ∧ activeInvestments user = first :: others
    ∧ investments s !! first = Some cur
    ∧ (investedAmount cur < minAmount newPlan)%Q
    ∧ (minAmount newPlan - investedAmount cur <= balance user)%Q
    ∧ s' = creditActivationCommission user
             (minAmount newPlan - investedAmount cur)%Q
             (updateUser uid
                (set_balance
                   (balance user - (minAmount newPlan - investedAmount cur))%Q)
                (updateInvestment first
                   (set_plan pid (minAmount newPlan) (dailyProfitRate newPlan)
                      (addDays now (durationDays newPlan)) (Some now)) s)).
Proof.
  unfold upgradeInvestment. intros H.
  destruct (users s !! uid) as [user|] eqn:Eu; [|done].
  destruct (plans s !! pid) as [newPlan|] eqn:Ep; [|done].
  destruct (isActive newPlan) eqn:Ea; [|done]. cbn [negb] in H.
  destruct (activeInvestments user) as [|first others] eqn:El; [done|].
  destruct (investments s !! first) as [cur|] eqn:Ei; [|done].
  destruct (Qle_bool (minAmount newPlan) (investedAmount cur)) eqn:Ele.
  { destruct (plans s !! planId cur); done. }
  destruct (Qltb (balance user) _) eqn:Eb; [done|].
  destruct (plans s !! planId cur); [|done].
  injection H as <-. exists user, newPlan, first, others, cur.
  repeat split; try done.
  - apply Qnot_le_lt. intros Hle. apply Qle_bool_iff in Hle. congruence.
  - apply Qnot_lt_le. intros Hlt. apply Qltb_lt in Hlt. congruence.
Qed.

Lemma commission_after_user_write s uid g user base rid r rate :
  (∀ u, referralCode (g u) = referralCode u) →
  users s !! uid = Some user →
  invitedBy user ≠ referralCode user →
  referrerAt s user rid r rate →
  users (creditActivationCommission user base (updateUser uid g s)) !! rid
  = Some (set_balance (balance r + base * rate)%Q r).
Proof.
  intros Hg Hu Hself (cfg & code & Hc & Hi & Ht & Hf & Hp & -> & Hr).
  assert (rid ≠ uid) as Hne.
  { intros ->. apply findByReferralCode_Some in Hf as [Hl Hcode].
    congruence. }
  apply (creditActivationCommission_eligible _ _ _ cfg code); try done.
  simpl. rewrite findByReferralCode_alter by done. rewrite Hf. simpl.
  by rewrite bool_decide_eq_false_2.
Qed.

Lemma user_after_commission s uid g user base :
  (∀ u, referralCode (g u) = referralCode u) →
  users s !! uid = Some user →
  invitedBy user ≠ referralCode user →
  users (creditActivationCommission user base (updateUser uid g s)) !! uid
  = Some (g user).
Proof.
  intros Hg Hu Hself. apply creditActivationCommission_other.
  - by apply users_updateUser_eq.
  - rewrite Hg. congruence.
Qed.

(** C4: after a successful activation the investment created has the plan's
    price as invested amount, the plan's daily rate and the end date
    [now + durationDays]; the user's balance is the balance before minus the
    price; an eligible referrer's balance has grown by exactly
    [price * activationCommissionRate].  After a successful upgrade the
    investment carries the new plan's price, rate and end date, the user's
    balance has dropped by exactly the price difference and an eligible
    referrer has gained [priceDifference * activationCommissionRate].  The
    user is not its own referrer ([invitedBy] is not its own code). *)
Theorem activate_and_upgrade_effects :
  (∀ now uid pid s s' id,
     activateInvestment now uid (Some (ObjectId pid)) s = (s', Created id) →
     ∃ user plan,
       users s !! uid = Some user ∧ plans s !! pid = Some plan
       ∧ investments s' !! id
         = Some (mkInvestment uid pid (minAmount plan) (dailyProfitRate plan)
                   now (addDays now (durationDays plan)) 0%Q (Some now)
                   inv_active)
       ∧ (endDate <$> investments s' !! id)
         = Some (now + durationDays plan * 86400000)
       ∧ (invitedBy user ≠ referralCode user →
          (∃ user', users s' !! uid = Some user'
                    ∧ balance user' = (balance user - minAmount plan)%Q)
          ∧ ∀ rid r rate, eligibleReferrer s user rid r rate →
              ∃ r', users s' !! rid = Some r'
                    ∧ balance r' = (balance r + minAmount plan * rate)%Q))
  ∧
  (∀ now uid pid s s',
     upgradeInvestment now uid (Some (ObjectId pid)) s = (s', Success) →
     ∃ user newPlan first cur,
       users s !! uid = Some user ∧ plans s !! pid = Some newPlan
       ∧ head (activeInvestments user) = Some first
       ∧ investments s !! first = Some cur
       ∧ investments s' !! first
         = Some (set_plan pid (minAmount newPlan) (dailyProfitRate newPlan)
                   (addDays now (durationDays newPlan)) (Some now) cur)
       ∧ (planId <$> investments s' !! first) = Some pid
       ∧ (investedAmount <$> investments s' !! first)
         = Some (minAmount newPlan)
       ∧ (inv_dailyProfitRate <$> investments s' !! first)
         = Some (dailyProfitRate newPlan)
       ∧ (endDate <$> investments s' !! first)
         = Some (now + durationDays newPlan * 86400000)
       ∧ (lastProfitCreditDate <$> investments s' !! first)
         = Some (Some now)
       ∧ (currentProfit <$> investments s' !! first)
         = Some (currentProfit cur)
       ∧ (invitedBy user ≠ referralCode user →
          (∃ user', users s' !! uid = Some user'
                    ∧ balance user'
                      = (balance user
                         - (minAmount newPlan - investedAmount cur))%Q)
          ∧ ∀ rid r rate, eligibleReferrer s user rid r rate →
              ∃ r', users s' !! rid = Some r'
                    ∧ balance r'
                      = (balance r
                         + (minAmount newPlan - investedAmount cur) * rate)%Q)).
Proof.
  split.
  - intros now uid pid s s' id H.
    apply activateInvestment_success in H
      as (user & plan & Hu & Hp & _ & _ & _ & _ & -> & ->).
    exists user, plan. split; [done|]. split; [done|].
    match goal with |- ?A ∧ _ => assert A as Hinv end; [|split; [exact Hinv|]].
    { destruct (creditActivationCommission_frame user (minAmount plan)
                  (updateUser uid
                     (λ u, set_activeInvestments
                             (activeInvestments user ++ [length (investments s)])
                             (set_balance (balance user - minAmount plan)%Q u))
                     (with_investments
                        (investments s
                         ++ [mkInvestment uid pid (minAmount plan)
                               (dailyProfitRate plan) now
                               (addDays now (durationDays plan)) 0%Q (Some now)
                               inv_active]) s))) as (_ & -> & _).
      simpl. by rewrite list_lookup_middle. }
    split; [by rewrite Hinv|].
    intros Hself. split.
    + eexists. split; [by apply user_after_commission|done].
    + intros rid r rate [_ He]. eexists.
      split; [by apply (commission_after_user_write _ _ _ _ _ rid r rate)|].
      done.
  - intros now uid pid s s' H.
    apply upgradeInvestment_success in H
      as (user & newPlan & first & others & cur & Hu & Hp & _ & Hl & Hi & _
          & _ & ->).
    exists user, newPlan, first, cur.
    split; [done|]. split; [done|]. split; [by rewrite Hl|].
    split; [done|].
    match goal with |- ?A ∧ _ => assert A as Hinv end; [|split; [exact Hinv|]].
    { destruct (creditActivationCommission_frame user
                  (minAmount newPlan - investedAmount cur)%Q
                  (updateUser uid
                     (set_balance
                        (balance user
                         - (minAmount newPlan - investedAmount cur))%Q)
                     (updateInvestment first
                        (set_plan pid (minAmount newPlan)
                           (dailyProfitRate newPlan)
                           (addDays now (durationDays newPlan)) (Some now)) s)))
        as (_ & -> & _).
      simpl. by rewrite list_lookup_alter_eq, Hi. }
    do 6 (split; [by rewrite Hinv|]).
    intros Hself. split.
    + eexists. split; [by apply user_after_commission|done].
    + intros rid r rate [_ He]. eexists.
      split; [by apply (commission_after_user_write _ _ _ _ _ rid r rate)|].
      done.
Qed.

Lemma ex_referrer_eligible :
  eligibleReferrer (ex_ledger active) ex_investor 0 (ex_referrer active)
    (5 # 100).
Proof. split; [done|]. exists ex_config, "R1"%string. by repeat split. Defined.

Lemma ex_referrer_eligible_invested :
  eligibleReferrer ex_invested
    (set_activeInvestments [0%nat] (set_balance (1000 - 500)%Q ex_investor)) 0
    (set_balance (100 + 500 * (5 # 100))%Q (ex_referrer active)) (5 # 100).
Proof. split; [done|]. exists ex_config, "R1"%string. by repeat split. Defined.

Lemma activate_and_upgrade_effects_witness :
  (∃ a r,
     users ex_invested !! 1%nat = Some a
     ∧ balance a = (1000 - 500)%Q
     ∧ users ex_invested !! 0%nat = Some r
     ∧ balance r = (100 + 500 * (5 # 100))%Q)
  ∧ (∃ a r,
       users ex_upgraded !! 1%nat = Some a
       ∧ balance a = (1000 - 500 - (800 - 500))%Q
       ∧ users ex_upgraded !! 0%nat = Some r
       ∧ balance r = (100 + 500 * (5 # 100) + (800 - 500) * (5 # 100))%Q).
Proof.
  destruct activate_and_upgrade_effects as [Hact Hupg]. split.
  - destruct (Hact ex_now 1%nat 0%nat (ex_ledger active) ex_invested 0%nat
                eq_refl) as (user & plan & Hu & Hp & _ & _ & Hrest).
    injection Hu as <-. vm_compute in Hp. injection Hp as <-.
    destruct Hrest as [(a & Ha & Hb) Hr]; [discriminate|].
    destruct (Hr 0%nat (ex_referrer active) (5 # 100) ex_referrer_eligible)
      as (r & Hr1 & Hr2).
    exists a, r. done.
  - destruct (Hupg ex_now 1%nat 1%nat ex_invested ex_upgraded eq_refl)
      as (user & plan & first & cur & Hu & Hp & Hh & Hc & _ & _ & _ & _ & _
          & _ & _ & Hrest).
    injection Hu as <-. vm_compute in Hp. injection Hp as <-.
    injection Hh as <-. injection Hc as <-.
    destruct Hrest as [(a & Ha & Hb) Hr]; [discriminate|].
    destruct (Hr 0%nat _ (5 # 100) ex_referrer_eligible_invested)
      as (r & Hr1 & Hr2).
    exists a, r. done.
Defined.

(** The scenario of the specification: A's balance becomes 500, the
    investment is of 500 at 2% until sixty days later, R gains 25. *)
Example scenario_activation :
  activateInvestment ex_now 1 (Some (ObjectId 0%nat)) (ex_ledger active)
  = (ex_invested, Created 0)
  ∧ investments ex_invested
    = [mkInvestment 1 0 500 (2 # 100) ex_now (ex_now + 60 * 86400000) 0
         (Some ex_now) inv_active]
  ∧ (balance <$> users ex_invested !! 1%nat) = Some (1000 - 500)%Q
  ∧ (1000 - 500 == 500)%Q
  ∧ (balance <$> users ex_invested !! 0%nat) = Some (100 + 500 * (5 # 100))%Q
  ∧ (100 + 500 * (5 # 100) == 100 + 25)%Q.
Proof. by repeat split. Qed.

(** ** The withdrawal lifecycle *)








(** ** The daily batch: what an iteration can touch *)

Lemma fmap_alter_keep {A B} (f : A → B) (g : A → A) i (l : list A) :
  (∀ x, f (g x) = f x) → f <$> alter g i l = f <$> l.
Proof.
  intros H. rewrite (list_fmap_alter f g id).
  - by apply list_alter_id.
  - apply Forall_forall. intros x _. apply H.
Qed.

Lemma creditDailyCommission_frame promo rate user profit s :
  plans (creditDailyCommission promo rate user profit s) = plans s
  ∧ investments (creditDailyCommission promo rate user profit s)
    = investments s
  ∧ withdrawals (creditDailyCommission promo rate user profit s)
    = withdrawals s
  ∧ adminConfig (creditDailyCommission promo rate user profit s)
    = adminConfig s.
Proof.
  unfold creditDailyCommission.
  destruct (_ && _); [|done].
  destruct (findByReferralCode _ _) as [[rid r]|]; [|done].
  by destruct (bool_decide _).
Qed.

Lemma creditDailyCommission_keep {B} (f : User → B) promo rate user profit s :
  (∀ b u, f (set_balance b u) = f u) →
  f <$> users (creditDailyCommission promo rate user profit s)
  = f <$> users s.
Proof.
  intros Hf. unfold creditDailyCommission.
  destruct (_ && _); [|done].
  destruct (findByReferralCode _ _) as [[rid r]|]; [|done].
  destruct (bool_decide _); [|done].
  simpl. by apply fmap_alter_keep.
Qed.

Section iteration.
Context (today : Z) (promo : bool) (rate : Q).

Local Abbreviation step := (processInvestment today promo rate).

(** An iteration changes neither the status of a user, in the ledger or
    among the populated owners, nor the number of users. *)
Lemma step_statuses s mem p :
  status <$> users (step (s, mem) p).1 = status <$> users s
  ∧ status <$> (step (s, mem) p).2 = status <$> mem.
Proof.
  destruct p as [iid d]. unfold processInvestment, closeIfEnded.
  destruct (mem !! userId d) as [user|].
  2: { by destruct (endDate d <=? today). }
  destruct (bool_decide (status user = blocked)).
  { by destruct (endDate d <=? today). }
  destruct (endDate d <=? today).
  - destruct (bool_decide (_ = activeInvestments user)); [done|].
    simpl. split; by apply fmap_alter_keep.
  - destruct (Qeq_bool _ _); simpl.
    + split; [|done]. by apply creditDailyCommission_keep.
    + split; [|by apply fmap_alter_keep].
      rewrite fmap_alter_keep by done.
      by apply creditDailyCommission_keep.
Qed.

(** An iteration writes to no investment but its own. *)
Lemma step_other_investment s mem iid d j :
  j ≠ iid →
  investments (step (s, mem) (iid, d)).1 !! j = investments s !! j.
Proof.
  intros Hj. unfold processInvestment, closeIfEnded.
  destruct (mem !! userId d) as [user|].
  2: { destruct (endDate d <=? today); [|done].
       simpl. by apply list_lookup_alter_ne. }
  destruct (bool_decide (status user = blocked)).
  { destruct (endDate d <=? today); [|done].
    simpl. by apply list_lookup_alter_ne. }
  destruct (endDate d <=? today).
  - destruct (bool_decide (_ = activeInvestments user)); simpl;
      by apply list_lookup_alter_ne.
  - destruct (creditDailyCommission_frame promo rate user
                (investedAmount d * inv_dailyProfitRate d)%Q s)
      as (_ & Hi & _).
    destruct (Qeq_bool _ _); simpl; rewrite list_lookup_alter_ne by done;
      by rewrite Hi.
Qed.

(** An investment whose owner is idle and which has not ended is skipped. *)
Lemma step_skipped s mem iid d :
  skipped today (status <$> mem) d → step (s, mem) (iid, d) = (s, mem).
Proof.
  intros [Hidle Hend]. unfold processInvestment, closeIfEnded.
  assert ((endDate d <=? today) = false) as -> by lia.
  unfold ownerIdle in Hidle. rewrite list_lookup_fmap in Hidle.
  destruct (mem !! userId d) as [user|]; [|done].
  destruct Hidle as [Hn|Hb]; [done|].
  injection Hb as Hb. by rewrite bool_decide_eq_true_2.
Qed.

(** After its iteration an investment is no longer due, unless it was
    skipped. *)
Lemma step_own_investment s mem iid d x :
  investments (step (s, mem) (iid, d)).1 !! iid = Some x →
  creditDue today x = true →
  skipped today (status <$> mem) d.
Proof.
  unfold processInvestment, closeIfEnded, skipped, ownerIdle.
  rewrite list_lookup_fmap.
  assert (∀ s0 : Ledger,
            investments
              (updateInvestment iid (set_inv_status inv_completed) s0)
            !! iid = Some x →
            creditDue today x = true → False) as Hdone.
  { intros s0 Hx Hdue. simpl in Hx. rewrite list_lookup_alter_eq in Hx.
    destruct (investments s0 !! iid); [|done].
    injection Hx as <-. done. }
  assert (∀ (s0 : Ledger) q,
            investments (updateInvestment iid (set_profit q (Some today)) s0)
            !! iid = Some x →
            creditDue today x = true → False) as Hpaid.
  { intros s0 q Hx Hdue. simpl in Hx. rewrite list_lookup_alter_eq in Hx.
    destruct (investments s0 !! iid); [|done].
    injection Hx as <-. unfold creditDue in Hdue. simpl in Hdue.
    rewrite Z.ltb_irrefl, andb_false_r in Hdue. done. }
  destruct (mem !! userId d) as [user|]; simpl.
  2: { destruct (Z.leb_spec (endDate d) today); intros Hx Hdue.
       - by destruct (Hdone _ Hx Hdue).
       - split; [by left|lia]. }
  destruct (bool_decide (status user = blocked)) eqn:Eb.
  { apply bool_decide_eq_true_1 in Eb.
    destruct (Z.leb_spec (endDate d) today); intros Hx Hdue.
    - by destruct (Hdone _ Hx Hdue).
    - split; [right; by rewrite Eb|lia]. }
  destruct (endDate d <=? today).
  - destruct (bool_decide (_ = activeInvestments user)); intros Hx Hdue.
    + by destruct (Hdone _ Hx Hdue).
    + by destruct (Hdone (updateUser (userId d) id s) Hx Hdue).
  - destruct (Qeq_bool _ _); intros Hx Hdue.
    + by destruct (Hpaid _ _ Hx Hdue).
    + by destruct (Hpaid (updateUser (userId d) id
                            (creditDailyCommission promo rate user
                               (investedAmount d * inv_dailyProfitRate d)%Q
                               s)) _ Hx Hdue).
Qed.
End iteration.

(** ** The daily batch: running it twice *)

Lemma elem_of_findCreditDue today ivs i x :
  (i, x) ∈ findCreditDue today ivs ↔ creditDue today x = true ∧ ivs !! i = Some x.
Proof.
  unfold findCreditDue. rewrite elem_of_filter_imap. simpl.
  by rewrite Is_true_true.
Qed.

(** Loop invariant: an investment that is still due is either waiting in
    the rest of the query result or was skipped. *)
Lemma loop_leaves_only_skipped today promo rate rest s mem :
  (∀ j x, investments s !! j = Some x → creditDue today x = true →
          (j, x) ∈ rest ∨ skipped today (status <$> mem) x) →
  status <$> users (foldl (processInvestment today promo rate) (s, mem) rest).1
  = status <$> users s
  ∧ ∀ j x,
      investments (foldl (processInvestment today promo rate) (s, mem) rest).1
      !! j = Some x →
      creditDue today x = true → skipped today (status <$> mem) x.
Proof.
  revert s mem.
  induction rest as [|[iid d] rest IH]; intros s mem Hinv; cbn [foldl].
  { split; [done|]. intros j x Hj Hdue.
    destruct (Hinv j x Hj Hdue) as [Hin|Hs]; [|done].
    by apply elem_of_nil in Hin. }
  destruct (processInvestment today promo rate (s, mem) (iid, d))
    as [s1 mem1] eqn:Estep.
  pose proof (step_statuses today promo rate s mem (iid, d)) as [Hus Hmem].
  rewrite Estep in Hus, Hmem. simpl in Hus, Hmem.
  destruct (IH s1 mem1) as [Hst Hrest].
  - intros j x Hj Hdue. rewrite Hmem.
    destruct (decide (j = iid)) as [->|Hne].
    + apply (step_own_investment today promo rate s mem iid d x) in Hdue
        as Hskip; [|by rewrite Estep].
      rewrite (step_skipped _ _ _ _ _ _ _ Hskip) in Estep.
      injection Estep as <- <-.
      destruct (Hinv iid x Hj Hdue) as [Hin|Hs]; [|by right].
      apply elem_of_cons in Hin as [E|Hin]; [|by left].
      injection E as ->. by right.
    + pose proof (step_other_investment today promo rate s mem iid d j Hne)
        as Hsame.
      rewrite Estep in Hsame. simpl in Hsame. rewrite Hsame in Hj.
      destruct (Hinv j x Hj Hdue) as [Hin|Hs]; [|by right].
      apply elem_of_cons in Hin as [E|Hin]; [|by left].
      injection E as -> ->. done.
  - split; [by rewrite Hst|]. intros j x Hj Hdue. rewrite <- Hmem.
    by apply (Hrest j).
Qed.

Lemma loop_all_skipped today promo rate rest s mem :
  (∀ p, p ∈ rest → skipped today (status <$> mem) p.2) →
  foldl (processInvestment today promo rate) (s, mem) rest = (s, mem).
Proof.
  induction rest as [|[iid d] rest IH]; intros Hall; [done|]. cbn [foldl].
  rewrite step_skipped.
  - apply IH. intros p Hp. apply Hall. by right.
  - apply (Hall (iid, d)). by left.
Qed.

(** C2: the batch is idempotent within a day.  For every ledger, a second
    run with the same [today] returns the ledger of the first run unchanged:
    no user balance and no accumulated profit moves.  The reason is the
    gate: an investment credited in a run carries [today] as its last
    credit date, and the query does not select it again. *)
Theorem daily_batch_idempotent (today : Z) (s : Ledger) :
  processDailyProfitsAndCommissions today
    (processDailyProfitsAndCommissions today s)
  = processDailyProfitsAndCommissions today s
  ∧ ∀ i : Investment,
      lastProfitCreditDate i = Some today → creditDue today i = false.
Proof.
  split.
  2: { intros i Hi. unfold creditDue. rewrite Hi.
       by rewrite Z.ltb_irrefl, andb_false_r. }
  unfold processDailyProfitsAndCommissions at 2 3.
  set (promo := match adminConfig s with
                | Some cfg => isPromotionActive cfg | None => false end).
  set (rate := match adminConfig s with
               | Some cfg => commissionOnDailyProfit cfg | None => 0%Q end).
  destruct (loop_leaves_only_skipped today promo rate
              (findCreditDue today (investments s)) s (users s))
    as [Hst Hskip].
  { intros j x Hj Hdue. left. by apply elem_of_findCreditDue. }
  set (s1 := (foldl (processInvestment today promo rate) (s, users s)
                (findCreditDue today (investments s))).1) in *.
  unfold processDailyProfitsAndCommissions.
  rewrite loop_all_skipped; [done|].
  intros [j x] Hin. apply elem_of_findCreditDue in Hin as [Hdue Hj].
  rewrite Hst. by apply (Hskip j).
Qed.

Lemma daily_batch_idempotent_witness :
  processDailyProfitsAndCommissions ex_tomorrow
    (processDailyProfitsAndCommissions ex_tomorrow ex_invested)
  = processDailyProfitsAndCommissions ex_tomorrow ex_invested
  ∧ creditDue ex_tomorrow
      (mkInvestment 1 0 500 (2 # 100) ex_now (addDays ex_now 60)
         (0 + 500 * (2 # 100)) (Some ex_tomorrow) inv_active) = false.
Proof.
  destruct (daily_batch_idempotent ex_tomorrow ex_invested) as [Hrun Hgate].
  split; [exact Hrun|]. apply Hgate. reflexivity.
Defined.

(** ** The daily batch: owners' active lists *)

Section iteration_lists.
Context (today : Z) (promo : bool) (rate : Q).

Local Abbreviation step := (processInvestment today promo rate).

(** The ledger and the populated owners agree on the active lists, and
    an iteration keeps it so. *)
Lemma step_agreement s mem p :
  activeInvestments <$> users s = activeInvestments <$> mem →
  activeInvestments <$> users (step (s, mem) p).1
  = activeInvestments <$> (step (s, mem) p).2.
Proof.
  intros Hag. destruct p as [iid d]. unfold processInvestment, closeIfEnded.
  destruct (mem !! userId d) as [user|].
  2: { by destruct (endDate d <=? today). }
  destruct (bool_decide (status user = blocked)).
  { by destruct (endDate d <=? today). }
  destruct (endDate d <=? today).
  - destruct (bool_decide (_ = activeInvestments user)); [done|]. simpl.
    rewrite !(list_fmap_alter activeInvestments _
                (λ _, filter (λ id, id ≠ iid) (activeInvestments user)));
      [by rewrite Hag|by apply Forall_forall..].
  - destruct (Qeq_bool _ _); simpl.
    + by rewrite creditDailyCommission_keep.
    + rewrite !fmap_alter_keep by done.
      by rewrite creditDailyCommission_keep.
Qed.

(** The active list of a populated owner only loses entries. *)
Lemma step_lists_shrink s mem p k l' :
  (activeInvestments <$> (step (s, mem) p).2) !! k = Some l' →
  ∃ l, (activeInvestments <$> mem) !! k = Some l ∧ l' ⊆ l.
Proof.
  destruct p as [iid d]. unfold processInvestment, closeIfEnded.
  assert (∀ m : list User,
            (activeInvestments <$> m) !! k = Some l' →
            ∃ l, (activeInvestments <$> m) !! k = Some l ∧ l' ⊆ l) as Hsame.
  { intros m Hm. by exists l'. }
  destruct (mem !! userId d) as [user|] eqn:Eu; [|by apply Hsame].
  destruct (bool_decide (status user = blocked)); [by apply Hsame|].
  destruct (endDate d <=? today).
  - destruct (bool_decide (_ = activeInvestments user)); [by apply Hsame|].
    simpl. rewrite !list_lookup_fmap.
    destruct (decide (userId d = k)) as [<-|Hne].
    + rewrite list_lookup_alter_eq, Eu. simpl. intros [= <-].
      eexists. split; [done|]. intros x Hx.
      by apply list_elem_of_filter in Hx as [_ Hx].
    + rewrite list_lookup_alter_ne by done. intros Hk. by exists l'.
  - destruct (Qeq_bool _ _); simpl; [by apply Hsame|].
    rewrite fmap_alter_keep by done. by apply Hsame.
Qed.


Lemma loop_frame rest s mem :
  status <$> (foldl step (s, mem) rest).2 = status <$> mem
  ∧ (activeInvestments <$> users s = activeInvestments <$> mem →
     activeInvestments <$> users (foldl step (s, mem) rest).1
     = activeInvestments <$> (foldl step (s, mem) rest).2)
  ∧ (∀ j, j ∉ rest.*1 →
       investments (foldl step (s, mem) rest).1 !! j = investments s !! j)
  ∧ (∀ k l', (activeInvestments <$> (foldl step (s, mem) rest).2) !! k
             = Some l' →
       ∃ l, (activeInvestments <$> mem) !! k = Some l ∧ l' ⊆ l).
Proof.
  revert s mem.
  induction rest as [|[iid d] rest IH]; intros s mem; cbn [foldl].
  { repeat split; try done. intros k l' Hk. by exists l'. }
  destruct (step (s, mem) (iid, d)) as [s1 mem1] eqn:Estep.
  destruct (IH s1 mem1) as (Hst & Hag & Hinv & Hshrink).
  pose proof (step_statuses today promo rate s mem (iid, d)) as [_ Hst1].
  pose proof (step_agreement s mem (iid, d)) as Hag1.
  pose proof (step_lists_shrink s mem (iid, d)) as Hshrink1.
  rewrite Estep in Hst1, Hag1, Hshrink1. simpl in Hst1, Hag1, Hshrink1.
  split; [by rewrite Hst|]. split; [auto|]. split.
  - intros j Hj. rewrite fmap_cons, not_elem_of_cons in Hj.
    destruct Hj as [Hne Hj]. simpl in Hne. rewrite Hinv by done.
    pose proof (step_other_investment today promo rate s mem iid d j Hne)
      as Hsame.
    by rewrite Estep in Hsame.
  - intros k l' Hk.
    destruct (Hshrink k l' Hk) as (l1 & Hl1 & Hsub1).
    destruct (Hshrink1 k l1 Hl1) as (l & Hl & Hsub).
    exists l. split; [done|]. by transitivity l1.
Qed.
End iteration_lists.

(** ** The daily batch: investments that reached their end date *)

Lemma batch_leaves_unselected today s j :
  j ∉ (findCreditDue today (investments s)).*1 →
  investments (processDailyProfitsAndCommissions today s) !! j
  = investments s !! j.
Proof.
  intros Hj. unfold processDailyProfitsAndCommissions.
  by apply loop_frame.
Qed.

(** A run of the batch writes to no investment that is not active. *)
Lemma batch_leaves_inactive today s j x :
  investments s !! j = Some x → inv_status x ≠ inv_active →
  investments (processDailyProfitsAndCommissions today s) !! j = Some x.
Proof.
  intros Hj Hst. rewrite batch_leaves_unselected; [done|].
  intros Hin. apply list_elem_of_fmap in Hin as ([j' y] & -> & Hin).
  apply elem_of_findCreditDue in Hin as [Hdue Hy]. simpl in *.
  assert (y = x) as -> by congruence.
  unfold creditDue in Hdue. by rewrite bool_decide_eq_false_2 in Hdue.
Qed.



(** ** Ended investments pass the query *)

(** An investment whose last credit lies before its end date passes the
    date filter of the query once the end date is reached. *)
Lemma ended_investment_is_due today i :
  creditBeforeEnd i → endDate i ≤ today → inv_status i = inv_active →
  creditDue today i = true.
Proof.
  unfold creditBeforeEnd, creditDue. intros Hb He ->.
  rewrite bool_decide_eq_true_2 by done.
  destruct (lastProfitCreditDate i); [|done]. simpl. apply Z.ltb_lt. lia.
Qed.

Lemma activate_keeps_creditBeforeEnd now uid pid s :
  (∀ k p, plans s !! k = Some p → 0 < durationDays p) →
  Forall creditBeforeEnd (investments s) →
  Forall creditBeforeEnd (investments (activateInvestment now uid pid s).1).
Proof.
  intros Hd Hs. unfold activateInvestment.
  destruct pid as [[|pid]|]; [done| |done].
  destruct (users s !! uid) as [user|]; [|done].
  destruct (plans s !! pid) as [plan|] eqn:Ep; [|done].
  destruct (negb (isActive plan)); [done|].
  destruct (0 <? length (activeInvestments user))%nat; [done|].
  destruct (Qle_bool _ _); [done|]. destruct (Qltb _ _); [done|]. simpl.
  destruct (creditActivationCommission_frame user (minAmount plan)
              (updateUser uid
                 (λ u, set_activeInvestments
                         (activeInvestments user ++ [length (investments s)])
                         (set_balance (balance user - minAmount plan)%Q u))
                 (with_investments
                    (investments s
                     ++ [mkInvestment uid pid (minAmount plan)
                           (dailyProfitRate plan) now
                           (addDays now (durationDays plan)) 0%Q (Some now)
                           inv_active]) s))) as (_ & -> & _).
  simpl. apply Forall_app_2; [done|]. apply Forall_singleton.
  unfold creditBeforeEnd, addDays, msPerDay. simpl.
  specialize (Hd pid plan Ep). lia.
Qed.

Lemma upgrade_keeps_creditBeforeEnd now uid pid s :
  (∀ k p, plans s !! k = Some p → 0 < durationDays p) →
  Forall creditBeforeEnd (investments s) →
  Forall creditBeforeEnd (investments (upgradeInvestment now uid pid s).1).
Proof.
  intros Hd Hs. unfold upgradeInvestment.
  destruct pid as [[|pid]|]; [done| |done].
  destruct (users s !! uid) as [user|]; [|done].
  destruct (plans s !! pid) as [newPlan|] eqn:Ep; [|done].
  destruct (negb (isActive newPlan)); [done|].
  destruct (activeInvestments user) as [|first others]; [done|].
  destruct (investments s !! first) as [cur|]; [|done].
  destruct (Qle_bool _ _). { by destruct (plans s !! planId cur). }
  destruct (Qltb _ _); [done|].
  assert (Forall creditBeforeEnd
            (alter (set_plan pid (minAmount newPlan) (dailyProfitRate newPlan)
                      (addDays now (durationDays newPlan)) (Some now)) first
               (investments s))) as Hnew.
  { apply Forall_alter; [done|]. intros x _ _.
    unfold creditBeforeEnd, addDays, msPerDay. simpl.
    specialize (Hd pid newPlan Ep). lia. }
  destruct (plans s !! planId cur); [|done]. simpl.
  by destruct (creditActivationCommission_frame user
                 (minAmount newPlan - investedAmount cur)%Q
                 (updateUser uid
                    (set_balance
                       (balance user
                        - (minAmount newPlan - investedAmount cur))%Q)
                    (updateInvestment first
                       (set_plan pid (minAmount newPlan)
                          (dailyProfitRate newPlan)
                          (addDays now (durationDays newPlan)) (Some now)) s)))
    as (_ & -> & _).
Qed.

(** What an iteration writes to the investments: nothing, a completion, or
    a credit dated [today] on an investment that has not ended. *)
Lemma step_investments_shape today promo rate s mem iid d :
  investments (processInvestment today promo rate (s, mem) (iid, d)).1
  = investments s
  ∨ investments (processInvestment today promo rate (s, mem) (iid, d)).1
    = alter (set_inv_status inv_completed) iid (investments s)
  ∨ today < endDate d
    ∧ ∃ q, investments (processInvestment today promo rate (s, mem) (iid, d)).1
           = alter (set_profit q (Some today)) iid (investments s).
Proof.
  unfold processInvestment, closeIfEnded.
  destruct (mem !! userId d) as [user|].
  2: { destruct (endDate d <=? today); [right|]; by left. }
  destruct (bool_decide (status user = blocked)).
  { destruct (endDate d <=? today); [right|]; by left. }
  destruct (Z.leb_spec (endDate d) today).
  - right. left. by destruct (bool_decide (_ = activeInvestments user)).
  - right. right. split; [done|]. eexists.
    destruct (creditDailyCommission_frame promo rate user
                (investedAmount d * inv_dailyProfitRate d)%Q s)
      as (_ & Hinv & _).
    destruct (Qeq_bool _ _); simpl; by rewrite Hinv.
Qed.

Lemma loop_keeps_creditBeforeEnd today promo rate rest s mem :
  NoDup rest.*1 →
  (∀ j d, (j, d) ∈ rest → investments s !! j = Some d) →
  Forall creditBeforeEnd (investments s) →
  Forall creditBeforeEnd
    (investments (foldl (processInvestment today promo rate) (s, mem) rest).1).
Proof.
  revert s mem.
  induction rest as [|[iid d] rest IH]; intros s mem Hnd Hrest Hs; [done|].
  cbn [foldl]. rewrite fmap_cons in Hnd. apply NoDup_cons in Hnd as [Hi Hnd].
  pose proof (step_investments_shape today promo rate s mem iid d) as Hshape.
  pose proof (step_other_investment today promo rate s mem iid d) as Hother.
  destruct (processInvestment today promo rate (s, mem) (iid, d))
    as [s1 mem1]. simpl in Hshape, Hother, Hi.
  apply IH; [done| |].
  - intros j d' Hin. rewrite Hother.
    + apply Hrest. by right.
    + intros ->. apply Hi. apply list_elem_of_fmap. by exists (iid, d').
  - destruct Hshape as [->|[->|[Hend [q ->]]]]; [done| |].
    + apply Forall_alter; [done|]. by intros x _ Hx.
    + apply Forall_alter; [done|]. intros x Hx _.
      assert (x = d) as ->.
      { specialize (Hrest iid d). rewrite Hx in Hrest.
        symmetry. injection (Hrest ltac:(by left)) as ->. done. }
      done.
Qed.

(** The batch keeps every last credit before the end date. *)
Lemma batch_keeps_creditBeforeEnd today s :
  Forall creditBeforeEnd (investments s) →
  Forall creditBeforeEnd
    (investments (processDailyProfitsAndCommissions today s)).
Proof.
  intros Hs. unfold processDailyProfitsAndCommissions.
  apply loop_keeps_creditBeforeEnd; [|by intros j d [_ ?]%elem_of_findCreditDue|done].
  apply (NoDup_fst_filter_imap (λ p, creditDue today p.2)).
Qed.

(** ** The daily batch: owners that are missing or blocked *)

(** The iteration of an investment whose populated owner is missing or
    blocked writes to no user, so it credits neither profit nor commission
    and leaves the owner's active list as it is; it completes the
    investment when the end date is reached and does nothing otherwise. *)
Lemma step_idle_owner today promo rate s mem iid d :
  ownerIdle (status <$> mem) d →
  processInvestment today promo rate (s, mem) (iid, d)
  = (if endDate d <=? today
     then updateInvestment iid (set_inv_status inv_completed) s
     else s, mem)
  ∧ users (processInvestment today promo rate (s, mem) (iid, d)).1 = users s.
Proof.
  intros Hidle. unfold ownerIdle in Hidle. rewrite list_lookup_fmap in Hidle.
  unfold processInvestment, closeIfEnded.
  destruct (mem !! userId d) as [user|].
  - destruct Hidle as [Hn|Hb]; [done|]. injection Hb as Hb.
    rewrite bool_decide_eq_true_2 by done.
    by destruct (endDate d <=? today).
  - by destruct (endDate d <=? today).
Qed.

Lemma creditDailyCommission_blocked_untouched promo rate user profit s uid :
  (status <$> users s) !! uid = Some blocked →
  users (creditDailyCommission promo rate user profit s) !! uid
  = users s !! uid.
Proof.
  intros Hb. unfold creditDailyCommission.
  destruct (_ && _); [|done].
  destruct (findByReferralCode _ _) as [[rid r]|] eqn:Ef; [|done].
  destruct (bool_decide (status r = active)) eqn:Ea; [|done].
  apply bool_decide_eq_true_1 in Ea.
  apply findByReferralCode_Some in Ef as [Hr _].
  apply users_updateUser_ne. intros ->.
  rewrite list_lookup_fmap, Hr in Hb. simpl in Hb. congruence.
Qed.

Lemma step_blocked_untouched today promo rate s mem p uid :
  (status <$> mem) !! uid = Some blocked →
  (status <$> users s) !! uid = Some blocked →
  users (processInvestment today promo rate (s, mem) p).1 !! uid
  = users s !! uid.
Proof.
  intros Hm Hs. destruct p as [iid d]. unfold processInvestment, closeIfEnded.
  destruct (mem !! userId d) as [user|] eqn:Eu.
  2: { by destruct (endDate d <=? today). }
  destruct (bool_decide (status user = blocked)) eqn:Eb.
  { by destruct (endDate d <=? today). }
  apply bool_decide_eq_false_1 in Eb.
  assert (userId d ≠ uid) as Hne.
  { intros <-. rewrite list_lookup_fmap, Eu in Hm. simpl in Hm. congruence. }
  destruct (endDate d <=? today).
  - destruct (bool_decide (_ = activeInvestments user)); [done|].
    simpl. by apply list_lookup_alter_ne.
  - destruct (Qeq_bool _ _); simpl.
    + by apply creditDailyCommission_blocked_untouched.
    + rewrite list_lookup_alter_ne by done.
      by apply creditDailyCommission_blocked_untouched.
Qed.

Lemma loop_blocked_untouched today promo rate rest s mem uid :
  (status <$> mem) !! uid = Some blocked →
  (status <$> users s) !! uid = Some blocked →
  users (foldl (processInvestment today promo rate) (s, mem) rest).1 !! uid
  = users s !! uid.
Proof.
  revert s mem.
  induction rest as [|p rest IH]; intros s mem Hm Hs; [done|]. cbn [foldl].
  pose proof (step_statuses today promo rate s mem p) as [Hus Hmem].
  pose proof (step_blocked_untouched today promo rate s mem p uid Hm Hs)
    as Huid.
  destruct (processInvestment today promo rate (s, mem) p) as [s1 mem1].
  simpl in Hus, Hmem, Huid. rewrite <- Huid.
  apply IH; [by rewrite Hmem|by rewrite Hus].
Qed.

(** A blocked user is left as it is by a run of the batch: it is credited
    neither profit nor commission, and its active list is not touched. *)
Lemma batch_leaves_blocked_user today s uid u :
  users s !! uid = Some u → status u = blocked →
  users (processDailyProfitsAndCommissions today s) !! uid = Some u.
Proof.
  intros Hu Hb. unfold processDailyProfitsAndCommissions.
  rewrite loop_blocked_untouched; [done|..];
    by rewrite list_lookup_fmap, Hu, <- Hb.
Qed.

(** A selected investment whose end date is reached and whose owner is
    missing or blocked is completed by the run, with its accumulated profit
    as it was. *)
Lemma idle_owner_investment_is_completed today s iid inv :
  investments s !! iid = Some inv →
  creditDue today inv = true →
  endDate inv ≤ today →
  ownerIdle (status <$> users s) inv →
  investments (processDailyProfitsAndCommissions today s) !! iid
  = Some (set_inv_status inv_completed inv).
Proof.
  intros Hi Hdue Hend Hidle. unfold processDailyProfitsAndCommissions.
  set (promo := match adminConfig s with
                | Some cfg => isPromotionActive cfg | None => false end).
  set (rate := match adminConfig s with
               | Some cfg => commissionOnDailyProfit cfg | None => 0%Q end).
  assert ((iid, inv) ∈ findCreditDue today (investments s)) as Hin.
  { by apply elem_of_findCreditDue. }
  pose proof (NoDup_fst_filter_imap (λ p, creditDue today p.2)
                (investments s)) as Hnd.
  fold (findCreditDue today (investments s)) in Hnd.
  apply list_elem_of_split in Hin as (l1 & l2 & Hsplit).
  rewrite Hsplit in Hnd |- *. rewrite fmap_app, fmap_cons in Hnd.
  apply NoDup_app in Hnd as (_ & Hl1 & Hnd).
  apply NoDup_cons in Hnd as [Hl2 _]. simpl in Hl1, Hl2.
  assert (iid ∉ l1.*1) as Hl1'.
  { intros Hx. apply (Hl1 iid Hx). by left. }
  rewrite foldl_app. cbn [foldl].
  destruct (loop_frame today promo rate l1 s (users s))
    as (Hsta & _ & Hinva & _).
  destruct (foldl (processInvestment today promo rate) (s, users s) l1)
    as [sa ma]. simpl in Hsta, Hinva.
  rewrite <- Hsta in Hidle.
  destruct (step_idle_owner today promo rate sa ma iid inv Hidle) as [Hstep _].
  rewrite Hstep. assert ((endDate inv <=? today) = true) as -> by lia.
  destruct (loop_frame today promo rate l2
              (updateInvestment iid (set_inv_status inv_completed) sa) ma)
    as (_ & _ & Hinvf & _).
  rewrite (Hinvf iid Hl2). simpl.
  by rewrite list_lookup_alter_eq, (Hinva iid Hl1'), Hi.
Qed.

(** C8 fails on the code: A is blocked and its investment has reached its
    end date; the batch completes the investment and credits nothing, but
    the investment is still in A's active list. *)
Theorem blocked_owner_investment_stays_listed :
  users ex_blocked_owner !! 1%nat
  = Some (set_status blocked
            (set_activeInvestments [0%nat]
               (set_balance (1000 - 500)%Q ex_investor)))
  ∧ investments ex_blocked_owner = [ex_investment 1]
  ∧ endDate (ex_investment 1) ≤ ex_after_term
  ∧ investments (processDailyProfitsAndCommissions ex_after_term
                   ex_blocked_owner)
    = [set_inv_status inv_completed (ex_investment 1)]
  ∧ users (processDailyProfitsAndCommissions ex_after_term ex_blocked_owner)
    = users ex_blocked_owner
  ∧ (activeInvestments
       <$> users (processDailyProfitsAndCommissions ex_after_term
                    ex_blocked_owner) !! 1%nat)
    = Some [0%nat].
Proof.
  split; [reflexivity|]. split; [reflexivity|].
  split; [vm_compute; discriminate|].
  split; [reflexivity|]. split; reflexivity.
Qed.

(** ** The daily batch: crediting profit *)

(** The iteration of an investment that has not ended, with an active
    populated owner: the investment gains the daily profit and carries
    [today] as last credit date; the owner's stored balance becomes the
    populated balance plus the profit. *)
Lemma step_accrues today promo rate s mem iid d user stored :
  mem !! userId d = Some user → status user = active →
  today < endDate d →
  investments s !! iid = Some d →
  users s !! userId d = Some stored →
  ¬ (investedAmount d * inv_dailyProfitRate d == 0)%Q →
  investments (processInvestment today promo rate (s, mem) (iid, d)).1 !! iid
  = Some (set_profit
            (currentProfit d + investedAmount d * inv_dailyProfitRate d)%Q
            (Some today) d)
  ∧ (balance
       <$> users (processInvestment today promo rate (s, mem) (iid, d)).1
           !! userId d)
    = Some (balance user + investedAmount d * inv_dailyProfitRate d)%Q.
Proof.
  intros Hu Hst Hend Hi Hs Hp. unfold processInvestment.
  rewrite Hu, Hst. rewrite bool_decide_eq_false_2 by done.
  assert ((endDate d <=? today) = false) as -> by lia.
  destruct (creditDailyCommission_frame promo rate user
              (investedAmount d * inv_dailyProfitRate d)%Q s) as (_ & Hinv & _).
  assert (is_Some (users (creditDailyCommission promo rate user
                            (investedAmount d * inv_dailyProfitRate d)%Q s)
                   !! userId d)) as [stored' Hs'].
  { apply lookup_lt_is_Some.
    rewrite <- (length_fmap status), creditDailyCommission_keep by done.
    rewrite length_fmap. by apply lookup_lt_Some in Hs. }
  destruct (Qeq_bool _ _) eqn:Eq.
  { apply Qeq_bool_iff in Eq. destruct Hp.
    apply (Qplus_inj_l _ _ (balance user)). by rewrite Eq, Qplus_0_r. }
  simpl. rewrite !list_lookup_alter_eq, Hinv, Hi, Hs'. done.
Qed.

(** In the same iteration an active referrer other than the owner is
    credited, in the ledger, with the commission on the daily profit. *)
Lemma step_pays_commission today rate s mem iid d user code rid r :
  mem !! userId d = Some user → status user = active →
  today < endDate d →
  (0 < rate)%Q →
  invitedBy user = Some code → truthy code = true →
  findByReferralCode code (users s) = Some (rid, r) →
  status r = active → rid ≠ userId d →
  users (processInvestment today true rate (s, mem) (iid, d)).1 !! rid
  = Some (set_balance
            (balance r + investedAmount d * inv_dailyProfitRate d * rate)%Q r).
Proof.
  intros Hu Hst Hend Hrate Hi Ht Hf Hr Hne. unfold processInvestment.
  rewrite Hu, Hst. rewrite bool_decide_eq_false_2 by done.
  assert ((endDate d <=? today) = false) as -> by lia.
  assert (users (creditDailyCommission true rate user
                   (investedAmount d * inv_dailyProfitRate d)%Q s) !! rid
          = Some (set_balance
                    (balance r
                     + investedAmount d * inv_dailyProfitRate d * rate)%Q r))
    as Hpaid.
  { unfold creditDailyCommission. apply Qltb_lt in Hrate.
    rewrite Hrate, Hi. simpl. rewrite Ht, Hf, Hr. simpl.
    rewrite list_lookup_alter_eq.
    by apply findByReferralCode_Some in Hf as [-> _]. }
  destruct (Qeq_bool _ _); simpl; [done|].
  by rewrite list_lookup_alter_ne.
Qed.

(** C5 fails on the code: R and A both hold an investment and A's comes
    first in the query result.  R = user 0 starts at 600 and A = user 1 at
    500; the daily profit of each is 10 and the commission on A's profit is
    0.2.  After the run A holds 510 and R holds 610: the commission credited
    during A's iteration is overwritten when R's own iteration saves the
    balance populated before the loop.  With R's investment first, R holds
    610.2. *)
Theorem accrual_overwrites_referrer_commission :
  (balanceOf ex_investor_first 0 == 600)%Q
  ∧ (balanceOf ex_investor_first 1 == 500)%Q
  ∧ (balanceOf (processDailyProfitsAndCommissions ex_tomorrow
                  ex_investor_first) 1 == 510)%Q
  ∧ (balanceOf (processDailyProfitsAndCommissions ex_tomorrow
                  ex_investor_first) 0 == 610)%Q
  ∧ ¬ (balanceOf (processDailyProfitsAndCommissions ex_tomorrow
                    ex_investor_first) 0 == 600 + 10 + 10 * (2 # 100))%Q
  ∧ (balanceOf (processDailyProfitsAndCommissions ex_tomorrow
                  ex_referrer_first) 0 == 600 + 10 + 10 * (2 # 100))%Q.
Proof.
  split; [reflexivity|]. split; [reflexivity|]. split; [reflexivity|].
  split; [reflexivity|]. split; [|reflexivity].
  vm_compute. discriminate.
Qed.

(** The scenario of the specification: the run of the next day credits A
    with 10 and R with 0.2. *)
Example scenario_accrual :
  (balanceOf ex_invested 1 == 500)%Q
  ∧ (balanceOf ex_invested 0 == 125)%Q
  ∧ (balanceOf (processDailyProfitsAndCommissions ex_tomorrow ex_invested) 1
     == 500 + 10)%Q
  ∧ (balanceOf (processDailyProfitsAndCommissions ex_tomorrow ex_invested) 0
     == 125 + (2 # 10))%Q.
Proof. repeat (split; [reflexivity|]). reflexivity. Qed.

(** ** The three commission sites *)

(** Activation pays the referrer whatever its status: the block tests only
    that the inviter was found. *)
Lemma activation_pays_referrer_of_any_status now uid pid s s' id user rid r
    rate :
  activateInvestment now uid (Some (ObjectId pid)) s = (s', Created id) →
  users s !! uid = Some user →
  invitedBy user ≠ referralCode user →
  referrerAt s user rid r rate →
  ∃ plan r',
    plans s !! pid = Some plan ∧ users s' !! rid = Some r'
    ∧ balance r' = (balance r + minAmount plan * rate)%Q.
Proof.
  intros H Hu Hself Hr.
  apply activateInvestment_success in H
    as (user0 & plan & Hu0 & Hp & _ & _ & _ & _ & -> & ->).
  assert (user0 = user) as -> by congruence.
  exists plan. eexists. split; [done|].
  split; [by apply (commission_after_user_write _ _ _ _ _ rid r rate)|done].
Qed.

(** The daily batch pays a referrer that is not active nothing. *)
Lemma daily_commission_skips_blocked_referrer promo rate user profit s code
    rid r :
  invitedBy user = Some code →
  findByReferralCode code (users s) = Some (rid, r) →
  status r = blocked →
  creditDailyCommission promo rate user profit s = s.
Proof.
  intros Hi Hf Hb. unfold creditDailyCommission.
  destruct (_ && _); [|done]. rewrite Hi. simpl. rewrite Hf, Hb.
  by rewrite bool_decide_eq_false_2.
Qed.

(** C1 fails on the code: R is blocked; A's activation and A's upgrade
    each credit R with the activation commission (25 on the price of 500,
    15 on the difference of 300), where the daily batch credits a blocked
    referrer with nothing. *)
Theorem blocked_referrer_is_paid_on_activation :
  (status <$> users (ex_ledger blocked) !! 0%nat) = Some blocked
  ∧ (balanceOf (ex_ledger blocked) 0 == 100)%Q
  ∧ (balanceOf
       (activateInvestment ex_now 1 (Some (ObjectId 0%nat)) (ex_ledger blocked)).1 0
     == 100 + 25)%Q
  ∧ (balanceOf
       (upgradeInvestment ex_now 1 (Some (ObjectId 1%nat))
          (activateInvestment ex_now 1 (Some (ObjectId 0%nat)) (ex_ledger blocked)).1).1
       0
     == 100 + 25 + 15)%Q
  ∧ (balanceOf
       (processDailyProfitsAndCommissions ex_tomorrow
          (activateInvestment ex_now 1 (Some (ObjectId 0%nat)) (ex_ledger blocked)).1) 0
     == 100 + 25)%Q.
Proof. repeat (split; [reflexivity|]). reflexivity. Qed.

(** * Properties of the rest of the code *)

(** ** Blocking, unblocking and the middleware *)

Lemma ledger_eq s t :
  users s = users t → plans s = plans t → investments s = investments t →
  withdrawals s = withdrawals t → adminConfig s = adminConfig t → s = t.
Proof. destruct s, t. simpl. by intros -> -> -> -> ->. Qed.

Lemma alter_restores {A} (f : A → A) i (l : list A) x :
  l !! i = Some x → f x = x → alter f i l = l.
Proof.
  intros Hl Hf. apply list_eq. intros j.
  destruct (decide (i = j)) as [<-|Hne].
  - rewrite list_lookup_alter_eq, Hl. simpl. by rewrite Hf.
  - by rewrite list_lookup_alter_ne.
Qed.

Lemma blockUser_ok id s s' :
  blockUser id s = (s', AdminOk) →
  ∃ u, users s !! id = Some u ∧ isAdmin u = false
       ∧ s' = updateUser id (set_status blocked) s.
Proof.
  unfold blockUser. destruct (users s !! id) as [u|]; [|done].
  destruct (isAdmin u) eqn:E; [done|]. intros [= <-]. by exists u.
Qed.

(** X1: once [blockUser] has blocked a user, every route behind [protect]
    answers that user's token with 403 and leaves the ledger alone, a login
    with that user's phone number, padded with white space or not, answers
    403 whatever the password, and no run of the daily batch changes the
    user's document. *)
Theorem blocked_user_is_locked_out (id : nat) (s s' : Ledger) :
  blockUser id s = (s', AdminOk) →
  (∀ R (handler : nat → Ledger → Ledger * R),
     userRoute handler (Token id) s' = (s', inl AccountBlocked)
     ∧ adminRoute handler (Token id) s' = (s', inl AccountBlocked))
  ∧ denialStatus AccountBlocked = 403%nat
  ∧ (∀ matchPassword phone pass u,
       truthy phone = true → truthy pass = true →
       list_find (λ v, phoneNumber v = trim phone) (users s') = Some (id, u) →
       loginUser matchPassword phone pass s' = LoginBlocked)
  ∧ ∀ today,
      users (processDailyProfitsAndCommissions today s') !! id
      = users s' !! id.
Proof.
  intros H. apply blockUser_ok in H as (u & Hu & Ha & ->).
  assert (users (updateUser id (set_status blocked) s) !! id
          = Some (set_status blocked u)) as Hb.
  { by apply users_updateUser_eq. }
  split; [|split; [done|split]].
  - intros R handler. unfold userRoute, adminRoute, protect. by rewrite Hb.
  - intros m phone pass v Hp Hw Hf. unfold loginUser.
    rewrite Hp, Hw, Hf. simpl.
    apply list_find_Some in Hf as (Hv & _ & _).
    rewrite Hb in Hv. injection Hv as <-. done.
  - intros today. rewrite Hb.
    by apply batch_leaves_blocked_user.
Qed.

Lemma blocked_user_is_locked_out_witness :
  (∀ R (handler : nat → Ledger → Ledger * R),
     userRoute handler (Token 1) (blockUser 1 ex_invested).1
     = ((blockUser 1 ex_invested).1, inl AccountBlocked)
     ∧ adminRoute handler (Token 1) (blockUser 1 ex_invested).1
       = ((blockUser 1 ex_invested).1, inl AccountBlocked))
  ∧ denialStatus AccountBlocked = 403%nat
  ∧ (∀ matchPassword phone pass u,
       truthy phone = true → truthy pass = true →
       list_find (λ v, phoneNumber v = trim phone)
         (users (blockUser 1 ex_invested).1) = Some (1%nat, u) →
       loginUser matchPassword phone pass (blockUser 1 ex_invested).1
       = LoginBlocked)
  ∧ ∀ today,
      users (processDailyProfitsAndCommissions today
               (blockUser 1 ex_invested).1) !! 1%nat
      = users (blockUser 1 ex_invested).1 !! 1%nat.
Proof.
  apply (blocked_user_is_locked_out 1 ex_invested (blockUser 1 ex_invested).1).
  reflexivity.
Defined.

(** X2: blocking an active user that is not an administrator and then
    unblocking it gives back the ledger as it was, and both calls answer
    200. *)
Theorem block_then_unblock_restores (id : nat) (s : Ledger) (u : User) :
  users s !! id = Some u → isAdmin u = false → status u = active →
  (blockUser id s).2 = AdminOk
  ∧ unblockUser id (blockUser id s).1 = (s, AdminOk).
Proof.
  intros Hu Ha Hst. unfold blockUser. rewrite Hu, Ha. split; [done|].
  unfold unblockUser. cbn [fst].
  rewrite (users_updateUser_eq _ _ _ _ Hu). f_equal.
  apply ledger_eq; try done. simpl.
  rewrite list_alter_alter_eq. apply (alter_restores _ _ _ u); [done|].
  destruct u. simpl in *. by subst.
Qed.

Lemma block_then_unblock_restores_witness :
  (blockUser 1 ex_invested).2 = AdminOk
  ∧ unblockUser 1 (blockUser 1 ex_invested).1 = (ex_invested, AdminOk).
Proof.
  apply (block_then_unblock_restores 1 ex_invested
           (set_activeInvestments [0%nat]
              (set_balance (1000 - 500)%Q ex_investor))); reflexivity.
Defined.

(** ** The initial administrator *)

Lemma ensureConfig_users b :
  users (ledger (ensureConfig b)) = users (ledger b).
Proof. unfold ensureConfig. by destruct (adminConfig (ledger b)). Qed.

Lemma ensureConfig_idemp b : ensureConfig (ensureConfig b) = ensureConfig b.
Proof. unfold ensureConfig. by destruct (adminConfig (ledger b)) eqn:E; simpl; rewrite ?E. Qed.

Lemma ensureConfig_has_config b :
  is_Some (adminConfig (ledger (ensureConfig b))).
Proof. unfold ensureConfig. destruct (adminConfig (ledger b)) eqn:E; simpl; rewrite ?E; eauto. Qed.

Lemma createInitialAdmin_created code b :
  list_find (λ u, isAdmin u = true) (users (ledger b)) = None →
  list_find (λ u, phoneNumber u = "848441231"%string) (users (ledger b))
  = None →
  duplicateKey (initialAdminUser code) (users (ledger b)) = false →
  createInitialAdmin code b
  = ensureConfig
      (with_ledger
         (with_users (users (ledger b) ++ [initialAdminUser code]) (ledger b))
         b).
Proof.
  intros Ha Hp Hd. unfold createInitialAdmin. rewrite Ha, Hp.
  fold (initialAdminUser code). by rewrite Hd.
Qed.

(** A registration that passes the input checks with the visitor id of an
    active account blocks that account. *)
Lemma registerUser_blocks_account fuel draws phone pass visitor invite s k
    owner :
  truthy phone = true → truthy pass = true → truthy visitor = true →
  phoneRegex_test phone = true →
  users s !! k = Some owner → visitorId owner = visitor →
  status owner = active →
  ∃ s',
    registerUser fuel draws phone pass visitor invite s
    = Some (s', DuplicateVisitorId)
    ∧ users s' !! k = Some (set_status blocked owner).
Proof.
  intros Hp Hw Hv Hre Hk Hvis Hact.
  exists (blockAccounts (findByVisitorId visitor (users s)) s).
  unfold registerUser. rewrite Hp, Hw, Hv, Hre. cbn [negb orb].
  assert ((k, owner) ∈ findByVisitorId visitor (users s)) as Hin.
  { by apply elem_of_findByVisitorId. }
  split.
  - destruct (findByVisitorId visitor (users s)) as [|p found] eqn:Ef; [|done].
    by apply elem_of_nil in Hin.
  - rewrite (blockAccounts_found _ _ k owner); [|apply NoDup_fst_filter_imap|done..].
    by rewrite bool_decide_eq_true_2.
Qed.

(** X3: [blockUser] refuses to block an administrator, but a registration
    does not: once [createInitialAdmin] has created the initial
    administrator, any registration attempt that passes the input checks
    and submits the visitor id [initialAdminFingerprint] is answered 403
    and blocks the administrator, whose token [protect] then refuses. *)
Theorem registration_blocks_the_initial_admin (code : string) (b : Bank)
    (fuel : nat) (draws : nat → string) (phone pass : string)
    (invite : option string) :
  list_find (λ u, isAdmin u = true) (users (ledger b)) = None →
  list_find (λ u, phoneNumber u = "848441231"%string) (users (ledger b))
  = None →
  duplicateKey (initialAdminUser code) (users (ledger b)) = false →
  truthy phone = true → truthy pass = true → phoneRegex_test phone = true →
  users (ledger (createInitialAdmin code b)) !! length (users (ledger b))
  = Some (initialAdminUser code)
  ∧ blockUser (length (users (ledger b))) (ledger (createInitialAdmin code b))
    = (ledger (createInitialAdmin code b), CannotBlockAdmin)
  ∧ ∃ s',
      registerUser fuel draws phone pass "initialAdminFingerprint" invite
        (ledger (createInitialAdmin code b))
      = Some (s', DuplicateVisitorId)
      ∧ users s' !! length (users (ledger b))
        = Some (set_status blocked (initialAdminUser code))
      ∧ protect (Token (length (users (ledger b)))) s' = inl AccountBlocked.
Proof.
  intros Ha Hp Hd Hph Hpw Hre.
  rewrite (createInitialAdmin_created code b Ha Hp Hd).
  assert (users (ledger (ensureConfig
                           (with_ledger
                              (with_users
                                 (users (ledger b) ++ [initialAdminUser code])
                                 (ledger b)) b)))
          !! length (users (ledger b)) = Some (initialAdminUser code)) as Hk.
  { rewrite ensureConfig_users. simpl. by rewrite list_lookup_middle. }
  split; [done|]. split.
  - unfold blockUser. by rewrite Hk.
  - destruct (registerUser_blocks_account fuel draws phone pass
                "initialAdminFingerprint" invite _ _ _ Hph Hpw eq_refl Hre Hk
                eq_refl eq_refl) as (s' & Hreg & Hblocked).
    exists s'. split; [done|]. split; [done|].
    unfold protect. by rewrite Hblocked.
Qed.

Lemma registration_blocks_the_initial_admin_witness :
  users (ledger (createInitialAdmin "INIT0000" ex_bank))
  !! length (users (ledger ex_bank))
  = Some (initialAdminUser "INIT0000")
  ∧ blockUser (length (users (ledger ex_bank)))
      (ledger (createInitialAdmin "INIT0000" ex_bank))
    = (ledger (createInitialAdmin "INIT0000" ex_bank), CannotBlockAdmin)
  ∧ ∃ s',
      registerUser 1 (λ _, "AAAAAAAA"%string) "840000009" "secret9"
        "initialAdminFingerprint" None
        (ledger (createInitialAdmin "INIT0000" ex_bank))
      = Some (s', DuplicateVisitorId)
      ∧ users s' !! length (users (ledger ex_bank))
        = Some (set_status blocked (initialAdminUser "INIT0000"))
      ∧ protect (Token (length (users (ledger ex_bank)))) s'
        = inl AccountBlocked.
Proof.
  apply (registration_blocks_the_initial_admin "INIT0000" ex_bank 1
           (λ _, "AAAAAAAA"%string) "840000009" "secret9" None);
    reflexivity.
Defined.

(** X4: once a start-up leaves an administrator in place, a configuration
    exists and every further run of [createInitialAdmin] changes nothing,
    whatever referral code is drawn. *)
Theorem createInitialAdmin_settles (code code' : string) (b : Bank) :
  is_Some (list_find (λ u, isAdmin u = true)
             (users (ledger (createInitialAdmin code b)))) →
  is_Some (adminConfig (ledger (createInitialAdmin code b)))
  ∧ createInitialAdmin code' (createInitialAdmin code b)
    = createInitialAdmin code b.
Proof.
  intros Hadmin.
  assert (∀ b0, is_Some (list_find (λ u, isAdmin u = true) (users (ledger b0)))
                → createInitialAdmin code' (ensureConfig b0) = ensureConfig b0)
    as Hagain.
  { intros b0 [p Hp]. unfold createInitialAdmin at 1.
    rewrite ensureConfig_users, Hp. apply ensureConfig_idemp. }
  unfold createInitialAdmin in Hadmin |- *.
  destruct (list_find (λ u, isAdmin u = true) (users (ledger b))) as [p|] eqn:Ea.
  { split; [apply ensureConfig_has_config|]. apply Hagain. by rewrite Ea. }
  destruct (list_find (λ u, phoneNumber u = "848441231"%string)
              (users (ledger b))) as [p|] eqn:Ep.
  { rewrite Ea in Hadmin. by destruct Hadmin. }
  destruct (duplicateKey _ (users (ledger b))) eqn:Ed.
  { rewrite Ea in Hadmin. by destruct Hadmin. }
  split; [apply ensureConfig_has_config|]. apply Hagain.
  by rewrite ensureConfig_users in Hadmin.
Qed.

Lemma createInitialAdmin_settles_witness :
  is_Some (adminConfig (ledger (createInitialAdmin "INIT0000" ex_bank)))
  ∧ createInitialAdmin "INIT0001" (createInitialAdmin "INIT0000" ex_bank)
    = createInitialAdmin "INIT0000" ex_bank.
Proof.
  apply (createInitialAdmin_settles "INIT0000" "INIT0001" ex_bank).
  vm_compute. eauto.
Defined.

(** ** Registration keeps the accounts apart *)

Lemma omap_fmap_compose {A B C} (f : A → B) (g : B → option C) (l : list A) :
  omap g (f <$> l) = omap (λ x, g (f x)) l.
Proof.
  induction l as [|x l IH]; [done|]. cbn. rewrite <- IH.
  by destruct (g (f x)).
Qed.

Lemma usersUnique_keys us us' :
  userKeys <$> us' = userKeys <$> us → usersUnique us → usersUnique us'.
Proof.
  intros Hk (Hp & Hv & Hc & Hi).
  assert (phoneNumber <$> us' = phoneNumber <$> us) as Ep.
  { change phoneNumber with ((λ k : string * string * option string
                                   * option string, k.1.1.1) ∘ userKeys).
    by rewrite !list_fmap_compose, Hk. }
  assert (visitorId <$> us' = visitorId <$> us) as Ev.
  { change visitorId with ((λ k : string * string * option string
                                 * option string, k.1.1.2) ∘ userKeys).
    by rewrite !list_fmap_compose, Hk. }
  assert (omap referralCode us' = omap referralCode us) as Ec.
  { rewrite <- !(omap_fmap_compose userKeys (λ k, k.1.2)). by rewrite Hk. }
  repeat split.
  - by rewrite Ep.
  - by rewrite Ev.
  - by rewrite Ec.
  - apply (Forall_fmap userKeys (λ k, k.2 ≠ k.1.2)).
    rewrite Hk. by apply Forall_fmap.
Qed.

Lemma userKeys_alter (f : User → User) (i : nat) (us : list User) :
  (∀ u, userKeys (f u) = userKeys u) →
  userKeys <$> alter f i us = userKeys <$> us.
Proof. apply fmap_alter_keep. Qed.

Lemma userKeys_blockAccounts found s :
  userKeys <$> users (blockAccounts found s) = userKeys <$> users s.
Proof.
  revert s. induction found as [|p found IH]; intros s; [done|].
  rewrite blockAccounts_cons, IH.
  destruct (bool_decide _); [|done]. simpl. by apply userKeys_alter.
Qed.

Lemma findByReferralCode_None code us :
  findByReferralCode code us = None ↔ code ∉ omap referralCode us.
Proof.
  unfold findByReferralCode. rewrite list_find_None, Forall_forall.
  rewrite list_elem_of_omap. split.
  - intros H (u & Hu & Hc). by apply (H u).
  - intros H u Hu Hc. apply H. by exists u.
Qed.

Lemma usersUnique_snoc us u :
  usersUnique us →
  phoneNumber u ∉ phoneNumber <$> us →
  visitorId u ∉ visitorId <$> us →
  (∀ c, referralCode u = Some c → c ∉ omap referralCode us) →
  invitedBy u ≠ referralCode u →
  usersUnique (us ++ [u]).
Proof.
  intros (Hp & Hv & Hc & Hi) Hpu Hvu Hcu Hiu. repeat split.
  - rewrite fmap_app. apply NoDup_app. split; [done|]. split.
    + intros x Hx Hx'. apply list_elem_of_singleton in Hx'. by subst.
    + apply NoDup_singleton.
  - rewrite fmap_app. apply NoDup_app. split; [done|]. split.
    + intros x Hx Hx'. apply list_elem_of_singleton in Hx'. by subst.
    + apply NoDup_singleton.
  - rewrite omap_app. apply NoDup_app. split; [done|]. split.
    + intros x Hx Hx'. cbn in Hx'. destruct (referralCode u) as [c|] eqn:E.
      * apply list_elem_of_singleton in Hx'. subst. by apply (Hcu c).
      * by apply elem_of_nil in Hx'.
    + cbn. destruct (referralCode u); [apply NoDup_singleton|apply NoDup_nil_2].
  - apply Forall_app. split; [done|]. by apply Forall_singleton.
Qed.

Lemma find_phone_None phone us :
  list_find (λ u, phoneNumber u = phone) us = None →
  phone ∉ phoneNumber <$> us.
Proof.
  rewrite list_find_None, Forall_forall. intros H Hin.
  apply list_elem_of_fmap in Hin as (u & -> & Hu). by apply (H u).
Qed.

Lemma findByVisitorId_nil visitor us :
  findByVisitorId visitor us = [] → visitor ∉ visitorId <$> us.
Proof.
  intros H Hin. apply list_elem_of_fmap in Hin as (u & -> & Hu).
  apply list_elem_of_lookup in Hu as [i Hi].
  assert ((i, u) ∈ findByVisitorId (visitorId u) us) as Hin.
  { by apply elem_of_findByVisitorId. }
  rewrite H in Hin. by apply elem_of_nil in Hin.
Qed.

(** The loop that draws referral codes: it returns the first drawn code
    that no user holds. *)
Lemma pickReferralCode_Some fuel draws k us code :
  pickReferralCode fuel draws k us = Some code ↔
  ∃ j, (k ≤ j < k + fuel)%nat ∧ code = draws j
       ∧ findByReferralCode code us = None
       ∧ ∀ i, (k ≤ i < j)%nat → is_Some (findByReferralCode (draws i) us).
Proof.
  revert k. induction fuel as [|fuel IH]; intros k; simpl.
  { split; [done|]. intros (j & ? & _). lia. }
  destruct (findByReferralCode (draws k) us) as [p|] eqn:E.
  - rewrite IH. split.
    + intros (j & Hj & -> & Hn & Hall). exists j. split; [lia|].
      split; [done|]. split; [done|]. intros i Hi.
      destruct (decide (i = k)) as [->|]; [by rewrite E|]. apply Hall. lia.
    + intros (j & Hj & -> & Hn & Hall). exists j.
      assert (j ≠ k) by (intros ->; congruence).
      split; [lia|]. split; [done|]. split; [done|].
      intros i Hi. apply Hall. lia.
  - split.
    + intros [= <-]. exists k. split; [lia|]. split; [done|].
      split; [done|]. intros i Hi. lia.
    + intros (j & Hj & -> & Hn & Hall).
      destruct (decide (j = k)) as [->|]; [done|].
      destruct (Hall k) as [p Hp]; [lia|]. congruence.
Qed.

(** What a registration that creates an account does to the users. *)
Lemma registerUser_created fuel draws phone pass visitor invite s s' id :
  registerUser fuel draws phone pass visitor invite s = Some (s', Created id) →
  id = length (users s)
  ∧ findByVisitorId visitor (users s) = []
  ∧ list_find (λ u, phoneNumber u = phone) (users s) = None
  ∧ ∃ code,
      pickReferralCode fuel draws 0 (users s) = Some code
      ∧ ((∃ c rid r,
            invite = Some c ∧ truthy c = true
            ∧ findByReferralCode c (users s) = Some (rid, r)
            ∧ visitorId r ≠ visitor
            ∧ s' = updateUser rid
                     (set_referredUsers (referredUsers r ++ [id]))
                     (with_users
                        (users s
                         ++ [mkUser phone pass 0%Q active visitor false
                               (Some code) (referralCode r) [] [] []]) s))
         ∨ ((truthy_opt invite = false
             ∨ findByReferralCode (default EmptyString invite) (users s)
               = None)
            ∧ s' = with_users
                     (users s
                      ++ [mkUser phone pass 0%Q active visitor false
                            (Some code) None [] [] []]) s)).
Proof.
  unfold registerUser.
  destruct (_ || _); [done|]. destruct (negb _); [done|].
  destruct (findByVisitorId visitor (users s)) as [|q found] eqn:Ev; [|done].
  change (0 <? length (@nil (nat * User)))%nat with false. cbv iota.
  destruct (list_find _ (users s)) as [q|] eqn:Ep; [done|].
  destruct (pickReferralCode fuel draws 0 (users s)) as [code|] eqn:Ec; [|done].
  cbv zeta.
  destruct (String.length pass <? 6)%nat; [done|].
  destruct invite as [c|]; cbn [truthy_opt from_option Datatypes.id].
  - destruct (truthy c) eqn:Et.
    + destruct (findByReferralCode c (users s)) as [[rid r]|] eqn:Ef.
      * destruct (String.eqb (visitorId r) visitor) eqn:Ee.
        -- apply String.eqb_eq in Ee.
           apply findByReferralCode_Some in Ef as [Hr _].
           exfalso. apply (findByVisitorId_nil _ _ Ev).
           apply list_elem_of_fmap. exists r. split; [done|].
           by apply list_elem_of_lookup_2 in Hr.
        -- apply String.eqb_neq in Ee. intros [= <- <-].
           split; [done|]. split; [done|]. split; [done|].
           exists code. split; [done|]. left. by exists c, rid, r.
      * intros [= <- <-]. split; [done|]. split; [done|]. split; [done|].
        exists code. split; [done|]. right. split; [by right|done].
    + intros [= <- <-]. split; [done|]. split; [done|]. split; [done|].
      exists code. split; [done|]. right. split; [by left|done].
  - intros [= <- <-]. split; [done|]. split; [done|]. split; [done|].
    exists code. split; [done|]. right. split; [by left|done].
Qed.

Lemma registerUser_outcome fuel draws phone pass visitor invite s s' r :
  registerUser fuel draws phone pass visitor invite s = Some (s', r) →
  (∃ id, r = Created id)
  ∨ userKeys <$> users s' = userKeys <$> users s.
Proof.
  unfold registerUser.
  destruct (_ || _); [intros [= <- <-]; by right|].
  destruct (negb _); [intros [= <- <-]; by right|].
  destruct (0 <? _)%nat.
  { intros [= <- <-]. right. apply userKeys_blockAccounts. }
  destruct (list_find _ (users s)); [intros [= <- <-]; by right|].
  destruct (pickReferralCode _ _ _ _); [|done].
  cbv zeta.
  destruct (String.length pass <? 6)%nat; [intros [= <- <-]; by right|].
  intros [= <- <-]. left. eauto.
Qed.

Lemma duplicateKey_false u us :
  duplicateKey u us = false →
  (phoneNumber u ∉ phoneNumber <$> us)
  ∧ (visitorId u ∉ visitorId <$> us)
  ∧ ∀ c, referralCode u = Some c → c ∉ omap referralCode us.
Proof.
  unfold duplicateKey. intros H.
  assert (∀ v, v ∈ us →
            phoneNumber v ≠ phoneNumber u ∧ visitorId v ≠ visitorId u
            ∧ ∀ c, referralCode u = Some c → referralCode v ≠ Some c) as Hall.
  { intros v Hv.
    destruct (existsb _ us) eqn:E; [done|].
    assert (String.eqb (phoneNumber v) (phoneNumber u)
            || String.eqb (visitorId v) (visitorId u)
            || match referralCode v, referralCode u with
               | Some a, Some b => String.eqb a b
               | _, _ => false
               end = false) as Hv'.
    { destruct (_ || _) eqn:E'; [|done].
      assert (existsb (λ v, String.eqb (phoneNumber v) (phoneNumber u)
                || String.eqb (visitorId v) (visitorId u)
                || match referralCode v, referralCode u with
                   | Some a, Some b => String.eqb a b
                   | _, _ => false
                   end) us = true) as Hex; [|congruence].
      apply existsb_exists. exists v. split; [|done].
      by apply list_elem_of_In. }
    apply orb_false_iff in Hv' as [Hv' H3].
    apply orb_false_iff in Hv' as [H1 H2].
    apply String.eqb_neq in H1, H2. split; [done|]. split; [done|].
    intros c Hc Hvc. rewrite Hc, Hvc in H3.
    by rewrite String.eqb_refl in H3. }
  split; [|split].
  - intros Hin. apply list_elem_of_fmap in Hin as (v & E & Hv).
    by destruct (Hall v Hv) as (H1 & _).
  - intros Hin. apply list_elem_of_fmap in Hin as (v & E & Hv).
    by destruct (Hall v Hv) as (_ & H2 & _).
  - intros c Hc Hin. apply list_elem_of_omap in Hin as (v & Hv & E).
    destruct (Hall v Hv) as (_ & _ & H3). by apply (H3 c).
Qed.

(** X5: the unique indexes of the users collection hold after every
    registration and every creation of an administrator, and no account
    is ever invited by its own referral code: a new account gets a phone
    number, a visitor id and a referral code that no earlier account
    holds. *)
Theorem new_accounts_keep_users_unique (s : Ledger) :
  usersUnique (users s) →
  (∀ fuel draws phone pass visitor invite s' r,
     registerUser fuel draws phone pass visitor invite s = Some (s', r) →
     usersUnique (users s'))
  ∧ (∀ now code phone pass,
       usersUnique (users (createAdmin now code phone pass s).1))
  ∧ (∀ code b, ledger b = s →
       usersUnique (users (ledger (createInitialAdmin code b)))).
Proof.
  intros Hu. split; [|split].
  - intros fuel draws phone pass visitor invite s' r Hreg.
    destruct (registerUser_outcome _ _ _ _ _ _ _ _ _ Hreg) as [[id ->]|Hk];
      [|by apply (usersUnique_keys (users s))].
    apply registerUser_created in Hreg
      as (-> & Hv & Hp & code & Hc & Hcase).
    apply pickReferralCode_Some in Hc as (j & _ & -> & Hn & _).
    assert (∀ inv, inv ≠ Some (draws j) →
              usersUnique
                (users s ++ [mkUser phone pass 0%Q active visitor false
                               (Some (draws j)) inv [] [] []])) as Hnew.
    { intros inv Hinv. apply usersUnique_snoc; [done|..]; simpl.
      - by apply find_phone_None.
      - by apply findByVisitorId_nil.
      - intros c [= <-]. by apply findByReferralCode_None.
      - done. }
    destruct Hcase as [(c & rid & r0 & -> & Ht & Hf & Hne & ->)|[_ ->]].
    + apply (usersUnique_keys
               (users s ++ [mkUser phone pass 0%Q active visitor false
                              (Some (draws j)) (referralCode r0) [] [] []])).
      * simpl. by apply userKeys_alter.
      * apply Hnew. apply findByReferralCode_Some in Hf as [Hr Hrc].
        rewrite Hrc. intros [= ->].
        apply findByReferralCode_None in Hn. apply Hn.
        apply list_elem_of_omap. exists r0. split; [|done].
        by apply list_elem_of_lookup_2 in Hr.
    + simpl. by apply Hnew.
  - intros now code phone pass. unfold createAdmin.
    destruct (_ || _); [done|]. destruct (negb _); [done|].
    destruct (list_find _ (users s)); [done|].
    destruct (String.length pass <? 6)%nat; [done|].
    destruct (duplicateKey _ (users s)) eqn:Ed; [done|].
    apply duplicateKey_false in Ed as (H1 & H2 & H3).
    simpl. by apply usersUnique_snoc.
  - intros code b <-. unfold createInitialAdmin.
    destruct (list_find _ (users (ledger b))).
    { by rewrite ensureConfig_users. }
    destruct (list_find _ (users (ledger b))); [done|].
    destruct (duplicateKey _ (users (ledger b))) eqn:Ed; [done|].
    rewrite ensureConfig_users. simpl.
    apply duplicateKey_false in Ed as (H1 & H2 & H3).
    by apply usersUnique_snoc.
Qed.

Lemma ex_ledger_usersUnique : usersUnique (users (ex_ledger active)).
Proof.
  unfold usersUnique. simpl. split; [|split; [|split]].
  - apply (bool_decide_unpack _). by vm_compute.
  - apply (bool_decide_unpack _). by vm_compute.
  - apply (bool_decide_unpack _). by vm_compute.
  - repeat constructor; discriminate.
Defined.

Lemma new_accounts_keep_users_unique_witness :
  usersUnique (users (ex_ledger active))
  ∧ usersUnique
      (users (createAdmin ex_now "ADM00001" "840000003" "secret3"
                (ex_ledger active)).1).
Proof.
  split; [exact ex_ledger_usersUnique|].
  apply (new_accounts_keep_users_unique (ex_ledger active)
           ex_ledger_usersUnique).
Defined.

(** ** Registration and the inviter *)

Lemma lookup_alter_snoc {A} (f : A → A) i (l : list A) x j y :
  (alter f i (l ++ [x])) !! j = Some y →
  (i < length l)%nat →
  (j = length l ∧ y = x)
  ∨ ∃ y0, l !! j = Some y0 ∧ y = (if decide (j = i) then f y0 else y0).
Proof.
  intros Hj Hi. destruct (decide (j = i)) as [->|Hne].
  - rewrite list_lookup_alter_eq in Hj.
    destruct ((l ++ [x]) !! i) as [y0|] eqn:E; [|done].
    injection Hj as <-. apply lookup_snoc_Some in E as [[_ E]|[-> _]]; [|lia].
    right. by exists y0.
  - rewrite list_lookup_alter_ne in Hj by done.
    apply lookup_snoc_Some in Hj as [[_ E]|[-> ->]]; [|by left].
    right. by exists y.
Qed.

(** X6: a registration that creates an account with an invitation code
    that some user holds always links the two: the new account stores the
    code in [invitedBy], its id is appended to the inviter's
    [referredUsers], and [User.findOne({ referralCode })] on the stored
    code finds that inviter.  The test for an inviter on the same device
    can never succeed at that point, because a visitor id that is already
    stored stops the registration before. *)
Theorem registration_links_the_inviter (fuel : nat) (draws : nat → string)
    (phone pass visitor code : string) (s s' : Ledger) (id rid : nat)
    (r : User) :
  registerUser fuel draws phone pass visitor (Some code) s
  = Some (s', Created id) →
  truthy code = true →
  findByReferralCode code (users s) = Some (rid, r) →
  visitorId r ≠ visitor
  ∧ id = length (users s)
  ∧ (invitedBy <$> users s' !! id) = Some (Some code)
  ∧ users s' !! rid = Some (set_referredUsers (referredUsers r ++ [id]) r)
  ∧ findByReferralCode code (users s')
    = Some (rid, set_referredUsers (referredUsers r ++ [id]) r).
Proof.
  intros Hreg Ht Hf.
  apply registerUser_created in Hreg
    as (-> & Hv & Hp & own & Hc & Hcase).
  destruct Hcase as [(c & rid' & r' & [= <-] & _ & Hf' & Hne & ->)
                    |[[Hno|Hno] _]]; cycle 1.
  { simpl in Hno. congruence. }
  { simpl in Hno. congruence. }
  rewrite Hf in Hf'. injection Hf' as <- <-.
  pose proof (findByReferralCode_Some _ _ _ _ Hf) as [Hr Hrc].
  assert (rid < length (users s))%nat as Hlt by by apply lookup_lt_Some in Hr.
  split; [done|]. split; [done|]. split; [|split].
  - simpl. rewrite list_lookup_alter_ne by lia.
    rewrite list_lookup_middle by done. simpl. by rewrite Hrc.
  - simpl. rewrite list_lookup_alter_eq.
    by rewrite (lookup_app_l_Some _ _ _ _ Hr).
  - simpl. rewrite findByReferralCode_alter by done.
    unfold findByReferralCode in *.
    rewrite (list_find_app_l _ _ _ _ _ Hf). simpl.
    by rewrite bool_decide_eq_true_2.
Qed.

Lemma registration_links_the_inviter_witness :
  ∃ s',
    registerUser 1 (λ _, "B1"%string) "840000003" "secret3" "device-B"
      (Some "R1"%string) (ex_ledger active)
    = Some (s', Created 2%nat)
    ∧ findByReferralCode "R1" (users s')
      = Some (0%nat,
              set_referredUsers [1%nat; 2%nat] (ex_referrer active)).
Proof.
  eexists. split; [reflexivity|].
  apply (registration_links_the_inviter 1 (λ _, "B1"%string) "840000003"
           "secret3" "device-B" "R1" (ex_ledger active) _ 2 0
           (ex_referrer active)); reflexivity.
Defined.

Lemma referralsLinked_ext us us' :
  (λ u, (referralCode u, invitedBy u, referredUsers u)) <$> us'
  = (λ u, (referralCode u, invitedBy u, referredUsers u)) <$> us →
  referralsLinked us → referralsLinked us'.
Proof.
  intros Hk Hl.
  assert (∀ i u', us' !! i = Some u' →
            ∃ u, us !! i = Some u ∧ referralCode u = referralCode u'
                 ∧ invitedBy u = invitedBy u'
                 ∧ referredUsers u = referredUsers u') as Hback.
  { intros i u' Hi.
    assert (((λ u, (referralCode u, invitedBy u, referredUsers u)) <$> us)
            !! i = Some (referralCode u', invitedBy u', referredUsers u'))
      as E.
    { rewrite <- Hk, list_lookup_fmap, Hi. done. }
    apply list_lookup_fmap_Some_1 in E as (u & E & Hu).
    exists u. by injection E as -> -> ->. }
  assert (∀ i u, us !! i = Some u →
            ∃ u', us' !! i = Some u' ∧ referralCode u = referralCode u'
                 ∧ invitedBy u = invitedBy u'
                 ∧ referredUsers u = referredUsers u') as Hforth.
  { intros i u Hi.
    assert (((λ u, (referralCode u, invitedBy u, referredUsers u)) <$> us')
            !! i = Some (referralCode u, invitedBy u, referredUsers u))
      as E.
    { rewrite Hk, list_lookup_fmap, Hi. done. }
    apply list_lookup_fmap_Some_1 in E as (u' & E & Hu).
    exists u'. by injection E as -> -> ->. }
  intros i u' c Hi Hc.
  destruct (Hback i u' Hi) as (u & Hu & _ & Ei & _).
  destruct (Hl i u c Hu) as (rid & r & Hr & Hrc & Hin); [congruence|].
  destruct (Hforth rid r Hr) as (r' & Hr' & Ec & _ & Er).
  exists rid, r'. split; [done|]. split; [congruence|]. by rewrite <- Er.
Qed.

Lemma registerUser_refused fuel draws phone pass visitor invite s s' r
    {B} (f : User → B) :
  registerUser fuel draws phone pass visitor invite s = Some (s', r) →
  (∀ id, r ≠ Created id) →
  (∀ st u, f (set_status st u) = f u) →
  f <$> users s' = f <$> users s.
Proof.
  intros Hreg Hr Hf. revert Hreg. unfold registerUser.
  destruct (_ || _); [by intros [= <- <-]|].
  destruct (negb _); [by intros [= <- <-]|].
  destruct (0 <? _)%nat.
  { intros [= <- <-]. generalize (findByVisitorId visitor (users s)).
    intros found. clear Hr. revert s.
    induction found as [|p found IH]; intros s; [done|].
    rewrite blockAccounts_cons, IH.
    destruct (bool_decide _); [|done]. simpl. by apply fmap_alter_keep. }
  destruct (list_find _ (users s)); [by intros [= <- <-]|].
  destruct (pickReferralCode _ _ _ _); [|done].
  cbv zeta.
  destruct (String.length pass <? 6)%nat; [by intros [= <- <-]|].
  intros [= <- <-]. by destruct (Hr (length (users s))).
Qed.

(** X7: every user that stores an inviter's code stays listed among the
    referred users of a holder of that code: registration keeps the two
    directions of the referral link in step, whatever it answers. *)
Theorem registration_keeps_referrals_linked (fuel : nat)
    (draws : nat → string) (phone pass visitor : string)
    (invite : option string) (s s' : Ledger) (r : Response) :
  referralsLinked (users s) →
  registerUser fuel draws phone pass visitor invite s = Some (s', r) →
  referralsLinked (users s').
Proof.
  intros Hl Hreg.
  assert ((∃ id, r = Created id) ∨ ∀ id, r ≠ Created id) as [[id ->]|Hno].
  { destruct r; eauto. }
  2: { apply (referralsLinked_ext (users s)); [|done].
       by apply (registerUser_refused _ _ _ _ _ _ _ _ _ _ Hreg). }
  apply registerUser_created in Hreg as (-> & Hv & Hp & own & Hc & Hcase).
  destruct Hcase as [(c & rid & r0 & -> & Ht & Hf & Hne & ->)|[_ ->]].
  - pose proof (findByReferralCode_Some _ _ _ _ Hf) as [Hr Hrc].
    assert (rid < length (users s))%nat as Hlt by by apply lookup_lt_Some in Hr.
    intros i u c' Hi Hc'. simpl in Hi.
    apply lookup_alter_snoc in Hi as [[-> ->]|(u0 & Hu0 & ->)]; [| |done].
    + simpl in Hc'. exists rid, (set_referredUsers
                                   (referredUsers r0 ++ [length (users s)]) r0).
      split; [|split].
      * simpl. rewrite list_lookup_alter_eq.
        by rewrite (lookup_app_l_Some _ _ _ _ Hr).
      * simpl. congruence.
      * simpl. apply elem_of_app. right. by apply list_elem_of_singleton.
    + assert (invitedBy u0 = Some c') as Hc0.
      { by destruct (decide (i = rid)). }
      destruct (Hl i u0 c' Hu0 Hc0) as (rid' & r' & Hr' & Hrc' & Hin).
      exists rid'. destruct (decide (rid' = rid)) as [->|Hd].
      * assert (r' = r0) as -> by congruence.
        exists (set_referredUsers (referredUsers r0 ++ [length (users s)]) r0).
        split; [|split].
        -- simpl. rewrite list_lookup_alter_eq.
           by rewrite (lookup_app_l_Some _ _ _ _ Hr).
        -- done.
        -- simpl. apply elem_of_app. by left.
      * exists r'. split; [|done]. simpl.
        rewrite list_lookup_alter_ne by done.
        by apply lookup_app_l_Some.
  - intros i u c' Hi Hc'. simpl in Hi.
    apply lookup_snoc_Some in Hi as [[_ Hi]|[-> <-]]; [|done].
    destruct (Hl i u c' Hi Hc') as (rid' & r' & Hr' & Hrc' & Hin).
    exists rid', r'. split; [|done]. simpl. by apply lookup_app_l_Some.
Qed.

Lemma ex_ledger_referralsLinked : referralsLinked (users (ex_ledger active)).
Proof.
  intros i u c Hi Hc. simpl in Hi.
  destruct i as [|[|i]]; simpl in Hi; [| |done].
  - injection Hi as <-. done.
  - injection Hi as <-. injection Hc as <-.
    exists 0%nat, (ex_referrer active).
    split; [done|]. split; [done|]. simpl. apply list_elem_of_singleton. done.
Defined.

Lemma registration_keeps_referrals_linked_witness :
  ∃ s',
    registerUser 1 (λ _, "B1"%string) "840000003" "secret3" "device-B"
      (Some "R1"%string) (ex_ledger active)
    = Some (s', Created 2%nat)
    ∧ referralsLinked (users s').
Proof.
  eexists. split; [reflexivity|].
  apply (registration_keeps_referrals_linked 1 (λ _, "B1"%string)
           "840000003" "secret3" "device-B" (Some "R1"%string)
           (ex_ledger active) _ (Created 2) ex_ledger_referralsLinked).
  reflexivity.
Defined.

Lemma length_omap_le {A B} (f : A → option B) (l : list A) :
  (length (omap f l) ≤ length l)%nat.
Proof.
  induction l as [|x l IH]; [done|]. cbn. destruct (f x); simpl; lia.
Qed.

(** X8: the loop that draws a referral code ends.  When the generator's
    first [fuel] codes are pairwise distinct and there are fewer users
    than [fuel], [registerUser] answers: one of these codes is held by no
    user, and the loop stops there at the latest. *)
Theorem registerUser_answers (fuel : nat) (draws : nat → string)
    (phone pass visitor : string) (invite : option string) (s : Ledger) :
  (length (users s) < fuel)%nat →
  NoDup (draws <$> seq 0 fuel) →
  is_Some (registerUser fuel draws phone pass visitor invite s).
Proof.
  intros Hlen Hnd.
  assert (is_Some (pickReferralCode fuel draws 0 (users s))) as [code Hc].
  { destruct (pickReferralCode fuel draws 0 (users s)) as [c|] eqn:E; [eauto|].
    exfalso.
    assert (∀ k, (k < fuel)%nat →
              is_Some (findByReferralCode (draws k) (users s))) as Hall.
    { assert (∀ n k0, pickReferralCode n draws k0 (users s) = None →
                ∀ k, (k0 ≤ k < k0 + n)%nat →
                     is_Some (findByReferralCode (draws k) (users s))) as H.
      { induction n as [|n IH]; intros k0 Hn k Hk; [lia|]. simpl in Hn.
        destruct (findByReferralCode (draws k0) (users s)) as [p|] eqn:Ef;
          [|done].
        destruct (decide (k = k0)) as [->|]; [by rewrite Ef|].
        apply (IH (S k0)); [done|lia]. }
      intros k Hk. apply (H fuel 0%nat E). lia. }
    assert (draws <$> seq 0 fuel ⊆+ omap referralCode (users s)) as Hsub.
    { apply NoDup_submseteq; [done|]. intros x Hx.
      apply list_elem_of_fmap in Hx as (k & -> & Hk).
      apply elem_of_seq in Hk.
      destruct (Hall k) as [[i r] Hf]; [lia|].
      apply findByReferralCode_Some in Hf as [Hr Hrc].
      apply list_elem_of_omap. exists r. split; [|done].
      by apply list_elem_of_lookup_2 in Hr. }
    apply submseteq_length in Hsub.
    rewrite length_fmap, length_seq in Hsub.
    pose proof (length_omap_le referralCode (users s)). lia. }
  unfold registerUser. rewrite Hc.
  destruct (_ || _); [eauto|]. destruct (negb _); [eauto|].
  destruct (0 <? _)%nat; [eauto|].
  destruct (list_find _ (users s)); [eauto|].
  cbv zeta. destruct (String.length pass <? 6)%nat; eauto.
Qed.

Lemma registerUser_answers_witness :
  is_Some (registerUser 3 (λ k, if (k =? 0)%nat then "R1"%string
                                else if (k =? 1)%nat then "A1"%string
                                else "B1"%string)
             "840000003" "secret3" "device-B" None (ex_ledger active)).
Proof.
  apply registerUser_answers.
  - simpl. lia.
  - apply (bool_decide_unpack _). by vm_compute.
Defined.

(** ** Deposits *)

Lemma requestDeposit_ledger now uid amt message b :
  ledger (requestDeposit now uid amt message b).1 = ledger b.
Proof.
  unfold requestDeposit.
  destruct (_ || _); [done|]. destruct (Qltb amt _); [done|].
  destruct (_ || _); [done|]. by destruct (users (ledger b) !! uid).
Qed.


Lemma Qltb_false x y : Qltb x y = false ↔ (y <= x)%Q.
Proof.
  unfold Qltb. rewrite negb_false_iff. apply Qle_bool_iff.
Qed.



Lemma approveDeposit_pending now admin did b d :
  deposits b !! did = Some d → dep_status d = pending →
  approveDeposit now admin did b
  = (match users (ledger b) !! dep_userId d with
     | Some user =>
         mkBank
           (updateUser (dep_userId d)
              (set_balance (balance user + dep_amount d)%Q) (ledger b))
           (alter (set_deposit_decision approved now admin) did (deposits b))
           (depositHistory b) (minDepositAmount b)
     | None =>
         with_deposits
           (alter (set_deposit_decision approved now admin) did (deposits b))
           b
     end, Success).
Proof.
  intros Hd Hp. unfold approveDeposit. rewrite Hd, Hp.
  rewrite bool_decide_eq_true_2 by done. cbn [negb]. simpl.
  by destruct (users (ledger b) !! dep_userId d).
Qed.

Lemma rejectDeposit_pending now admin did b d :
  deposits b !! did = Some d → dep_status d = pending →
  rejectDeposit now admin did b
  = (with_deposits
       (alter (set_deposit_decision rejected now admin) did (deposits b)) b,
     Success).
Proof.
  intros Hd Hp. unfold rejectDeposit. rewrite Hd, Hp.
  by rewrite bool_decide_eq_true_2 by done.
Qed.

Lemma deposit_decision_not_pending now admin did b d :
  deposits b !! did = Some d → dep_status d ≠ pending →
  approveDeposit now admin did b = (b, NotPending)
  ∧ rejectDeposit now admin did b = (b, NotPending).
Proof.
  intros Hd Hp. unfold approveDeposit, rejectDeposit. rewrite Hd.
  by rewrite bool_decide_eq_false_2 by done.
Qed.

(** X10: the decision on a deposit is taken once.  Approving a pending
    deposit of an existing user adds exactly its amount to that user's
    balance and changes no other user, no other deposit and nothing else
    in the ledger; rejecting it changes the deposit only.  After either
    decision every approval and every rejection of the same deposit is
    answered 400 and changes nothing, so no deposit is credited twice. *)
Theorem deposit_is_decided_once (now : Z) (admin did : nat) (b : Bank)
    (d : Deposit) (u : User) :
  deposits b !! did = Some d → dep_status d = pending →
  users (ledger b) !! dep_userId d = Some u →
  (∃ b1,
     approveDeposit now admin did b = (b1, Success)
     ∧ users (ledger b1) !! dep_userId d
       = Some (set_balance (balance u + dep_amount d)%Q u)
     ∧ (∀ j, j ≠ dep_userId d →
             users (ledger b1) !! j = users (ledger b) !! j)
     ∧ plans (ledger b1) = plans (ledger b)
     ∧ investments (ledger b1) = investments (ledger b)
     ∧ withdrawals (ledger b1) = withdrawals (ledger b)
     ∧ deposits b1 !! did = Some (set_deposit_decision approved now admin d)
     ∧ (∀ j, j ≠ did → deposits b1 !! j = deposits b !! j)
     ∧ ∀ now' admin',
         approveDeposit now' admin' did b1 = (b1, NotPending)
         ∧ rejectDeposit now' admin' did b1 = (b1, NotPending))
  ∧ (∃ b2,
       rejectDeposit now admin did b = (b2, Success)
       ∧ ledger b2 = ledger b
       ∧ deposits b2 !! did = Some (set_deposit_decision rejected now admin d)
       ∧ (∀ j, j ≠ did → deposits b2 !! j = deposits b !! j)
       ∧ ∀ now' admin',
           approveDeposit now' admin' did b2 = (b2, NotPending)
           ∧ rejectDeposit now' admin' did b2 = (b2, NotPending)).
Proof.
  intros Hd Hp Hu. split.
  - rewrite (approveDeposit_pending _ _ _ _ d) by done. rewrite Hu.
    eexists. split; [done|]. simpl.
    split; [by rewrite list_lookup_alter_eq, Hu|].
    split; [intros j Hj; by rewrite list_lookup_alter_ne|].
    split; [done|]. split; [done|]. split; [done|].
    split; [by rewrite list_lookup_alter_eq, Hd|].
    split; [intros j Hj; by rewrite list_lookup_alter_ne|].
    intros now' admin'.
    apply (deposit_decision_not_pending _ _ _ _
             (set_deposit_decision approved now admin d)); [|done].
    simpl. by rewrite list_lookup_alter_eq, Hd.
  - rewrite (rejectDeposit_pending _ _ _ _ d) by done.
    eexists. split; [done|]. simpl. split; [done|].
    split; [by rewrite list_lookup_alter_eq, Hd|].
    split; [intros j Hj; by rewrite list_lookup_alter_ne|].
    intros now' admin'.
    apply (deposit_decision_not_pending _ _ _ _
             (set_deposit_decision rejected now admin d)); [|done].
    simpl. by rewrite list_lookup_alter_eq, Hd.
Qed.

Lemma deposit_is_decided_once_witness :
  ∃ b1,
    approveDeposit ex_tomorrow 0 0 ex_deposited = (b1, Success)
    ∧ users (ledger b1) !! 1%nat
      = Some (set_balance (1000 + 300)%Q ex_investor)
    ∧ approveDeposit ex_after_term 0 0 b1 = (b1, NotPending).
Proof.
  destruct (deposit_is_decided_once ex_tomorrow 0 0 ex_deposited
              (mkDeposit 1 300 "M-Pesa ref 8XK2" pending ex_now None None)
              ex_investor eq_refl eq_refl eq_refl)
    as [(b1 & Ha & Hu & _ & _ & _ & _ & _ & _ & Hagain) _].
  exists b1. split; [exact Ha|]. split; [exact Hu|].
  exact (proj1 (Hagain ex_after_term 0%nat)).
Defined.

(** ** The catalogue of plans *)

Lemma nameTaken_false nm self ps :
  nameTaken nm self ps = false ↔
  ∀ k p, ps !! k = Some p → k ≠ self → name p ≠ nm.
Proof.
  unfold nameTaken. split.
  - intros H k p Hk Hne Hnm.
    assert (existsb (λ kp : nat * InvestmentPlan,
                       negb (kp.1 =? self)%nat && String.eqb (name kp.2) nm)
              (map_to_list ps) = true) as Hex; [|congruence].
    apply existsb_exists. exists (k, p). split.
    + apply list_elem_of_In. by apply elem_of_map_to_list.
    + simpl. apply andb_true_iff. split.
      * apply negb_true_iff. by apply Nat.eqb_neq.
      * by apply String.eqb_eq.
  - intros H. destruct (existsb _ _) eqn:E; [|done].
    apply existsb_exists in E as ([k p] & Hin & Hkp). simpl in Hkp.
    apply andb_true_iff in Hkp as [Hk Hn].
    apply negb_true_iff, Nat.eqb_neq in Hk. apply String.eqb_eq in Hn.
    apply list_elem_of_In, elem_of_map_to_list in Hin.
    by destruct (H k p Hin Hk).
Qed.

Lemma planNamesUnique_insert pid p ps :
  planNamesUnique ps → nameTaken (name p) pid ps = false →
  planNamesUnique (<[ pid := p ]> ps).
Proof.
  intros Hu Hn. rewrite nameTaken_false in Hn. intros i j a b Hi Hj Hab.
  destruct (decide (i = pid)) as [->|Hip], (decide (j = pid)) as [->|Hjp];
    [done| | |].
  - rewrite lookup_insert_eq in Hi. rewrite lookup_insert_ne in Hj by done.
    injection Hi as <-. by destruct (Hn j b Hj Hjp).
  - rewrite lookup_insert_eq in Hj. rewrite lookup_insert_ne in Hi by done.
    injection Hj as <-. by destruct (Hn i a Hi Hip).
  - rewrite lookup_insert_ne in Hi, Hj by done. by apply (Hu i j a b).
Qed.

Lemma Qle_bool_true x y : Qle_bool x y = true → (x <= y)%Q.
Proof. apply Qle_bool_iff. Qed.

(** X11: the three plan handlers keep the catalogue well formed: names
    stay unique, and every plan has a single price (maximum equal to
    minimum), a non-empty name, a price that is not negative, a daily
    rate between 0 and 1 and a term of sixty days.  They write to
    nothing but the plans. *)
Theorem plan_handlers_keep_the_catalogue (s : Ledger) :
  catalogueValid (plans s) →
  (∀ newId nm minAmt rate,
     catalogueValid (plans (createInvestmentPlan newId nm minAmt rate s).1)
     ∧ with_plans (plans s) (createInvestmentPlan newId nm minAmt rate s).1
       = s)
  ∧ (∀ pid nm minAmt rate act,
       catalogueValid
         (plans (updateInvestmentPlan pid nm minAmt rate act s).1)
       ∧ with_plans (plans s)
           (updateInvestmentPlan pid nm minAmt rate act s).1 = s)
  ∧ (∀ pid,
       catalogueValid (plans (deleteInvestmentPlan pid s).1)
       ∧ with_plans (plans s) (deleteInvestmentPlan pid s).1 = s).
Proof.
  intros [Hu Hv].
  assert (with_plans (plans s) s = s) as Hsame by by destruct s.
  split; [|split].
  - intros newId nm minAmt rate. unfold createInvestmentPlan.
    destruct (_ || _); [done|].
    destruct (truthy (trim nm) && Qle_bool 0 minAmt && Qle_bool 0 minAmt
              && Qle_bool 0 rate && Qle_bool rate 1) eqn:Ev; [|done].
    cbn [negb].
    destruct (nameTaken (trim nm) newId (plans s)) eqn:En; [done|].
    split; [|by destruct s]. simpl.
    repeat (apply andb_true_iff in Ev as [Ev ?]).
    split.
    + by apply planNamesUnique_insert.
    + apply map_Forall_insert_2; [|done].
      repeat split; simpl; auto using Qle_bool_true.
  - intros pid nm minAmt rate act. unfold updateInvestmentPlan.
    destruct (plans s !! pid) as [plan|] eqn:Ep; [|done].
    destruct (Hv pid plan Ep) as ([Hmax Hdur] & Hname & Hmin & Hr0 & Hr1).
    destruct (match nm with Some n => truthy (trim n) | None => true end
              && match minAmt with Some m => Qle_bool 0 m | None => true end
              && match rate with
                 | Some r => Qle_bool 0 r && Qle_bool r 1
                 | None => true
                 end) eqn:Ev; [|done].
    cbn [negb].
    destruct (nameTaken _ pid (plans s)) eqn:En; [done|].
    split; [|by destruct s]. simpl.
    apply andb_true_iff in Ev as [Ev Hrate].
    apply andb_true_iff in Ev as [Hnm Hamt].
    split.
    + by apply planNamesUnique_insert.
    + apply map_Forall_insert_2; [|done].
      split; [done|]. simpl. split; [|split; [|split]].
      * by destruct nm.
      * destruct minAmt; simpl; auto using Qle_bool_true.
      * destruct rate; simpl; [|done].
        apply andb_true_iff in Hrate as [? _]. auto using Qle_bool_true.
      * destruct rate; simpl; [|done].
        apply andb_true_iff in Hrate as [_ ?]. auto using Qle_bool_true.
  - intros pid. unfold deleteInvestmentPlan.
    destruct (plans s !! pid) as [plan|] eqn:Ep; [|done].
    destruct (existsb _ _); [done|].
    split; [|by destruct s]. simpl. split.
    + intros i j a b Hi Hj. apply lookup_delete_Some in Hi as [_ Hi].
      apply lookup_delete_Some in Hj as [_ Hj]. by apply Hu.
    + by apply map_Forall_delete.
Qed.

Lemma ex_ledger_catalogueValid : catalogueValid (plans (ex_ledger active)).
Proof.
  split.
  - intros i j p q Hi Hj Hn. simpl in Hi, Hj.
    apply lookup_insert_Some in Hi as [[<- <-]|[? Hi]];
      [|apply lookup_singleton_Some in Hi as [<- <-]];
      (apply lookup_insert_Some in Hj as [[<- <-]|[? Hj]];
       [|apply lookup_singleton_Some in Hj as [<- <-]]);
      try done; simpl in Hn; discriminate.
  - simpl. apply map_Forall_insert_2; [|apply map_Forall_singleton];
      (split; [done|]); repeat split; by vm_compute.
Defined.

Lemma plan_handlers_keep_the_catalogue_witness :
  catalogueValid (plans (ex_ledger active))
  ∧ catalogueValid
      (plans (updateInvestmentPlan 0 (Some " Starter "%string) (Some 600%Q)
                None None (ex_ledger active)).1).
Proof.
  split; [exact ex_ledger_catalogueValid|].
  apply (plan_handlers_keep_the_catalogue (ex_ledger active)
           ex_ledger_catalogueValid).
Defined.

(** ** What the daily batch leaves alone *)

Lemma creditActivationCommission_keep {B} (f : User → B) user base s :
  (∀ b u, f (set_balance b u) = f u) →
  f <$> users (creditActivationCommission user base s) = f <$> users s.
Proof.
  intros Hf. unfold creditActivationCommission.
  destruct (invitedBy user); [|done]. destruct (adminConfig s); [|done].
  destruct (_ && _); [|done].
  destruct (findByReferralCode _ _) as [[rid r]|]; [|done].
  simpl. by apply fmap_alter_keep.
Qed.

Section batch_frame.
Context (today : Z) (promo : bool) (rate : Q).

Local Abbreviation step := (processInvestment today promo rate).

(** An invariant of every iteration is an invariant of the loop. *)
Lemma loop_invariant (I : Ledger → list User → Prop) rest s mem :
  (∀ s mem p, I s mem → I (step (s, mem) p).1 (step (s, mem) p).2) →
  I s mem →
  I (foldl step (s, mem) rest).1 (foldl step (s, mem) rest).2.
Proof.
  intros Hstep. revert s mem.
  induction rest as [|p rest IH]; intros s mem HI; [done|]. cbn [foldl].
  specialize (Hstep s mem p HI).
  destruct (step (s, mem) p) as [s1 mem1]. by apply IH.
Qed.

(** An iteration writes to users and investments only, and there only to
    the balance and the active list of a user and to the profit, the date
    of the last credit and the status of an investment. *)
Lemma step_frame s mem p :
  plans (step (s, mem) p).1 = plans s
  ∧ withdrawals (step (s, mem) p).1 = withdrawals s
  ∧ adminConfig (step (s, mem) p).1 = adminConfig s
  ∧ userIdentity <$> users (step (s, mem) p).1 = userIdentity <$> users s
  ∧ investmentTerms <$> investments (step (s, mem) p).1
    = investmentTerms <$> investments s.
Proof.
  destruct p as [iid d]. unfold processInvestment, closeIfEnded.
  assert (∀ s0 : Ledger,
            investmentTerms
              <$> alter (set_inv_status inv_completed) iid (investments s0)
            = investmentTerms <$> investments s0) as Hdone.
  { intros s0. by apply fmap_alter_keep. }
  destruct (mem !! userId d) as [user|].
  2: { destruct (endDate d <=? today); simpl; by rewrite ?Hdone. }
  destruct (bool_decide (status user = blocked)).
  { destruct (endDate d <=? today); simpl; by rewrite ?Hdone. }
  destruct (endDate d <=? today).
  - destruct (bool_decide (_ = activeInvestments user)); simpl;
      rewrite Hdone; repeat split; try done.
    by apply fmap_alter_keep.
  - destruct (creditDailyCommission_frame promo rate user
                (investedAmount d * inv_dailyProfitRate d)%Q s)
      as (Hp & Hi & Hw & Hc).
    pose proof (creditDailyCommission_keep userIdentity promo rate user
                  (investedAmount d * inv_dailyProfitRate d)%Q s
                  ltac:(done)) as Hu.
    destruct (Qeq_bool _ _); simpl; rewrite Hi;
      rewrite (fmap_alter_keep investmentTerms) by done;
      repeat split; try done.
    rewrite fmap_alter_keep by done. done.
Qed.

(** An iteration never makes an investment active and keeps its terms. *)
Lemma step_status s mem p j x' :
  investments (step (s, mem) p).1 !! j = Some x' →
  ∃ x, investments s !! j = Some x
       ∧ investmentTerms x' = investmentTerms x
       ∧ (inv_status x' = inv_status x ∨ inv_status x' = inv_completed).
Proof.
  destruct p as [iid d]. intros Hj.
  destruct (step_investments_shape today promo rate s mem iid d)
    as [E|[E|[_ [q E]]]]; rewrite E in Hj.
  - exists x'. by split; [|split; [|left]].
  - destruct (decide (j = iid)) as [->|Hne].
    + rewrite list_lookup_alter_eq in Hj.
      destruct (investments s !! iid) as [x|]; [|done].
      injection Hj as <-. exists x. by split; [|split; [|right]].
    + rewrite list_lookup_alter_ne in Hj by done.
      exists x'. by split; [|split; [|left]].
  - destruct (decide (j = iid)) as [->|Hne].
    + rewrite list_lookup_alter_eq in Hj.
      destruct (investments s !! iid) as [x|]; [|done].
      injection Hj as <-. exists x. by split; [|split; [|left]].
    + rewrite list_lookup_alter_ne in Hj by done.
      exists x'. by split; [|split; [|left]].
Qed.

(** An iteration keeps the rule of one investment per user. *)
Lemma step_slots s mem p :
  activeInvestments <$> users s = activeInvestments <$> mem →
  slotsSound s → slotsSound (step (s, mem) p).1.
Proof.
  intros Hag [Hone Hlisted]. destruct p as [iid d].
  assert (∀ s0 : Ledger,
            users s0 = users s →
            investments s0
            = alter (set_inv_status inv_completed) iid (investments s) →
            slotsSound s0) as Hclose.
  { intros s0 Hu Hi. split; rewrite Hu; [done|]. intros j x Hj Hst.
    rewrite Hi in Hj. destruct (decide (j = iid)) as [->|Hne].
    - rewrite list_lookup_alter_eq in Hj.
      destruct (investments s !! iid); [|done]. by injection Hj as <-.
    - rewrite list_lookup_alter_ne in Hj by done. by apply Hlisted. }
  unfold processInvestment, closeIfEnded.
  destruct (mem !! userId d) as [user|] eqn:Eu.
  2: { destruct (endDate d <=? today); [by apply Hclose|done]. }
  destruct (bool_decide (status user = blocked)).
  { destruct (endDate d <=? today); [by apply Hclose|done]. }
  destruct (endDate d <=? today).
  - destruct (bool_decide (_ = activeInvestments user)); [by apply Hclose|].
    assert ((activeInvestments <$> users s) !! userId d
            = Some (activeInvestments user)) as Hl.
    { by rewrite Hag, list_lookup_fmap, Eu. }
    unfold slotsSound. simpl.
    rewrite (list_fmap_alter activeInvestments _
               (λ _, filter (λ id, id ≠ iid) (activeInvestments user)));
      [|by apply Forall_forall].
    split.
    + apply Forall_alter; [done|]. intros l Hl' Hlen.
      rewrite Hl in Hl'. injection Hl' as <-.
      pose proof (length_filter (λ id, id ≠ iid) (activeInvestments user)).
      lia.
    + intros j x Hj Hst. destruct (decide (j = iid)) as [->|Hne].
      { rewrite list_lookup_alter_eq in Hj.
        destruct (investments s !! iid); [|done]. by injection Hj as <-. }
      rewrite list_lookup_alter_ne in Hj by done.
      destruct (Hlisted j x Hj Hst) as (l & Hxl & Hin).
      destruct (decide (userId x = userId d)) as [E|Hk].
      * rewrite E, list_lookup_alter_eq, Hl. simpl. eexists. split; [done|].
        apply list_elem_of_filter. split; [done|].
        rewrite E, Hl in Hxl. by injection Hxl as ->.
      * rewrite list_lookup_alter_ne by done. by exists l.
  - assert (∀ us : list User,
              activeInvestments <$> us = activeInvestments <$> users s →
              ∀ ivs q,
                ivs = alter (set_profit q (Some today)) iid (investments s) →
                Forall (λ l : list nat, (length l ≤ 1)%nat)
                  (activeInvestments <$> us)
                ∧ ∀ j x, ivs !! j = Some x → inv_status x = inv_active →
                    ∃ l, (activeInvestments <$> us) !! userId x = Some l
                         ∧ j ∈ l) as Hpay.
    { intros us Hus ivs q ->. rewrite Hus. split; [done|].
      intros j x Hj Hst. destruct (decide (j = iid)) as [->|Hne].
      - rewrite list_lookup_alter_eq in Hj.
        destruct (investments s !! iid) as [x0|] eqn:E0; [|done].
        injection Hj as <-. by apply (Hlisted iid x0).
      - rewrite list_lookup_alter_ne in Hj by done. by apply Hlisted. }
    destruct (creditDailyCommission_frame promo rate user
                (investedAmount d * inv_dailyProfitRate d)%Q s)
      as (_ & Hi & _).
    pose proof (creditDailyCommission_keep activeInvestments promo rate user
                  (investedAmount d * inv_dailyProfitRate d)%Q s
                  ltac:(done)) as Hu.
    destruct (Qeq_bool _ _); unfold slotsSound; simpl.
    + eapply Hpay; [done|]. by rewrite Hi.
    + eapply Hpay; [|by rewrite Hi].
      by rewrite fmap_alter_keep.
Qed.
End batch_frame.

Lemma loop_status today promo rate rest s mem j x' :
  investments (foldl (processInvestment today promo rate) (s, mem) rest).1 !! j
  = Some x' →
  ∃ x, investments s !! j = Some x
       ∧ investmentTerms x' = investmentTerms x
       ∧ (inv_status x' = inv_status x ∨ inv_status x' = inv_completed).
Proof.
  revert s mem. induction rest as [|p rest IH]; intros s mem Hj; cbn [foldl] in Hj.
  { exists x'. by split; [|split; [|left]]. }
  pose proof (step_status today promo rate s mem p j) as Hstep.
  destruct (processInvestment today promo rate (s, mem) p) as [s1 mem1].
  destruct (IH s1 mem1 Hj) as (x1 & Hx1 & Ht1 & Hst1).
  destruct (Hstep x1 Hx1) as (x & Hx & Ht & Hst).
  exists x. split; [done|]. split; [congruence|].
  destruct Hst1 as [Hst1|Hst1]; rewrite Hst1; [done|by right].
Qed.

(** X12: a run of the daily batch creates and deletes nothing and writes
    to no plan, no withdrawal and not to the configuration.  Of a user it
    leaves every path but the balance and the list of active investments
    as it was, and that list only loses entries; of an investment it
    leaves the owner, the plan, the amount, the rate and the dates of
    start and end as they were, and the status changes, if at all, from
    active to completed. *)
Theorem batch_writes_balances_profits_and_slots_only (today : Z)
    (s : Ledger) :
  plans (processDailyProfitsAndCommissions today s) = plans s
  ∧ withdrawals (processDailyProfitsAndCommissions today s) = withdrawals s
  ∧ adminConfig (processDailyProfitsAndCommissions today s) = adminConfig s
  ∧ userIdentity <$> users (processDailyProfitsAndCommissions today s)
    = userIdentity <$> users s
  ∧ investmentTerms <$> investments (processDailyProfitsAndCommissions today s)
    = investmentTerms <$> investments s
  ∧ (∀ k l',
       (activeInvestments <$> users (processDailyProfitsAndCommissions today s))
       !! k = Some l' →
       ∃ l, (activeInvestments <$> users s) !! k = Some l ∧ l' ⊆ l)
  ∧ ∀ j x',
      investments (processDailyProfitsAndCommissions today s) !! j = Some x' →
      ∃ x, investments s !! j = Some x
           ∧ (inv_status x' = inv_status x
              ∨ inv_status x = inv_active ∧ inv_status x' = inv_completed).
Proof.
  unfold processDailyProfitsAndCommissions.
  set (promo := match adminConfig s with
                | Some cfg => isPromotionActive cfg | None => false end).
  set (rate := match adminConfig s with
               | Some cfg => commissionOnDailyProfit cfg | None => 0%Q end).
  set (rest := findCreditDue today (investments s)).
  pose proof (loop_invariant today promo rate
                (λ s' _, plans s' = plans s ∧ withdrawals s' = withdrawals s
                         ∧ adminConfig s' = adminConfig s
                         ∧ userIdentity <$> users s' = userIdentity <$> users s
                         ∧ investmentTerms <$> investments s'
                           = investmentTerms <$> investments s)
                rest s (users s)) as Hframe.
  destruct Hframe as (Hp & Hw & Hc & Hu & Hi); [|done|].
  { intros s0 mem0 p (Hp & Hw & Hc & Hu & Hi).
    destruct (step_frame today promo rate s0 mem0 p)
      as (Hp' & Hw' & Hc' & Hu' & Hi').
    by rewrite Hp', Hw', Hc', Hu', Hi'. }
  split; [done|]. split; [done|]. split; [done|]. split; [done|].
  split; [done|]. split.
  - intros k l' Hk.
    destruct (loop_frame today promo rate rest s (users s))
      as (_ & Hag & _ & Hshrink).
    rewrite Hag in Hk by done. by apply Hshrink.
  - intros j x' Hj.
    destruct (loop_status today promo rate rest s (users s) j x' Hj)
      as (x & Hx & _ & Hst).
    exists x. split; [done|].
    destruct Hst as [Hst|Hst]; [by left|].
    destruct (decide (inv_status x = inv_active)) as [Ha|Hna]; [by right|].
    left.
    pose proof (batch_leaves_inactive today s j x Hx Hna) as Hsame.
    unfold processDailyProfitsAndCommissions in Hsame.
    fold promo rate rest in Hsame. congruence.
Qed.

(** ** One investment per user *)

Lemma activateInvestment_cases now uid pid s s' r :
  activateInvestment now uid pid s = (s', r) →
  s' = s ∧ (∀ id, r ≠ Created id)
  ∨ ∃ p id, pid = Some (ObjectId p) ∧ r = Created id.
Proof.
  unfold activateInvestment.
  destruct pid as [[|p]|];
    [by intros [= <- <-]; left| |by intros [= <- <-]; left].
  destruct (users s !! uid) as [user|]; [|by intros [= <- <-]; left].
  destruct (plans s !! p) as [plan|]; [|by intros [= <- <-]; left].
  destruct (negb (isActive plan)); [by intros [= <- <-]; left|].
  destruct (0 <? length (activeInvestments user))%nat;
    [by intros [= <- <-]; left|].
  destruct (Qle_bool _ _); [by intros [= <- <-]; left|].
  destruct (Qltb _ _); [by intros [= <- <-]; left|].
  intros [= <- <-]. right. by exists p, (length (investments s)).
Qed.

Lemma upgradeInvestment_cases now uid pid s :
  (upgradeInvestment now uid pid s).1 = s
  ∧ (upgradeInvestment now uid pid s).2 ≠ Success
  ∨ (∃ user first others,
       users s !! uid = Some user
       ∧ activeInvestments user = first :: others
       ∧ investments s !! first = None
       ∧ upgradeInvestment now uid pid s
         = (updateUser uid
              (set_activeInvestments
                 (filter (λ id, id ≠ first) (first :: others))) s,
            InvalidActiveInvestment))
  ∨ ∃ user newPid newPlan first others cur,
      pid = Some (ObjectId newPid)
      ∧ users s !! uid = Some user ∧ plans s !! newPid = Some newPlan
      ∧ isActive newPlan = true
      ∧ activeInvestments user = first :: others
      ∧ investments s !! first = Some cur
      ∧ (investedAmount cur < minAmount newPlan)%Q
      ∧ (minAmount newPlan - investedAmount cur <= balance user)%Q
      ∧ (plans s !! planId cur = None
         ∧ upgradeInvestment now uid pid s
           = (updateUser uid
                (set_balance
                   (balance user
                    - (minAmount newPlan - investedAmount cur))%Q)
                (updateInvestment first
                   (set_plan newPid (minAmount newPlan)
                      (dailyProfitRate newPlan)
                      (addDays now (durationDays newPlan)) (Some now)) s),
              ServerError)
         ∨ is_Some (plans s !! planId cur)
           ∧ upgradeInvestment now uid pid s
             = (creditActivationCommission user
                  (minAmount newPlan - investedAmount cur)%Q
                  (updateUser uid
                     (set_balance
                        (balance user
                         - (minAmount newPlan - investedAmount cur))%Q)
                     (updateInvestment first
                        (set_plan newPid (minAmount newPlan)
                           (dailyProfitRate newPlan)
                           (addDays now (durationDays newPlan)) (Some now))
                        s)),
                Success)).
Proof.
  unfold upgradeInvestment.
  destruct pid as [[|newPid]|]; [by left| |by left].
  destruct (users s !! uid) as [user|] eqn:Eu; [|by left].
  destruct (plans s !! newPid) as [newPlan|] eqn:Ep; [|by left].
  destruct (isActive newPlan) eqn:Ea; [|by left]. cbn [negb].
  destruct (activeInvestments user) as [|first others] eqn:El; [by left|].
  destruct (investments s !! first) as [cur|] eqn:Ei.
  2: { right. left. by exists user, first, others. }
  destruct (Qle_bool (minAmount newPlan) (investedAmount cur)) eqn:Ele.
  { left. by destruct (plans s !! planId cur). }
  destruct (Qltb (balance user) _) eqn:Eb; [by left|].
  right. right. exists user, newPid, newPlan, first, others, cur.
  split; [done|]. split; [done|]. split; [done|]. split; [done|].
  split; [done|]. split; [done|]. split.
  { apply Qnot_le_lt. intros Hle. apply Qle_bool_iff in Hle. congruence. }
  split.
  { apply Qnot_lt_le. intros Hlt. apply Qltb_lt in Hlt. congruence. }
  destruct (plans s !! planId cur); [right|left]; eauto.
Qed.

Lemma blockAccounts_frame found s :
  plans (blockAccounts found s) = plans s
  ∧ investments (blockAccounts found s) = investments s
  ∧ withdrawals (blockAccounts found s) = withdrawals s
  ∧ adminConfig (blockAccounts found s) = adminConfig s.
Proof.
  revert s. induction found as [|p found IH]; intros s; [done|].
  rewrite blockAccounts_cons.
  destruct (IH (if bool_decide (status p.2 = active)
                then updateUser p.1 (set_status blocked) s else s))
    as (-> & -> & -> & ->).
  by destruct (bool_decide _).
Qed.

Lemma registerUser_frame fuel draws phone pass visitor invite s s' r :
  registerUser fuel draws phone pass visitor invite s = Some (s', r) →
  plans s' = plans s ∧ investments s' = investments s
  ∧ withdrawals s' = withdrawals s ∧ adminConfig s' = adminConfig s.
Proof.
  unfold registerUser.
  destruct (_ || _); [by intros [= <- <-]|].
  destruct (negb _); [by intros [= <- <-]|].
  destruct (0 <? _)%nat.
  { intros [= <- <-]. apply blockAccounts_frame. }
  destruct (list_find _ (users s)); [by intros [= <- <-]|].
  destruct (pickReferralCode _ _ _ _); [|done].
  cbv zeta.
  destruct (String.length pass <? 6)%nat; [by intros [= <- <-]|].
  intros [= <- <-].
  by destruct (if truthy_opt invite then _ else _) as [[rid r0]|].
Qed.

Lemma slotsSound_ext s s' :
  activeInvestments <$> users s' = activeInvestments <$> users s →
  (∀ j x', investments s' !! j = Some x' → inv_status x' = inv_active →
     ∃ x, investments s !! j = Some x ∧ userId x = userId x'
          ∧ inv_status x = inv_active) →
  slotsSound s → slotsSound s'.
Proof.
  intros Hu Hi [Hone Hlisted]. split; rewrite Hu; [done|].
  intros j x' Hj Hst. destruct (Hi j x' Hj Hst) as (x & Hx & <- & Hst').
  by apply Hlisted.
Qed.

(** X13: the rule of one investment per user.  If no user lists more than
    one investment and every active investment is listed by its owner,
    the same holds after an activation, an upgrade, a run of the daily
    batch and a registration, whatever they answer; and then the query of
    [getUserActiveInvestments] returns at most one investment. *)
Theorem one_investment_per_user (s : Ledger) :
  slotsSound s →
  (∀ now uid pid, slotsSound (activateInvestment now uid pid s).1)
  ∧ (∀ now uid pid, slotsSound (upgradeInvestment now uid pid s).1)
  ∧ (∀ today, slotsSound (processDailyProfitsAndCommissions today s))
  ∧ (∀ fuel draws phone pass visitor invite s' r,
       registerUser fuel draws phone pass visitor invite s = Some (s', r) →
       slotsSound s')
  ∧ ∀ uid, (length (getUserActiveInvestments uid s) ≤ 1)%nat.
Proof.
  intros Hs. pose proof Hs as [Hone Hlisted].
  split; [|split; [|split; [|split]]].
  - intros now uid pid.
    destruct (activateInvestment now uid pid s) as [s' r] eqn:Hact.
    destruct (activateInvestment_cases _ _ _ _ _ _ Hact)
      as [[-> _]|(p & id & -> & ->)]; [done|]. simpl.
    apply activateInvestment_success in Hact
      as (user & plan & Hu & Hp & _ & Hnil & _ & _ & -> & ->).
    unfold slotsSound.
    rewrite creditActivationCommission_keep by done.
    destruct (creditActivationCommission_frame user (minAmount plan)
                (updateUser uid
                   (λ u, set_activeInvestments
                           (activeInvestments user
                            ++ [length (investments s)])
                           (set_balance (balance user - minAmount plan)%Q u))
                   (with_investments
                      (investments s
                       ++ [mkInvestment uid p (minAmount plan)
                             (dailyProfitRate plan) now
                             (addDays now (durationDays plan)) 0%Q (Some now)
                             inv_active]) s))) as (_ & -> & _).
    simpl.
    rewrite (list_fmap_alter activeInvestments _
               (λ _, activeInvestments user ++ [length (investments s)]));
      [|by apply Forall_forall].
    assert ((activeInvestments <$> users s) !! uid = Some []) as Hl.
    { by rewrite list_lookup_fmap, Hu, <- Hnil. }
    split.
    + apply Forall_alter; [done|]. intros l _ _. rewrite Hnil. simpl. lia.
    + intros j x Hj Hst. apply lookup_snoc_Some in Hj as [[_ Hj]|[-> <-]].
      * destruct (Hlisted j x Hj Hst) as (l & Hxl & Hin).
        destruct (decide (userId x = uid)) as [E|Hne].
        -- rewrite E, Hl in Hxl. injection Hxl as <-.
           by apply elem_of_nil in Hin.
        -- rewrite list_lookup_alter_ne by done. by exists l.
      * simpl. rewrite list_lookup_alter_eq, Hl. simpl. eexists.
        split; [done|]. apply elem_of_app. right.
        by apply list_elem_of_singleton.
  - intros now uid pid.
    destruct (upgradeInvestment_cases now uid pid s)
      as [[Hsame _]
         |[(user & first & others & Hu & Hl & Hnone & Hres)
          |(user & newPid & newPlan & first & others & cur & -> & Hu & Hp & _
            & Hl & Hcur & _ & _ & Hres)]]; [by rewrite Hsame| |].
    + rewrite Hres.
      assert ((activeInvestments <$> users s) !! uid = Some (first :: others))
        as Hlu by by rewrite list_lookup_fmap, Hu, <- Hl.
      unfold slotsSound. simpl.
      rewrite (list_fmap_alter activeInvestments _
                 (λ _, filter (λ id, id ≠ first) (first :: others)));
        [|by apply Forall_forall].
      split.
      * apply Forall_alter; [done|]. intros l Hl' Hlen.
        rewrite Hlu in Hl'. injection Hl' as <-.
        pose proof (length_filter (λ id, id ≠ first) (first :: others)). lia.
      * intros j x Hj Hst.
        destruct (Hlisted j x Hj Hst) as (l & Hxl & Hin).
        destruct (decide (userId x = uid)) as [E|Hne].
        -- rewrite E, list_lookup_alter_eq, Hlu. simpl. eexists.
           split; [done|]. rewrite E, Hlu in Hxl. injection Hxl as <-.
           apply list_elem_of_filter. split; [|done]. intros ->. congruence.
        -- rewrite list_lookup_alter_ne by done. by exists l.
    + assert (slotsSound
                (updateUser uid
                   (set_balance
                      (balance user
                       - (minAmount newPlan - investedAmount cur))%Q)
                   (updateInvestment first
                      (set_plan newPid (minAmount newPlan)
                         (dailyProfitRate newPlan)
                         (addDays now (durationDays newPlan)) (Some now)) s)))
        as Hwritten.
      { apply (slotsSound_ext s); [| |done].
        - simpl. by apply fmap_alter_keep.
        - simpl. intros j x' Hj Hst.
          destruct (decide (j = first)) as [->|Hne].
          + rewrite list_lookup_alter_eq, Hcur in Hj. injection Hj as <-.
            by exists cur.
          + rewrite list_lookup_alter_ne in Hj by done. by exists x'. }
      destruct Hres as [[_ Hres]|[_ Hres]]; rewrite Hres; [done|]. simpl.
      eapply slotsSound_ext; [| |exact Hwritten].
      * by apply creditActivationCommission_keep.
      * intros j x' Hj Hst.
        destruct (creditActivationCommission_frame user
                    (minAmount newPlan - investedAmount cur)%Q
                    (updateUser uid
                       (set_balance
                          (balance user
                           - (minAmount newPlan - investedAmount cur))%Q)
                       (updateInvestment first
                          (set_plan newPid (minAmount newPlan)
                             (dailyProfitRate newPlan)
                             (addDays now (durationDays newPlan)) (Some now))
                          s))) as (_ & Hi & _).
        rewrite Hi in Hj. by exists x'.
  - intros today. unfold processDailyProfitsAndCommissions.
    apply (loop_invariant today _ _
             (λ s' mem', activeInvestments <$> users s'
                         = activeInvestments <$> mem' ∧ slotsSound s'));
      [|done].
    intros s0 mem0 p [Hag Hs0]. split.
    + by apply step_agreement.
    + by apply step_slots.
  - intros fuel draws phone pass visitor invite s' r Hreg.
    destruct (registerUser_frame _ _ _ _ _ _ _ _ _ Hreg) as (_ & Hi & _).
    assert ((∃ id, r = Created id) ∨ ∀ id, r ≠ Created id) as [[id ->]|Hno].
    { destruct r; eauto. }
    2: { apply (slotsSound_ext s); [| |done].
         - by apply (registerUser_refused _ _ _ _ _ _ _ _ _ _ Hreg).
         - intros j x' Hj Hst. rewrite Hi in Hj. by exists x'. }
    apply registerUser_created in Hreg as (-> & _ & _ & own & _ & Hcase).
    assert (∀ inv,
              slotsSound
                (with_users
                   (users s ++ [mkUser phone pass 0%Q active visitor false
                                  (Some own) inv [] [] []]) s)) as Hnew.
    { intros inv. unfold slotsSound. simpl. rewrite fmap_app. split.
      - apply Forall_app. split; [done|]. apply Forall_singleton. simpl. lia.
      - intros j x Hj Hst. destruct (Hlisted j x Hj Hst) as (l & Hl & Hin).
        exists l. split; [|done]. by apply lookup_app_l_Some. }
    destruct Hcase as [(c & rid & r0 & _ & _ & _ & _ & ->)|[_ ->]]; [|done].
    eapply slotsSound_ext; [| |apply (Hnew (referralCode r0))].
    + simpl. by apply fmap_alter_keep.
    + intros j x' Hj Hst. by exists x'.
  - intros uid. unfold getUserActiveInvestments.
    destruct (filter _ (imap pair (investments s))) as [|[j x] rest] eqn:Ef;
      [simpl; lia|].
    assert ((j, x) ∈ filter (λ p : nat * Investment,
                               userId p.2 = uid ∧ inv_status p.2 = inv_active)
                       (imap pair (investments s))) as Hjx.
    { rewrite Ef. by left. }
    apply elem_of_filter_imap in Hjx as [[Hid Hst] Hj]. simpl in Hid, Hst.
    destruct (Hlisted j x Hj Hst) as (l & Hl & _). rewrite Hid in Hl.
    assert (length l ≤ 1)%nat as Hlen.
    { rewrite Forall_forall in Hone. apply Hone.
      by apply list_elem_of_lookup_2 in Hl. }
    rewrite <- Ef, <- (length_fmap fst).
    transitivity (length l); [|done]. apply submseteq_length.
    apply NoDup_submseteq.
    + apply (NoDup_fst_filter_imap
               (λ p : nat * Investment,
                  userId p.2 = uid ∧ inv_status p.2 = inv_active)).
    + intros k Hk. apply list_elem_of_fmap in Hk as ([k' y] & -> & Hin).
      apply elem_of_filter_imap in Hin as [[Hid' Hst'] Hy].
      simpl in Hid', Hst'.
      destruct (Hlisted k' y Hy Hst') as (l' & Hl' & Hin').
      rewrite Hid', Hl in Hl'. by injection Hl' as <-.
Qed.

Lemma ex_ledger_slotsSound : slotsSound (ex_ledger active).
Proof.
  split.
  - simpl. repeat constructor; simpl; lia.
  - intros iid inv Hl. by destruct iid.
Defined.

Lemma one_investment_per_user_witness :
  slotsSound (ex_ledger active) ∧ slotsSound ex_invested.
Proof.
  split; [exact ex_ledger_slotsSound|].
  exact (proj1 (one_investment_per_user (ex_ledger active)
                  ex_ledger_slotsSound) ex_now 1%nat (Some (ObjectId 0%nat))).
Defined.

(** ** Active investments and their plans *)

Lemma plansLive_ext s s' :
  (∀ k, is_Some (plans s !! k) → is_Some (plans s' !! k)) →
  (∀ j x', investments s' !! j = Some x' → inv_status x' = inv_active →
     is_Some (plans s' !! planId x')
     ∨ ∃ x, investments s !! j = Some x ∧ planId x = planId x'
            ∧ inv_status x = inv_active) →
  plansLive s → plansLive s'.
Proof.
  intros Hp Hi Hs j x' Hj Hst.
  destruct (Hi j x' Hj Hst) as [H|(x & Hx & <- & Hst')]; [done|].
  apply Hp. by apply (Hs j x).
Qed.

(** X14: an active investment never loses its plan.  A plan is not
    deleted while an active investment refers to it, and if every active
    investment refers to a stored plan, it still does after any of the
    plan handlers, an activation, an upgrade or a run of the daily batch.
    Then an upgrade of a listed investment that is active is answered 500
    in one case only: the plan id of the request is one that
    [InvestmentPlan.findById] cannot cast. *)
Theorem active_investments_keep_their_plan (s : Ledger) :
  plansLive s →
  (∀ pid, plansLive (deleteInvestmentPlan pid s).1)
  ∧ (∀ pid nm minAmt rate act,
       plansLive (updateInvestmentPlan pid nm minAmt rate act s).1)
  ∧ (∀ newId nm minAmt rate,
       plansLive (createInvestmentPlan newId nm minAmt rate s).1)
  ∧ (∀ now uid pid, plansLive (activateInvestment now uid pid s).1)
  ∧ (∀ now uid pid, plansLive (upgradeInvestment now uid pid s).1)
  ∧ (∀ today, plansLive (processDailyProfitsAndCommissions today s))
  ∧ ∀ now uid pid user first others cur,
      users s !! uid = Some user →
      activeInvestments user = first :: others →
      investments s !! first = Some cur →
      inv_status cur = inv_active →
      (upgradeInvestment now uid pid s).2 = ServerError
      ↔ pid = Some Malformed.
Proof.
  intros Hs. repeat apply conj.
  - intros pid. unfold deleteInvestmentPlan.
    destruct (plans s !! pid) as [plan|] eqn:Ep; [|done].
    destruct (existsb _ (investments s)) eqn:Ex; [done|].
    intros j x Hj Hst. simpl in *.
    destruct (Hs j x Hj Hst) as [q Hq].
    assert (planId x ≠ pid) as Hne.
    { intros E.
      assert (existsb (λ i, (planId i =? pid)%nat
                            && bool_decide (inv_status i = inv_active))
                (investments s) = true) as Hex; [|congruence].
      apply existsb_exists. exists x. split.
      - apply list_elem_of_In. by apply list_elem_of_lookup_2 in Hj.
      - apply andb_true_iff. split; [by apply Nat.eqb_eq|].
        by apply bool_decide_eq_true_2. }
    exists q. by rewrite lookup_delete_ne.
  - intros pid nm minAmt rate act. unfold updateInvestmentPlan.
    destruct (plans s !! pid) as [plan|] eqn:Ep; [|done].
    destruct (negb _); [done|]. destruct (nameTaken _ _ _); [done|].
    apply (plansLive_ext s); [| |done].
    + intros k Hk. simpl. apply lookup_insert_is_Some.
      destruct (decide (pid = k)); [by left|by right].
    + intros j x' Hj Hst. right. by exists x'.
  - intros newId nm minAmt rate. unfold createInvestmentPlan.
    destruct (_ || _); [done|]. destruct (negb _); [done|].
    destruct (nameTaken _ _ _); [done|].
    apply (plansLive_ext s); [| |done].
    + intros k Hk. simpl. apply lookup_insert_is_Some.
      destruct (decide (newId = k)); [by left|by right].
    + intros j x' Hj Hst. right. by exists x'.
  - intros now uid pid.
    destruct (activateInvestment now uid pid s) as [s' r] eqn:Hact.
    destruct (activateInvestment_cases _ _ _ _ _ _ Hact)
      as [[-> _]|(p & id & -> & ->)]; [done|]. simpl.
    apply activateInvestment_success in Hact
      as (user & plan & Hu & Hp & _ & Hnil & _ & _ & -> & ->).
    destruct (creditActivationCommission_frame user (minAmount plan)
                (updateUser uid
                   (λ u, set_activeInvestments
                           (activeInvestments user
                            ++ [length (investments s)])
                           (set_balance (balance user - minAmount plan)%Q u))
                   (with_investments
                      (investments s
                       ++ [mkInvestment uid p (minAmount plan)
                             (dailyProfitRate plan) now
                             (addDays now (durationDays plan)) 0%Q (Some now)
                             inv_active]) s))) as (Hpl & Hiv & _).
    apply (plansLive_ext s); [| |done].
    + intros k Hk. by rewrite Hpl.
    + intros j x' Hj Hst. rewrite Hiv in Hj. simpl in Hj.
      apply lookup_snoc_Some in Hj as [[_ Hj]|[_ <-]].
      * right. by exists x'.
      * left. rewrite Hpl. simpl. by rewrite Hp.
  - intros now uid pid.
    destruct (upgradeInvestment_cases now uid pid s)
      as [[Hsame _]
         |[(user & first & others & Hu & Hl & Hnone & Hres)
          |(user & newPid & newPlan & first & others & cur & -> & Hu & Hp & _
            & Hl & Hcur & _ & _ & Hres)]]; [by rewrite Hsame| |].
    + rewrite Hres. simpl. apply (plansLive_ext s); [done| |done].
      intros j x' Hj Hst. right. by exists x'.
    + assert (plansLive
                (updateUser uid
                   (set_balance
                      (balance user
                       - (minAmount newPlan - investedAmount cur))%Q)
                   (updateInvestment first
                      (set_plan newPid (minAmount newPlan)
                         (dailyProfitRate newPlan)
                         (addDays now (durationDays newPlan)) (Some now)) s)))
        as Hwritten.
      { apply (plansLive_ext s); [done| |done].
        simpl. intros j x' Hj Hst.
        destruct (decide (j = first)) as [->|Hne].
        - rewrite list_lookup_alter_eq, Hcur in Hj. injection Hj as <-.
          left. simpl. by rewrite Hp.
        - rewrite list_lookup_alter_ne in Hj by done. right. by exists x'. }
      destruct Hres as [[_ Hres]|[_ Hres]]; rewrite Hres; [done|]. simpl.
      destruct (creditActivationCommission_frame user
                  (minAmount newPlan - investedAmount cur)%Q
                  (updateUser uid
                     (set_balance
                        (balance user
                         - (minAmount newPlan - investedAmount cur))%Q)
                     (updateInvestment first
                        (set_plan newPid (minAmount newPlan)
                           (dailyProfitRate newPlan)
                           (addDays now (durationDays newPlan)) (Some now))
                        s))) as (Hpl & Hiv & _).
      eapply plansLive_ext; [| |exact Hwritten].
      * intros k Hk. by rewrite Hpl.
      * intros j x' Hj Hst. rewrite Hiv in Hj. right. by exists x'.
  - intros today. unfold processDailyProfitsAndCommissions.
    set (promo := match adminConfig s with
                  | Some cfg => isPromotionActive cfg | None => false end).
    set (rate := match adminConfig s with
                 | Some cfg => commissionOnDailyProfit cfg | None => 0%Q end).
    set (rest := findCreditDue today (investments s)).
    assert (plans (foldl (processInvestment today promo rate) (s, users s)
                     rest).1 = plans s) as Hpl.
    { apply (loop_invariant today promo rate
               (λ s' _, plans s' = plans s)); [|done].
      intros s0 mem0 p Hp0.
      destruct (step_frame today promo rate s0 mem0 p) as (Hp' & _).
      by rewrite Hp'. }
    apply (plansLive_ext s); [| |done].
    + intros k Hk. by rewrite Hpl.
    + intros j x' Hj Hst. right.
      destruct (loop_status today promo rate rest s (users s) j x' Hj)
        as (x & Hx & Ht & Hst').
      exists x. split; [done|]. split; [by injection Ht|].
      destruct Hst' as [Hst'|Hst']; congruence.
  - intros now uid pid user first others cur Hu Hl Hcur Hst.
    destruct (Hs first cur Hcur Hst) as [q Hq].
    destruct pid as [[|newPid]|]; [done| |done].
    split; [|done]. unfold upgradeInvestment.
    rewrite Hu. destruct (plans s !! newPid) as [newPlan|]; [|done].
    destruct (negb _); [done|]. rewrite Hl, Hcur, Hq.
    destruct (Qle_bool _ _); [done|]. by destruct (Qltb _ _).
Qed.

Lemma active_investments_keep_their_plan_witness :
  plansLive ex_invested
  ∧ (deleteInvestmentPlan 0 ex_invested).2 = PlanInUse
  ∧ plansLive (processDailyProfitsAndCommissions ex_tomorrow ex_invested).
Proof.
  assert (plansLive (ex_ledger active)) as H0.
  { intros j x Hj. by destruct j. }
  pose proof (proj1 (proj2 (proj2 (proj2
                (active_investments_keep_their_plan (ex_ledger active) H0))))
                ex_now 1%nat (Some (ObjectId 0%nat))) as H1.
  split; [exact H1|]. split; [reflexivity|].
  exact (proj1 (proj2 (proj2 (proj2 (proj2 (proj2
           (active_investments_keep_their_plan ex_invested H1))))))
           ex_tomorrow).
Defined.

(** ** The configuration *)

Lemma defaultConfig_valid : configValid defaultConfig.
Proof. unfold configValid. simpl. repeat apply conj; by vm_compute. Qed.

Lemma ensureConfig_valid b : bankConfigValid b → bankConfigValid (ensureConfig b).
Proof.
  unfold ensureConfig, bankConfigValid.
  destruct (adminConfig (ledger b)) eqn:E; simpl; rewrite ?E; [done|].
  intros _. split; [apply defaultConfig_valid|by vm_compute].
Qed.

Lemma belowOne_false v x : belowOne v = false → v = Some x → (1 <= x)%Q.
Proof. intros H ->. by apply Qltb_false. Qed.

(** X15: [updateAdminConfig] always leaves a configuration in place, and
    it keeps the validators of the schema: rates between 0 and 1, times
    of the form HH:MM, and minima and maxima of at least 1.  It writes to
    the configuration only, and a refused update stores nothing but the
    default configuration when there was none. *)
Theorem config_update_keeps_the_validators (u : ConfigUpdate) (b : Bank) :
  bankConfigValid b →
  is_Some (adminConfig (ledger (updateAdminConfig u b).1))
  ∧ bankConfigValid (updateAdminConfig u b).1
  ∧ with_adminConfig (adminConfig (ledger b))
      (ledger (updateAdminConfig u b).1) = ledger b
  ∧ deposits (updateAdminConfig u b).1 = deposits b
  ∧ depositHistory (updateAdminConfig u b).1 = depositHistory b
  ∧ ((updateAdminConfig u b).2 ≠ ConfigUpdated →
     (updateAdminConfig u b).1 = ensureConfig b).
Proof.
  intros Hb. pose proof (ensureConfig_valid b Hb) as Hb0.
  pose proof (ensureConfig_has_config b) as [c0 Hc0].
  assert (with_adminConfig (adminConfig (ledger b)) (ledger (ensureConfig b))
          = ledger b
          ∧ deposits (ensureConfig b) = deposits b
          ∧ depositHistory (ensureConfig b) = depositHistory b) as Hframe.
  { unfold ensureConfig. destruct (adminConfig (ledger b)) eqn:E; simpl.
    - rewrite <- E. by destruct (ledger b).
    - rewrite <- E. by destruct (ledger b). }
  assert (is_Some (adminConfig (ledger (ensureConfig b)))
          ∧ bankConfigValid (ensureConfig b)
          ∧ with_adminConfig (adminConfig (ledger b))
              (ledger (ensureConfig b)) = ledger b
          ∧ deposits (ensureConfig b) = deposits b
          ∧ depositHistory (ensureConfig b) = depositHistory b
          ∧ (ensureConfig b = ensureConfig b)) as Hrefused.
  { destruct Hframe as (? & ? & ?). rewrite Hc0. eauto 10. }
  unfold updateAdminConfig.
  destruct (belowOne (upd_minDepositAmount u)) eqn:E1; [by intuition|].
  destruct (belowOne (upd_minWithdrawalAmount u)) eqn:E2; [by intuition|].
  destruct (belowOne (upd_maxWithdrawalAmount u)) eqn:E3; [by intuition|].
  destruct (match upd_minWithdrawalAmount u, upd_maxWithdrawalAmount u with
            | Some lo, Some hi => Qltb hi lo
            | _, _ => false
            end); [by intuition|].
  destruct (badTime (upd_withdrawalStartTime u)); [by intuition|].
  destruct (badTime (upd_withdrawalEndTime u)); [by intuition|].
  destruct (rateInRange (upd_commissionOnPlanActivation u)
            && rateInRange (upd_commissionOnDailyProfit u)
            && timeWellFormed (upd_withdrawalStartTime u)
            && timeWellFormed (upd_withdrawalEndTime u)) eqn:Ev;
    cbn [negb]; [|by intuition].
  apply andb_true_iff in Ev as [Ev Ht2]. apply andb_true_iff in Ev as [Ev Ht1].
  apply andb_true_iff in Ev as [Hr1 Hr2].
  destruct Hframe as (Hl & Hd & Hh).
  unfold bankConfigValid in Hb0. rewrite Hc0 in Hb0.
  destruct Hb0 as ((Ha0 & Ha1 & Hd0 & Hd1 & Hs & He & Hmin & Hmax) & Hdep).
  rewrite Hc0. simpl.
  split; [eauto|]. split; [|split; [|done]].
  - unfold bankConfigValid, configValid. simpl.
    repeat apply conj.
    + destruct (upd_commissionOnPlanActivation u); simpl in *; [|done].
      apply andb_true_iff in Hr1 as [? _]. by apply Qle_bool_iff.
    + destruct (upd_commissionOnPlanActivation u); simpl in *; [|done].
      apply andb_true_iff in Hr1 as [_ ?]. by apply Qle_bool_iff.
    + destruct (upd_commissionOnDailyProfit u); simpl in *; [|done].
      apply andb_true_iff in Hr2 as [? _]. by apply Qle_bool_iff.
    + destruct (upd_commissionOnDailyProfit u); simpl in *; [|done].
      apply andb_true_iff in Hr2 as [_ ?]. by apply Qle_bool_iff.
    + by destruct (upd_withdrawalStartTime u).
    + by destruct (upd_withdrawalEndTime u).
    + destruct (upd_minWithdrawalAmount u) eqn:E; simpl; [|done].
      by apply (belowOne_false _ _ E2).
    + destruct (upd_maxWithdrawalAmount u) eqn:E; simpl; [|done].
      by apply (belowOne_false _ _ E3).
    + destruct (upd_minDepositAmount u) eqn:E; simpl.
      * by apply (belowOne_false _ _ E1).
      * unfold currentMinDeposit. by rewrite Hc0.
  - rewrite <- Hl. by destruct (ledger (ensureConfig b)).
Qed.

Lemma ex_bank_configValid : bankConfigValid ex_bank.
Proof.
  unfold bankConfigValid, configValid. simpl.
  repeat apply conj; try reflexivity; by vm_compute.
Defined.

Lemma config_update_keeps_the_validators_witness :
  bankConfigValid ex_bank
  ∧ bankConfigValid (updateAdminConfig ex_update_window ex_bank).1.
Proof.
  split; [exact ex_bank_configValid|].
  exact (proj1 (proj2 (config_update_keeps_the_validators ex_update_window
                         ex_bank ex_bank_configValid))).
Defined.

Lemma requestWithdrawal_created h m now uid amt wallet s s' id cfg :
  requestWithdrawal h m now uid amt wallet s = (s', Created id) →
  adminConfig s = Some cfg →
  (truthy (withdrawalStartTime cfg) && truthy (withdrawalEndTime cfg) = true →
   isWithdrawalTimeAllowed (withdrawalStartTime cfg) (withdrawalEndTime cfg)
     h m = true)
  ∧ (minWithdrawalAmount cfg <= amt)%Q ∧ (amt <= maxWithdrawalAmount cfg)%Q.
Proof.
  unfold requestWithdrawal. intros H Hc. rewrite Hc in H.
  destruct (_ || _); [done|]. destruct (Qle_bool amt 0); [done|].
  destruct (users s !! uid) as [user|]; [|done].
  destruct (truthy (withdrawalStartTime cfg) && truthy (withdrawalEndTime cfg)).
  - destruct (isWithdrawalTimeAllowed _ _ h m); [|done]. cbn [negb] in H.
    destruct (Qltb amt (minWithdrawalAmount cfg)) eqn:E1; [done|].
    destruct (Qltb (maxWithdrawalAmount cfg) amt) eqn:E2; [done|].
    split; [done|]. split; by apply Qltb_false.
  - cbn [negb] in H.
    destruct (Qltb amt (minWithdrawalAmount cfg)) eqn:E1; [done|].
    destruct (Qltb (maxWithdrawalAmount cfg) amt) eqn:E2; [done|].
    split; [done|]. split; by apply Qltb_false.
Qed.

(** X16: the order of the two withdrawal bounds is checked only when both
    are sent in one request.  A request that sends both with the minimum
    above the maximum is answered 400; a request that sends only a
    minimum above the stored maximum is accepted and stored, and from then
    on no withdrawal request of any amount succeeds. *)
Theorem lone_minimum_closes_withdrawals (b : Bank) (cfg : AdminConfig)
    (lo : Q) :
  adminConfig (ledger b) = Some cfg →
  (1 <= maxWithdrawalAmount cfg)%Q → (maxWithdrawalAmount cfg < lo)%Q →
  (updateAdminConfig
     (mkConfigUpdate None None None None None None (Some lo)
        (Some (maxWithdrawalAmount cfg))) b).2 = MinAboveMax
  ∧ (updateAdminConfig
       (mkConfigUpdate None None None None None None (Some lo) None) b).2
    = ConfigUpdated
  ∧ ∀ h m now uid amt wallet id s',
      requestWithdrawal h m now uid amt wallet
        (ledger (updateAdminConfig
                   (mkConfigUpdate None None None None None None (Some lo)
                      None) b).1)
      ≠ (s', Created id).
Proof.
  intros Hc Hone Hmax.
  assert (Qltb lo 1 = false) as E1.
  { apply Qltb_false. apply Qlt_le_weak.
    by apply (Qle_lt_trans _ (maxWithdrawalAmount cfg)). }
  assert (Qltb (maxWithdrawalAmount cfg) lo = true) as E2 by by apply Qltb_lt.
  assert (Qltb (maxWithdrawalAmount cfg) 1 = false) as E3 by by apply Qltb_false.
  unfold updateAdminConfig, ensureConfig. rewrite Hc. simpl.
  rewrite E1, E2, E3. simpl.
  split; [done|]. split; [done|].
  intros h m now uid amt wallet id s' Hreq.
  eapply requestWithdrawal_created in Hreq as (_ & Hmin & Hle); [|done].
  simpl in Hmin, Hle.
  rewrite Hc in Hle. simpl in Hle.
  apply (Qlt_irrefl lo). apply (Qle_lt_trans _ amt); [done|].
  by apply (Qle_lt_trans _ (maxWithdrawalAmount cfg)).
Qed.

Lemma lone_minimum_closes_withdrawals_witness :
  (updateAdminConfig ex_update_min_only ex_bank).2 = ConfigUpdated
  ∧ (requestWithdrawal 10 0 ex_now 1 200 "M-Pesa 840000002"
       (ledger (updateAdminConfig ex_update_min_only ex_bank).1)).2
    = BelowMinimum.
Proof.
  split; [|reflexivity].
  apply (lone_minimum_closes_withdrawals ex_bank ex_config 6000);
    [reflexivity|by vm_compute|by vm_compute].
Defined.

(** X17: the order of the two times of the withdrawal window is never
    checked.  An update that sets a well-formed start time after a
    well-formed end time is accepted, and from then on the window admits
    no time of day, so no withdrawal request succeeds. *)
Theorem inverted_window_closes_withdrawals (b : Bank)
    (startTime endTime : string) :
  timeRegex_test startTime = true → timeRegex_test endTime = true →
  parseTime endTime < parseTime startTime →
  (updateAdminConfig
     (mkConfigUpdate None None None None (Some startTime) (Some endTime)
        None None) b).2 = ConfigUpdated
  ∧ (∀ h m, isWithdrawalTimeAllowed startTime endTime h m = false)
  ∧ ∀ h m now uid amt wallet id s',
      requestWithdrawal h m now uid amt wallet
        (ledger (updateAdminConfig
                   (mkConfigUpdate None None None None (Some startTime)
                      (Some endTime) None None) b).1)
      ≠ (s', Created id).
Proof.
  intros Hs He Hlt.
  assert (∀ h m, isWithdrawalTimeAllowed startTime endTime h m = false)
    as Hclosed.
  { intros h m. unfold isWithdrawalTimeAllowed.
    pose proof (parseTime_valid_nonneg _ Hs).
    pose proof (parseTime_valid_nonneg _ He).
    assert ((parseTime startTime =? -1) = false) as -> by lia.
    assert ((parseTime endTime =? -1) = false) as -> by lia.
    cbn [orb]. apply andb_false_iff.
    destruct (Z.leb_spec (parseTime startTime) (h * 60 + m)); [|by left].
    right. apply Z.leb_gt. lia. }
  assert (truthy startTime = true ∧ truthy endTime = true) as [Hts Hte].
  { split; [by destruct startTime|by destruct endTime]. }
  unfold updateAdminConfig.
  pose proof (ensureConfig_has_config b) as [c0 Hc0].
  unfold badTime, timeWellFormed. cbn [upd_minDepositAmount
    upd_minWithdrawalAmount upd_maxWithdrawalAmount upd_withdrawalStartTime
    upd_withdrawalEndTime upd_commissionOnPlanActivation
    upd_commissionOnDailyProfit upd_isPromotionActive belowOne rateInRange].
  rewrite Hs, He, !andb_false_r. cbn [andb negb].
  split; [done|]. split; [done|].
  intros h m now uid amt wallet id s' Hreq.
  eapply requestWithdrawal_created in Hreq as (Hwin & _); [|done].
  cbn [withdrawalStartTime withdrawalEndTime default from_option Datatypes.id]
    in Hwin.
  rewrite Hts, Hte, Hclosed in Hwin. by specialize (Hwin eq_refl).
Qed.

Lemma inverted_window_closes_withdrawals_witness :
  (updateAdminConfig ex_update_window ex_bank).2 = ConfigUpdated
  ∧ (requestWithdrawal 10 0 ex_now 1 200 "M-Pesa 840000002"
       (ledger (updateAdminConfig ex_update_window ex_bank).1)).2
    = OutsideWithdrawalWindow.
Proof.
  split; [|reflexivity].
  apply (inverted_window_closes_withdrawals ex_bank "18:00" "08:00");
    [reflexivity|reflexivity|by vm_compute].
Defined.

(** ** After the investment of a blocked owner has ended *)

(** X18: when the batch completes the ended investment of a blocked owner,
    the investment stays first in the owner's active list.  Once the owner
    is unblocked, the query of active investments does not return it, yet
    every activation is refused and changes nothing; and an upgrade that
    succeeds charges the price difference and rewrites the terms of that
    investment, which stays completed, so that no later run of the batch
    ever credits it. *)
Theorem ended_investment_of_blocked_owner_locks_the_slot (today : Z)
    (s s2 : Ledger) (uid iid : nat) (u : User) (inv : Investment)
    (others : list nat) :
  users s !! uid = Some u → status u = blocked →
  activeInvestments u = iid :: others →
  investments s !! iid = Some inv → userId inv = uid →
  creditDue today inv = true → endDate inv ≤ today →
  unblockUser uid (processDailyProfitsAndCommissions today s)
  = (s2, AdminOk) →
  users s2 !! uid = Some (set_status active u)
  ∧ investments s2 !! iid = Some (set_inv_status inv_completed inv)
  ∧ (∀ x, (iid, x) ∉ getUserActiveInvestments uid s2)
  ∧ (∀ now pid,
       (activateInvestment now uid pid s2).1 = s2
       ∧ ∀ id, (activateInvestment now uid pid s2).2 ≠ Created id)
  ∧ (∀ now pid plan,
       plans s2 !! pid = Some plan → isActive plan = true →
       activateInvestment now uid (Some (ObjectId pid)) s2
       = (s2, AlreadyInvested))
  ∧ ∀ now pid s3,
      upgradeInvestment now uid (Some (ObjectId pid)) s2 = (s3, Success) →
      ∃ plan,
        plans s2 !! pid = Some plan
        ∧ investments s3 !! iid
          = Some (set_plan pid (minAmount plan) (dailyProfitRate plan)
                    (addDays now (durationDays plan)) (Some now)
                    (set_inv_status inv_completed inv))
        ∧ (invitedBy u ≠ referralCode u →
           (balance <$> users s3 !! uid)
           = Some (balance u - (minAmount plan - investedAmount inv))%Q)
        ∧ ∀ today',
            investments (processDailyProfitsAndCommissions today' s3) !! iid
            = investments s3 !! iid.
Proof.
  intros Hu Hb Hl Hi Hown Hdue Hend Hunblock.
  pose proof (batch_leaves_blocked_user today s uid u Hu Hb) as Hu1.
  assert (investments (processDailyProfitsAndCommissions today s) !! iid
          = Some (set_inv_status inv_completed inv)) as Hi1.
  { apply idle_owner_investment_is_completed; [done..|].
    right. by rewrite list_lookup_fmap, Hown, Hu, <- Hb. }
  unfold unblockUser in Hunblock. rewrite Hu1 in Hunblock.
  injection Hunblock as <-.
  set (s1 := processDailyProfitsAndCommissions today s) in *.
  assert (users (updateUser uid (set_status active) s1) !! uid
          = Some (set_status active u)) as Hu2.
  { by apply users_updateUser_eq. }
  split; [done|]. split; [done|]. split; [|split; [|split]].
  - intros x Hx. apply elem_of_filter_imap in Hx as [[_ Hst] Hx].
    simpl in Hst, Hx. rewrite Hi1 in Hx. by injection Hx as <-.
  - intros now pid. unfold activateInvestment.
    destruct pid as [[|pid]|]; [done| |done]. rewrite Hu2.
    destruct (plans _ !! pid) as [plan|]; [|done].
    destruct (negb (isActive plan)); [done|].
    cbn [activeInvestments set_status]. by rewrite Hl.
  - intros now pid plan Hp Ha. unfold activateInvestment.
    rewrite Hu2, Hp, Ha. cbn [negb activeInvestments set_status].
    by rewrite Hl.
  - intros now pid s3 Hup.
    apply upgradeInvestment_success in Hup
      as (user & newPlan & first & others' & cur & Hu3 & Hp & _ & Hl3 & Hcur
          & _ & _ & ->).
    rewrite Hu2 in Hu3. injection Hu3 as <-.
    cbn [activeInvestments set_status] in Hl3. rewrite Hl in Hl3.
    injection Hl3 as <- <-.
    assert (cur = set_inv_status inv_completed inv) as ->.
    { simpl in Hcur. congruence. }
    exists newPlan. split; [done|].
    match goal with
    | |- context [creditActivationCommission ?a ?b ?c] =>
        destruct (creditActivationCommission_frame a b c) as (_ & Hiv & _)
    end.
    assert (investments
              (creditActivationCommission (set_status active u)
                 (minAmount newPlan
                  - investedAmount (set_inv_status inv_completed inv))%Q
                 (updateUser uid
                    (set_balance
                       (balance (set_status active u)
                        - (minAmount newPlan
                           - investedAmount
                               (set_inv_status inv_completed inv)))%Q)
                    (updateInvestment iid
                       (set_plan pid (minAmount newPlan)
                          (dailyProfitRate newPlan)
                          (addDays now (durationDays newPlan)) (Some now))
                       (updateUser uid (set_status active) s1)))) !! iid
            = Some (set_plan pid (minAmount newPlan) (dailyProfitRate newPlan)
                      (addDays now (durationDays newPlan)) (Some now)
                      (set_inv_status inv_completed inv))) as Hi3.
    { rewrite Hiv. simpl. by rewrite list_lookup_alter_eq, Hi1. }
    split; [done|]. split.
    + intros Hself.
      rewrite (user_after_commission _ uid _ (set_status active u));
        [done|done|done|done].
    + intros today'. rewrite Hi3. by apply batch_leaves_inactive.
Qed.

Lemma ended_investment_of_blocked_owner_locks_the_slot_witness :
  getUserActiveInvestments 1 ex_unblocked = []
  ∧ activateInvestment ex_after_term 1 (Some (ObjectId 0%nat)) ex_unblocked
    = (ex_unblocked, AlreadyInvested)
  ∧ (upgradeInvestment ex_after_term 1 (Some (ObjectId 1%nat)) ex_unblocked).2 = Success
  ∧ (inv_status
       <$> investments
             (upgradeInvestment ex_after_term 1 (Some (ObjectId 1%nat)) ex_unblocked).1
           !! 0%nat) = Some inv_completed.
Proof.
  destruct (ended_investment_of_blocked_owner_locks_the_slot ex_after_term
              ex_blocked_owner ex_unblocked 1 0
              (set_status blocked
                 (set_activeInvestments [0%nat]
                    (set_balance (1000 - 500)%Q ex_investor)))
              (ex_investment 1) [] eq_refl eq_refl eq_refl eq_refl eq_refl
              eq_refl ltac:(by vm_compute) eq_refl)
    as (_ & _ & _ & _ & Hact & Hup).
  split; [reflexivity|]. split; [by apply (Hact ex_after_term 0%nat ex_plan)|].
  split; [reflexivity|].
  destruct (Hup ex_after_term 1%nat
              (upgradeInvestment ex_after_term 1 (Some (ObjectId 1%nat)) ex_unblocked).1
              eq_refl) as (plan & _ & Hinv & _).
  by rewrite Hinv.
Defined.

(** ** Balances are never negative *)

Lemma Qnonneg_plus a b : (0 <= a)%Q → (0 <= b)%Q → (0 <= a + b)%Q.
Proof.
  intros Ha Hb. apply (Qle_trans _ (0 + 0)); [done|].
  by apply Qplus_le_compat.
Qed.

Lemma Qnonneg_minus a b : (b <= a)%Q → (0 <= a - b)%Q.
Proof. intros H. by apply -> Qle_minus_iff. Qed.

Lemma creditActivationCommission_nonneg user base s :
  (0 <= base)%Q →
  Forall (λ u, (0 <= balance u)%Q) (users s) →
  Forall (λ u, (0 <= balance u)%Q)
    (users (creditActivationCommission user base s)).
Proof.
  intros Hbase Hs. unfold creditActivationCommission.
  destruct (invitedBy user) as [code|]; [|done].
  destruct (adminConfig s) as [cfg|]; [|done].
  destruct (truthy code && isPromotionActive cfg
            && Qltb 0 (commissionOnPlanActivation cfg)) eqn:E; [|done].
  apply andb_true_iff in E as [_ Hr]. apply Qltb_lt in Hr.
  destruct (findByReferralCode code (users s)) as [[rid r]|] eqn:Ef; [|done].
  apply findByReferralCode_Some in Ef as [Hrid _].
  simpl. apply Forall_alter; [done|]. intros x Hx Hnn.
  assert (x = r) as -> by congruence. simpl.
  apply Qnonneg_plus; [done|].
  apply Qmult_le_0_compat; [done|]. by apply Qlt_le_weak.
Qed.

Lemma creditDailyCommission_nonneg promo rate user profit s :
  (0 <= profit)%Q →
  Forall (λ u, (0 <= balance u)%Q) (users s) →
  Forall (λ u, (0 <= balance u)%Q)
    (users (creditDailyCommission promo rate user profit s)).
Proof.
  intros Hp Hs. unfold creditDailyCommission.
  destruct (promo && Qltb 0 rate && truthy_opt (invitedBy user)) eqn:E;
    [|done].
  apply andb_true_iff in E as [E _]. apply andb_true_iff in E as [_ Hr].
  apply Qltb_lt in Hr.
  destruct (findByReferralCode _ (users s)) as [[rid r]|] eqn:Ef; [|done].
  apply findByReferralCode_Some in Ef as [Hrid _].
  destruct (bool_decide _); [|done].
  simpl. apply Forall_alter; [done|]. intros x Hx Hnn.
  assert (x = r) as -> by congruence. simpl.
  apply Qnonneg_plus; [done|].
  apply Qmult_le_0_compat; [done|]. by apply Qlt_le_weak.
Qed.

Lemma step_nonneg today promo rate s mem p :
  (0 <= investedAmount p.2 * inv_dailyProfitRate p.2)%Q →
  Forall (λ u, (0 <= balance u)%Q) (users s) →
  Forall (λ u, (0 <= balance u)%Q) mem →
  Forall (λ u, (0 <= balance u)%Q)
    (users (processInvestment today promo rate (s, mem) p).1)
  ∧ Forall (λ u, (0 <= balance u)%Q)
      (processInvestment today promo rate (s, mem) p).2.
Proof.
  destruct p as [iid d]. simpl. intros Hd Hs Hm.
  unfold processInvestment, closeIfEnded.
  destruct (mem !! userId d) as [user|] eqn:Eu.
  2: { by destruct (endDate d <=? today). }
  destruct (bool_decide (status user = blocked)).
  { by destruct (endDate d <=? today). }
  assert (0 <= balance user)%Q as Hbal.
  { rewrite Forall_forall in Hm. apply Hm.
    by apply list_elem_of_lookup_2 in Eu. }
  destruct (endDate d <=? today).
  - destruct (bool_decide (_ = activeInvestments user)); [done|]. simpl.
    split; apply Forall_alter; done.
  - pose proof (creditDailyCommission_nonneg promo rate user _ s Hd Hs) as Hc.
    destruct (Qeq_bool _ _); simpl; [done|].
    split; (apply Forall_alter; [done|]); intros x _ _; simpl;
      by apply Qnonneg_plus.
Qed.

Lemma loop_nonneg today promo rate rest s mem :
  Forall (λ p : nat * Investment,
            (0 <= investedAmount p.2 * inv_dailyProfitRate p.2)%Q) rest →
  Forall (λ u, (0 <= balance u)%Q) (users s) →
  Forall (λ u, (0 <= balance u)%Q) mem →
  Forall (λ u, (0 <= balance u)%Q)
    (users (foldl (processInvestment today promo rate) (s, mem) rest).1).
Proof.
  revert s mem. induction rest as [|p rest IH]; intros s mem Hr Hs Hm; [done|].
  cbn [foldl]. apply Forall_cons in Hr as [Hp Hr].
  destruct (step_nonneg today promo rate s mem p Hp Hs Hm) as [Hs1 Hm1].
  destruct (processInvestment today promo rate (s, mem) p) as [s1 mem1].
  by apply IH.
Qed.

Lemma requestWithdrawal_cases h m now uid amt wallet s s' r :
  requestWithdrawal h m now uid amt wallet s = (s', r) →
  s' = s ∧ (∀ id, r ≠ Created id)
  ∨ ∃ user,
      users s !! uid = Some user ∧ (0 < amt)%Q ∧ (amt <= balance user)%Q
      ∧ r = Created (length (withdrawals s))
      ∧ s' = updateUser uid
               (λ u, set_withdrawalHistory
                       (withdrawalHistory user ++ [length (withdrawals s)])
                       (set_balance (balance user - amt)%Q u))
               (with_withdrawals
                  (withdrawals s
                   ++ [mkWithdrawal uid amt (trim wallet) pending now None
                         None]) s).
Proof.
  unfold requestWithdrawal.
  destruct (_ || _); [by intros [= <- <-]; left|].
  destruct (Qle_bool amt 0) eqn:E0; [by intros [= <- <-]; left|].
  destruct (users s !! uid) as [user|] eqn:Eu; [|by intros [= <- <-]; left].
  destruct (negb _); [by intros [= <- <-]; left|].
  destruct (match adminConfig s with
            | Some cfg => Qltb amt (minWithdrawalAmount cfg)
            | None => Qltb amt 1 end); [by intros [= <- <-]; left|].
  destruct (match adminConfig s with
            | Some cfg => Qltb (maxWithdrawalAmount cfg) amt
            | None => false end); [by intros [= <- <-]; left|].
  destruct (Qltb (balance user) amt) eqn:Eb; [by intros [= <- <-]; left|].
  destruct (Qltb amt 1 || negb (truthy (trim wallet)));
    [by intros [= <- <-]; left|].
  intros [= <- <-]. right. exists user. split; [done|]. split.
  { apply Qnot_le_lt. intros Hle. apply Qle_bool_iff in Hle. congruence. }
  split; [by apply Qltb_false|done].
Qed.

(** X19: no handler makes a balance negative.  If every balance is at
    least 0 and every recorded withdrawal has a positive amount, the same
    holds after an activation, an upgrade, a withdrawal request and the
    approval or rejection of a withdrawal, whatever they answer; after the
    approval of a deposit whose amount is not negative; and after a run
    of the daily batch when no investment has a negative daily profit. *)
Theorem balances_stay_non_negative (s : Ledger) :
  fundsSound s →
  (∀ now uid pid, fundsSound (activateInvestment now uid pid s).1)
  ∧ (∀ now uid pid, fundsSound (upgradeInvestment now uid pid s).1)
  ∧ (∀ h m now uid amt wallet,
       fundsSound (requestWithdrawal h m now uid amt wallet s).1)
  ∧ (∀ now admin wid, fundsSound (approveWithdrawal now admin wid s).1)
  ∧ (∀ now admin wid, fundsSound (rejectWithdrawal now admin wid s).1)
  ∧ (∀ now admin did b,
       ledger b = s →
       Forall (λ d, (0 <= dep_amount d)%Q) (deposits b) →
       fundsSound (ledger (approveDeposit now admin did b).1))
  ∧ ∀ today,
      Forall (λ i, (0 <= investedAmount i * inv_dailyProfitRate i)%Q)
        (investments s) →
      fundsSound (processDailyProfitsAndCommissions today s).
Proof.
  intros [Hbal Hw]. repeat apply conj.
  - intros now uid pid.
    destruct (activateInvestment now uid pid s) as [s' r] eqn:Hact.
    destruct (activateInvestment_cases _ _ _ _ _ _ Hact)
      as [[-> _]|(p & id & -> & ->)]; [done|]. simpl.
    apply activateInvestment_success in Hact
      as (user & plan & Hu & Hp & _ & _ & Hpos & Hle & -> & ->).
    split.
    + apply creditActivationCommission_nonneg; [by apply Qlt_le_weak|].
      simpl. apply Forall_alter; [done|]. intros x _ _. simpl.
      by apply Qnonneg_minus.
    + match goal with
      | |- context [creditActivationCommission ?a ?b ?c] =>
          destruct (creditActivationCommission_frame a b c) as (_ & _ & E & _)
      end.
      by rewrite E.
  - intros now uid pid.
    destruct (upgradeInvestment_cases now uid pid s)
      as [[Hsame _]
         |[(user & first & others & Hu & Hl & Hnone & Hres)
          |(user & newPid & newPlan & first & others & cur & -> & Hu & Hp & _
            & Hl & Hcur & Hlt & Hle & Hres)]]; [by rewrite Hsame| |].
    + rewrite Hres. split; [|done]. simpl. by apply Forall_alter.
    + assert (Forall (λ u, (0 <= balance u)%Q)
                (users
                   (updateUser uid
                      (set_balance
                         (balance user
                          - (minAmount newPlan - investedAmount cur))%Q)
                      (updateInvestment first
                         (set_plan newPid (minAmount newPlan)
                            (dailyProfitRate newPlan)
                            (addDays now (durationDays newPlan)) (Some now))
                         s)))) as Hwritten.
      { simpl. apply Forall_alter; [done|]. intros x _ _. simpl.
        by apply Qnonneg_minus. }
      destruct Hres as [[_ Hres]|[_ Hres]]; rewrite Hres; [done|]. simpl.
      split.
      * apply creditActivationCommission_nonneg; [|done].
        apply Qnonneg_minus. by apply Qlt_le_weak.
      * match goal with
        | |- context [creditActivationCommission ?a ?b ?c] =>
            destruct (creditActivationCommission_frame a b c)
              as (_ & _ & E & _)
        end.
        by rewrite E.
  - intros h m now uid amt wallet.
    destruct (requestWithdrawal h m now uid amt wallet s) as [s' r] eqn:Hreq.
    destruct (requestWithdrawal_cases _ _ _ _ _ _ _ _ _ Hreq)
      as [[-> _]|(user & Hu & Hpos & Hle & -> & ->)]; [done|].
    split; simpl.
    + apply Forall_alter; [done|]. intros x _ _. simpl.
      by apply Qnonneg_minus.
    + apply Forall_app. split; [done|]. by apply Forall_singleton.
  - intros now admin wid. unfold approveWithdrawal.
    destruct (withdrawals s !! wid) as [w|]; [|done].
    destruct (negb _); [done|]. split; [done|]. simpl.
    by apply Forall_alter.
  - intros now admin wid. unfold rejectWithdrawal.
    destruct (withdrawals s !! wid) as [w|] eqn:Ew; [|done].
    destruct (negb _); [done|].
    assert (0 < amount w)%Q as Hpos.
    { rewrite Forall_forall in Hw. apply Hw.
      by apply list_elem_of_lookup_2 in Ew. }
    simpl. destruct (users s !! w_userId w) as [user|] eqn:Eu; simpl.
    + split; simpl.
      * apply Forall_alter; [done|]. intros x Hx Hnn. simpl.
        assert (x = user) as -> by congruence.
        apply Qnonneg_plus; [done|]. by apply Qlt_le_weak.
      * by apply Forall_alter.
    + split; [done|]. simpl. by apply Forall_alter.
  - intros now admin did b <- Hdep. unfold approveDeposit.
    destruct (deposits b !! did) as [d|] eqn:Ed; [|done].
    destruct (negb _); [done|]. simpl.
    destruct (users (ledger b) !! dep_userId d) as [user|] eqn:Eu; [|done].
    split; [|done]. simpl. apply Forall_alter; [done|]. intros x Hx Hnn.
    assert (x = user) as -> by congruence. simpl.
    apply Qnonneg_plus; [done|].
    rewrite Forall_forall in Hdep. apply Hdep.
    by apply list_elem_of_lookup_2 in Ed.
  - intros today Hinv. split.
    + unfold processDailyProfitsAndCommissions.
      apply loop_nonneg; [|done|done].
      apply Forall_forall. intros [j x] Hin.
      apply elem_of_findCreditDue in Hin as [_ Hx]. simpl.
      rewrite Forall_forall in Hinv. apply Hinv.
      by apply list_elem_of_lookup_2 in Hx.
    + unfold processDailyProfitsAndCommissions.
      set (promo := match adminConfig s with
                    | Some cfg => isPromotionActive cfg | None => false end).
      set (rate := match adminConfig s with
                   | Some cfg => commissionOnDailyProfit cfg
                   | None => 0%Q end).
      assert (withdrawals
                (foldl (processInvestment today promo rate) (s, users s)
                   (findCreditDue today (investments s))).1
              = withdrawals s) as E; [|by rewrite E].
      apply (loop_invariant today promo rate
               (λ s' _, withdrawals s' = withdrawals s)); [|done].
      intros s0 mem0 p Hp0.
      destruct (step_frame today promo rate s0 mem0 p) as (_ & Hw' & _).
      by rewrite Hw'.
Qed.

Lemma balances_stay_non_negative_witness :
  fundsSound ex_requested
  ∧ fundsSound (rejectWithdrawal ex_tomorrow 0 0 ex_requested).1.
Proof.
  assert (fundsSound (ex_ledger active)) as H0.
  { split; simpl; repeat constructor; by vm_compute. }
  pose proof (proj1 (balances_stay_non_negative (ex_ledger active) H0)
                ex_now 1%nat (Some (ObjectId 0%nat))) as H1.
  pose proof (proj1 (proj2 (proj2
                (balances_stay_non_negative
                   (activateInvestment ex_now 1 (Some (ObjectId 0%nat))
                      (ex_ledger active)).1 H1)))
                10 0 ex_now 1%nat 200%Q "M-Pesa 840000002"%string) as H2.
  split; [exact H2|].
  exact (proj1 (proj2 (proj2 (proj2 (proj2
           (balances_stay_non_negative ex_requested H2)))))
           ex_tomorrow 0%nat 0%nat).
Defined.

(** ** The log of administrative actions *)

Lemma string_app_assoc (a b c : string) :
  String.append (String.append a b) c = String.append a (String.append b c).
Proof.
  induction a as [|x a IH]; [done|].
  change (String x (String.append (String.append a b) c)
          = String x (String.append a (String.append b c))).
  by rewrite IH.
Qed.

Lemma string_app_nil_r (a : string) : String.append a EmptyString = a.
Proof.
  induction a as [|x a IH]; [done|].
  change (String x (String.append a EmptyString) = String x a).
  by rewrite IH.
Qed.

Lemma splitLines_line cur e rest :
  lineFree e = true →
  splitLines cur (String.append e (String "010"%char rest))
  = cur e :: splitLines (λ x, x) rest.
Proof.
  revert cur. induction e as [|c e IH]; intros cur He; [done|].
  simpl in He. apply andb_true_iff in He as [Hc He].
  apply negb_true_iff in Hc. simpl. rewrite Hc.
  by rewrite (IH (λ x, cur (String c x))).
Qed.

Lemma splitLines_entries entries :
  Forall (λ e, lineFree e = true) entries →
  splitLines (λ x, x) (logText entries) = entries ++ [EmptyString].
Proof.
  induction 1 as [|e entries He _ IH]; [done|].
  change (logText (e :: entries))
    with (String.append e (String "010"%char (logText entries))).
  by rewrite splitLines_line, IH.
Qed.

Lemma writeLog_entries data entries :
  foldl writeLog (Some data) entries
  = Some (String.append data (logText entries)).
Proof.
  revert data. induction entries as [|e entries IH]; intros data.
  { simpl. by rewrite string_app_nil_r. }
  cbn [foldl].
  change (writeLog (Some data) e)
    with (Some (String.append data
                  (String.append e (String "010"%char EmptyString)))).
  rewrite IH. f_equal. by rewrite !string_app_assoc.
Qed.

(** X20: the log reader returns what the log writer wrote, newest first.
    After the entries have been written one by one to a log that did not
    exist, [getAdminLogs] returns them in reverse order, leaving out the
    entries that are blank; the entries hold no line feed, as the texts
    that [JSON.stringify] produces. *)
Theorem admin_log_reads_back_newest_first (entries : list string) :
  Forall (λ e, lineFree e = true) entries →
  getAdminLogs (foldl writeLog None entries)
  = rev (filter (λ e, truthy (trim e)) entries).
Proof.
  intros He. destruct entries as [|e entries]; [done|].
  assert (foldl writeLog None (e :: entries) = Some (logText (e :: entries)))
    as ->.
  { cbn [foldl].
    change (writeLog None e)
      with (Some (String.append e (String "010"%char EmptyString))).
    rewrite writeLog_entries. f_equal. by rewrite string_app_assoc. }
  unfold getAdminLogs. rewrite splitLines_entries by done.
  rewrite filter_app. simpl (filter _ [EmptyString]).
  by rewrite app_nil_r.
Qed.

Lemma admin_log_reads_back_newest_first_witness :
  getAdminLogs
    (foldl writeLog None ["{first}"%string; " "%string; "{second}"%string])
  = ["{second}"%string; "{first}"%string].
Proof.
  apply (admin_log_reads_back_newest_first
           ["{first}"%string; " "%string; "{second}"%string]).
  repeat constructor.
Defined.

(** ** The administrator routes *)

(** X21: a handler behind [protect] and [authorizeAdmin] runs exactly for
    a token of a stored user that is not blocked and is an
    administrator, and then the route returns what the handler returns.
    Every other request is refused with status 401 or 403 and leaves the
    ledger as it is; a user that is not an administrator gets 403. *)
Theorem admin_routes_run_for_active_admins_only {R : Type}
    (handler : nat → Ledger → Ledger * R) (c : Credentials) (s : Ledger) :
  match adminRoute handler c s with
  | (s', inr r) =>
      ∃ id u,
        c = Token id ∧ users s !! id = Some u ∧ status u = active
        ∧ isAdmin u = true ∧ handler id s = (s', r)
  | (s', inl d) =>
      s' = s
      ∧ (denialStatus d = 401%nat ∨ denialStatus d = 403%nat)
      ∧ (d = NotAnAdmin ↔
         ∃ id u, c = Token id ∧ users s !! id = Some u ∧ status u = active
                 ∧ isAdmin u = false)
      ∧ ¬ ∃ id u, c = Token id ∧ users s !! id = Some u ∧ status u = active
                  ∧ isAdmin u = true
  end.
Proof.
  unfold adminRoute, protect, authorizeAdmin.
  destruct c as [| |id].
  - split; [done|]. split; [by left|]. split.
    + split; [done|]. by intros (? & ? & ? & _).
    + by intros (? & ? & ? & _).
  - split; [done|]. split; [by left|]. split.
    + split; [done|]. by intros (? & ? & ? & _).
    + by intros (? & ? & ? & _).
  - destruct (users s !! id) as [u|] eqn:Eu.
    2: { split; [done|]. split; [by left|]. split.
         - split; [done|]. intros (? & ? & [= <-] & ? & _). congruence.
         - intros (? & ? & [= <-] & ? & _). congruence. }
    destruct (bool_decide (status u = blocked)) eqn:Eb.
    { apply bool_decide_eq_true_1 in Eb.
      split; [done|]. split; [by right|]. split.
      - split; [done|]. intros (? & ? & [= <-] & ? & ? & _). congruence.
      - intros (? & ? & [= <-] & ? & ? & _). congruence. }
    apply bool_decide_eq_false_1 in Eb.
    assert (status u = active) as Ha by by destruct (status u).
    destruct (isAdmin u) eqn:Ei.
    + destruct (handler id s) as [s' r] eqn:Eh. by exists id, u.
    + split; [done|]. split; [by right|]. split.
      * split; [|done]. intros _. by exists id, u.
      * intros (? & ? & [= <-] & ? & _ & ?). congruence.
Qed.

(** ** Passwords *)

(** X22: no password of fewer than six characters is ever stored.  If
    every stored password has at least six characters, this still holds
    after a registration, after [createAdmin], [createInitialAdmin] and
    [changeUserPasswordByAdmin], whatever they answer; a shorter password
    is answered 500 by the two handlers that create a user once the other
    checks have passed, and 400 by the change of password, and none of
    them then writes anything. *)
Theorem short_passwords_are_never_stored (s : Ledger) :
  passwordsLong (users s) →
  (∀ fuel draws phone pass visitor invite s' r,
     registerUser fuel draws phone pass visitor invite s = Some (s', r) →
     passwordsLong (users s')
     ∧ ((String.length pass < 6)%nat → ∀ id, r ≠ Created id))
  ∧ (∀ now code phone pass,
       passwordsLong (users (createAdmin now code phone pass s).1)
       ∧ ((String.length pass < 6)%nat →
          createAdmin now code phone pass s
          = (s, (createAdmin now code phone pass s).2)
          ∧ ∀ id, (createAdmin now code phone pass s).2 ≠ AdminCreated id))
  ∧ (∀ code b, ledger b = s →
       passwordsLong (users (ledger (createInitialAdmin code b))))
  ∧ ∀ id newPassword,
      passwordsLong (users (changeUserPasswordByAdmin id newPassword s).1)
      ∧ ((String.length newPassword < 6)%nat →
         changeUserPasswordByAdmin id newPassword s = (s, PasswordTooShort)).
Proof.
  intros Hs. repeat apply conj.
  - intros fuel draws phone pass visitor invite s' r Hreg.
    assert ((∃ id, r = Created id) ∨ ∀ id, r ≠ Created id) as [[id ->]|Hno].
    { destruct r; eauto. }
    2: { split; [|done]. unfold passwordsLong.
         apply (Forall_fmap password (λ p, (6 ≤ String.length p)%nat)).
         rewrite (registerUser_refused _ _ _ _ _ _ _ _ _ password Hreg);
           [|done|done].
         by apply Forall_fmap. }
    assert (6 ≤ String.length pass)%nat as Hlen.
    { revert Hreg. unfold registerUser.
      destruct (_ || _); [done|]. destruct (negb _); [done|].
      destruct (0 <? _)%nat; [done|].
      destruct (list_find _ (users s)); [done|].
      destruct (pickReferralCode _ _ _ _); [|done]. cbv zeta.
      destruct (Nat.ltb_spec (String.length pass) 6); [done|]. done. }
    split; [|lia].
    apply registerUser_created in Hreg as (-> & _ & _ & own & _ & Hcase).
    assert (∀ inv,
              passwordsLong
                (users s ++ [mkUser phone pass 0%Q active visitor false
                               (Some own) inv [] [] []])) as Hnew.
    { intros inv. apply Forall_app. split; [done|]. by apply Forall_singleton. }
    destruct Hcase as [(c & rid & r0 & _ & _ & _ & _ & ->)|[_ ->]];
      [|by apply Hnew].
    simpl. apply Forall_alter; [by apply Hnew|]. by intros x _ Hx.
  - intros now code phone pass. unfold createAdmin.
    destruct (_ || _); [done|]. destruct (negb _); [done|].
    destruct (list_find _ (users s)); [done|].
    destruct (Nat.ltb_spec (String.length pass) 6) as [Hlt|Hge]; [done|].
    destruct (duplicateKey _ (users s)); [split; [done|lia]|].
    split; [|lia]. simpl. apply Forall_app. split; [done|].
    by apply Forall_singleton.
  - intros code b <-. unfold createInitialAdmin.
    destruct (list_find _ (users (ledger b))).
    { by rewrite ensureConfig_users. }
    destruct (list_find _ (users (ledger b))); [done|].
    destruct (duplicateKey _ (users (ledger b))); [done|].
    rewrite ensureConfig_users. simpl. apply Forall_app. split; [done|].
    apply Forall_singleton. simpl. lia.
  - intros id newPassword. unfold changeUserPasswordByAdmin.
    destruct (truthy newPassword) eqn:Et; cbn [negb orb].
    2: { split; [done|]. done. }
    destruct (Nat.ltb_spec (String.length newPassword) 6) as [Hlt|Hge].
    { by split. }
    destruct (users s !! id) as [u|]; [|split; [done|lia]].
    split; [|lia]. simpl. apply Forall_alter; [done|]. by intros x _ _.
Qed.

Lemma short_passwords_are_never_stored_witness :
  passwordsLong (users (ex_ledger active))
  ∧ changeUserPasswordByAdmin 1 "12345" (ex_ledger active)
    = (ex_ledger active, PasswordTooShort).
Proof.
  assert (passwordsLong (users (ex_ledger active))) as H.
  { unfold passwordsLong. simpl. repeat constructor; simpl; lia. }
  split; [exact H|].
  apply (proj2 (proj2 (proj2 (short_passwords_are_never_stored
                                (ex_ledger active) H)))).
  simpl. lia.
Defined.

(** [changeUserPasswordByAdmin] and [loginUser] *)

(** X23: after an administrator has changed the password of a user, that
    user logs in with the new password and no longer with the old one,
    unless the account is blocked; nothing but the password of that user
    is written.  The phone number of the login is the stored one once it
    is trimmed, so it may be sent with white space around it.  The
    comparison of bcrypt accepts exactly the stored password, and phone
    numbers are unique. *)
Theorem changed_password_logs_in (matchPassword : User → string → bool)
    (id : nat) (phone newPassword : string) (s : Ledger) (u : User) :
  (∀ v p, matchPassword v p = true ↔ password v = p) →
  NoDup (phoneNumber <$> users s) →
  users s !! id = Some u →
  trim phone = phoneNumber u → truthy phone = true →
  (6 ≤ String.length newPassword)%nat →
  changeUserPasswordByAdmin id newPassword s
  = (updateUser id (set_password newPassword) s, AdminOk)
  ∧ loginUser matchPassword phone newPassword
      (changeUserPasswordByAdmin id newPassword s).1
    = (if bool_decide (status u = blocked) then LoginBlocked else LoggedIn id)
  ∧ (password u ≠ newPassword → truthy (password u) = true →
     status u = active →
     loginUser matchPassword phone (password u)
       (changeUserPasswordByAdmin id newPassword s).1 = InvalidCredentials)
  ∧ ∀ j, j ≠ id →
      users (changeUserPasswordByAdmin id newPassword s).1 !! j
      = users s !! j.
Proof.
  intros Hmatch Hnd Hu Htrim Hphone Hlen.
  assert (truthy newPassword = true) as Ht.
  { destruct newPassword; [simpl in Hlen; lia|done]. }
  assert (changeUserPasswordByAdmin id newPassword s
          = (updateUser id (set_password newPassword) s, AdminOk)) as Hch.
  { unfold changeUserPasswordByAdmin. rewrite Ht, Hu.
    destruct (Nat.ltb_spec (String.length newPassword) 6); [lia|done]. }
  rewrite Hch. cbn [fst].
  assert (list_find (λ v, phoneNumber v = trim phone)
            (users (updateUser id (set_password newPassword) s))
          = Some (id, set_password newPassword u)) as Hfind.
  { rewrite Htrim.
    apply list_find_Some. split; [by apply users_updateUser_eq|].
    split; [done|]. intros j v Hj Hlt Hv.
    simpl in Hj. rewrite list_lookup_alter_ne in Hj by lia.
    assert (j = id); [|lia].
    apply (NoDup_lookup _ _ _ (phoneNumber u) Hnd);
      rewrite list_lookup_fmap; [by rewrite Hj, <- Hv|by rewrite Hu]. }
  split; [done|]. split; [|split].
  - unfold loginUser. rewrite Hphone, Ht, Hfind. cbn [negb orb].
    change (status (set_password newPassword u)) with (status u).
    destruct (bool_decide (status u = blocked)); [done|].
    assert (matchPassword (set_password newPassword u) newPassword = true)
      as -> by by apply Hmatch.
    done.
  - intros Hne Hto Ha. unfold loginUser.
    rewrite Hphone, Hto, Hfind. cbn [negb orb].
    change (status (set_password newPassword u)) with (status u).
    rewrite Ha. rewrite bool_decide_eq_false_2 by done.
    destruct (matchPassword (set_password newPassword u) (password u)) eqn:E;
      [|done].
    apply Hmatch in E. simpl in E. congruence.
  - intros j Hj. by apply users_updateUser_ne.
Qed.

Lemma changed_password_logs_in_witness :
  loginUser (λ v p, String.eqb (password v) p) " 840000002 " "newsecret"
    (changeUserPasswordByAdmin 1 "newsecret" (ex_ledger active)).1
  = LoggedIn 1.
Proof.
  apply (changed_password_logs_in (λ v p, String.eqb (password v) p) 1
           " 840000002 " "newsecret" (ex_ledger active) ex_investor).
  - intros v p. apply String.eqb_eq.
  - apply (bool_decide_unpack _). by vm_compute.
  - reflexivity.
  - reflexivity.
  - reflexivity.
  - simpl. lia.
Defined.

(** ** An upgrade that fails after the payment *)

(** X24: [upgradeInvestment] can answer 500 after it has taken the money.
    When the plan of the user's first listed investment is no longer
    stored and the new plan is dearer and affordable, the request is
    answered 500, yet the price difference has been debited and the
    investment carries the new plan; no commission is paid.  When the new
    plan is not dearer, the answer is 500 too and nothing is written. *)
Theorem upgrade_fails_after_the_payment (now : Z) (uid pid first : nat)
    (s : Ledger) (user : User) (newPlan : InvestmentPlan)
    (cur : Investment) (others : list nat) :
  users s !! uid = Some user →
  plans s !! pid = Some newPlan → isActive newPlan = true →
  activeInvestments user = first :: others →
  investments s !! first = Some cur →
  plans s !! planId cur = None →
  ((minAmount newPlan <= investedAmount cur)%Q →
   upgradeInvestment now uid (Some (ObjectId pid)) s = (s, ServerError))
  ∧ ((investedAmount cur < minAmount newPlan)%Q →
     (minAmount newPlan - investedAmount cur <= balance user)%Q →
     ∃ s',
       upgradeInvestment now uid (Some (ObjectId pid)) s = (s', ServerError)
       ∧ users s' !! uid
         = Some (set_balance
                   (balance user - (minAmount newPlan - investedAmount cur))%Q
                   user)
       ∧ (∀ j, j ≠ uid → users s' !! j = users s !! j)
       ∧ investments s' !! first
         = Some (set_plan pid (minAmount newPlan) (dailyProfitRate newPlan)
                   (addDays now (durationDays newPlan)) (Some now) cur)).
Proof.
  intros Hu Hp Ha Hl Hcur Hgone. unfold upgradeInvestment.
  rewrite Hu, Hp, Ha, Hl, Hcur, Hgone. cbn [negb]. split.
  - intros Hle. apply Qle_bool_iff in Hle. by rewrite Hle.
  - intros Hlt Hbal.
    assert (Qle_bool (minAmount newPlan) (investedAmount cur) = false) as ->.
    { destruct (Qle_bool _ _) eqn:E; [|done].
      apply Qle_bool_iff in E. by apply Qle_not_lt in E. }
    assert (Qltb (balance user) (minAmount newPlan - investedAmount cur)
            = false) as -> by by apply Qltb_false.
    eexists. split; [done|]. split; [|split].
    + simpl. by rewrite list_lookup_alter_eq, Hu.
    + intros j Hj. simpl. by rewrite list_lookup_alter_ne.
    + simpl. by rewrite list_lookup_alter_eq, Hcur.
Qed.

Lemma upgrade_fails_after_the_payment_witness :
  (deleteInvestmentPlan 0 ex_unblocked).2 = PlanOk
  ∧ ∃ s',
      upgradeInvestment ex_after_term 1 (Some (ObjectId 1%nat)) ex_plan_deleted
      = (s', ServerError)
      ∧ (balance <$> users s' !! 1%nat) = Some (1000 - 500 - (800 - 500))%Q.
Proof.
  split; [reflexivity|].
  destruct (upgrade_fails_after_the_payment ex_after_term 1 1 0
              ex_plan_deleted
              (set_status active
                 (set_activeInvestments [0%nat]
                    (set_balance (1000 - 500)%Q ex_investor)))
              ex_premium (set_inv_status inv_completed (ex_investment 1)) []
              eq_refl eq_refl eq_refl eq_refl eq_refl eq_refl)
    as [_ Hpaid].
  destruct (Hpaid ltac:(by vm_compute) ltac:(by vm_compute))
    as (s' & Hup & Hbal & _).
  exists s'. split; [exact Hup|]. by rewrite Hbal.
Defined.

(** ** What a run of the batch pays at least *)

Lemma lookup_alter_cases {A} (f : A → A) i (l : list A) k y :
  alter f i l !! k = Some y →
  l !! k = Some y ∧ k ≠ i ∨ ∃ x, l !! i = Some x ∧ k = i ∧ y = f x.
Proof.
  destruct (decide (k = i)) as [->|Hne].
  - rewrite list_lookup_alter_eq. destruct (l !! i) as [x|]; [|done].
    intros [= <-]. right. by exists x.
  - rewrite list_lookup_alter_ne by done. by left.
Qed.

Lemma creditDailyCommission_above L promo rate user profit s :
  (0 <= profit)%Q →
  balancesAbove L (users s) →
  balancesAbove L (users (creditDailyCommission promo rate user profit s)).
Proof.
  intros Hp Hs. unfold creditDailyCommission.
  destruct (promo && Qltb 0 rate && truthy_opt (invitedBy user)) eqn:E;
    [|done].
  apply andb_true_iff in E as [E _]. apply andb_true_iff in E as [_ Hr].
  apply Qltb_lt in Hr.
  destruct (findByReferralCode _ (users s)) as [[rid r]|] eqn:Ef; [|done].
  apply findByReferralCode_Some in Ef as [Hrid _].
  destruct (bool_decide _); [|done].
  intros k u Hk. simpl in Hk.
  apply lookup_alter_cases in Hk as [[Hk _]|(x & Hx & -> & ->)];
    [by apply Hs|].
  assert (x = r) as -> by congruence. simpl.
  apply (Qle_trans _ (balance r + 0)).
  - rewrite Qplus_0_r. by apply Hs.
  - apply Qplus_le_compat; [apply Qle_refl|].
    apply Qmult_le_0_compat; [done|]. by apply Qlt_le_weak.
Qed.

(** An iteration lowers no balance, stored or populated, below a bound
    that held before. *)
Lemma step_above L today promo rate s mem p :
  (0 <= investedAmount p.2 * inv_dailyProfitRate p.2)%Q →
  balancesAbove L (users s) → balancesAbove L mem →
  balancesAbove L (users (processInvestment today promo rate (s, mem) p).1)
  ∧ balancesAbove L (processInvestment today promo rate (s, mem) p).2.
Proof.
  destruct p as [iid d]. simpl. intros Hd Hs Hm.
  unfold processInvestment, closeIfEnded.
  destruct (mem !! userId d) as [user|] eqn:Eu.
  2: { by destruct (endDate d <=? today). }
  destruct (bool_decide (status user = blocked)).
  { by destruct (endDate d <=? today). }
  pose proof (Hm _ _ Eu) as Hbal.
  destruct (endDate d <=? today).
  - destruct (bool_decide (_ = activeInvestments user)); [done|]. simpl.
    split; intros k u Hk;
      (apply lookup_alter_cases in Hk as [[Hk _]|(x & Hx & -> & ->)];
       [|simpl]); eauto.
  - pose proof (creditDailyCommission_above L promo rate user _ s Hd Hs) as Hc.
    destruct (Qeq_bool _ _); simpl; [done|].
    assert (L (userId d) <= balance user
                             + investedAmount d * inv_dailyProfitRate d)%Q
      as Hnew.
    { apply (Qle_trans _ (balance user + 0)).
      - by rewrite Qplus_0_r.
      - apply Qplus_le_compat; [apply Qle_refl|done]. }
    split; intros k u Hk;
      (apply lookup_alter_cases in Hk as [[Hk _]|(x & Hx & -> & ->)];
       [|simpl]); eauto.
Qed.

Lemma loop_above L today promo rate rest s mem :
  Forall (λ p : nat * Investment,
            (0 <= investedAmount p.2 * inv_dailyProfitRate p.2)%Q) rest →
  balancesAbove L (users s) → balancesAbove L mem →
  balancesAbove L
    (users (foldl (processInvestment today promo rate) (s, mem) rest).1).
Proof.
  revert s mem. induction rest as [|p rest IH]; intros s mem Hr Hs Hm; [done|].
  cbn [foldl]. apply Forall_cons in Hr as [Hp Hr].
  destruct (step_above L today promo rate s mem p Hp Hs Hm) as [Hs1 Hm1].
  destruct (processInvestment today promo rate (s, mem) p) as [s1 mem1].
  by apply IH.
Qed.

Lemma loop_above_mem L today promo rate rest s mem :
  Forall (λ p : nat * Investment,
            (0 <= investedAmount p.2 * inv_dailyProfitRate p.2)%Q) rest →
  balancesAbove L (users s) → balancesAbove L mem →
  balancesAbove L
    (foldl (processInvestment today promo rate) (s, mem) rest).2.
Proof.
  revert s mem. induction rest as [|p rest IH]; intros s mem Hr Hs Hm; [done|].
  cbn [foldl]. apply Forall_cons in Hr as [Hp Hr].
  destruct (step_above L today promo rate s mem p Hp Hs Hm) as [Hs1 Hm1].
  destruct (processInvestment today promo rate (s, mem) p) as [s1 mem1].
  by apply IH.
Qed.

(** X25: what a run of the batch pays at least.  When no investment has a
    negative daily profit, a run lowers no balance.  An investment that
    the run selects, that has not ended and whose owner is active gains
    exactly [investedAmount * dailyProfitRate], carries [today] as the date
    of its last credit and stays active, and its owner ends the run with
    at least the balance before plus that profit. *)
Theorem batch_pays_at_least_the_profit (today : Z) (s : Ledger) :
  Forall (λ i, (0 <= investedAmount i * inv_dailyProfitRate i)%Q)
    (investments s) →
  (∀ k u u',
     users s !! k = Some u →
     users (processDailyProfitsAndCommissions today s) !! k = Some u' →
     (balance u <= balance u')%Q)
  ∧ ∀ iid d owner owner',
      investments s !! iid = Some d → creditDue today d = true →
      today < endDate d →
      users s !! userId d = Some owner → status owner = active →
      users (processDailyProfitsAndCommissions today s) !! userId d
      = Some owner' →
      investments (processDailyProfitsAndCommissions today s) !! iid
      = Some (set_profit
                (currentProfit d + investedAmount d * inv_dailyProfitRate d)%Q
                (Some today) d)
      ∧ (balance owner + investedAmount d * inv_dailyProfitRate d
         <= balance owner')%Q.
Proof.
  intros Hinv. unfold processDailyProfitsAndCommissions.
  set (promo := match adminConfig s with
                | Some cfg => isPromotionActive cfg | None => false end).
  set (rate := match adminConfig s with
               | Some cfg => commissionOnDailyProfit cfg | None => 0%Q end).
  assert (Forall (λ p : nat * Investment,
                    (0 <= investedAmount p.2 * inv_dailyProfitRate p.2)%Q)
            (findCreditDue today (investments s))) as Hrest.
  { apply Forall_forall. intros [j x] Hin.
    apply elem_of_findCreditDue in Hin as [_ Hx]. simpl.
    rewrite Forall_forall in Hinv. apply Hinv.
    by apply list_elem_of_lookup_2 in Hx. }
  set (L0 := λ k, default 0%Q (balance <$> users s !! k)).
  assert (balancesAbove L0 (users s)) as H0.
  { intros k u Hk. unfold L0. rewrite Hk. apply Qle_refl. }
  split.
  - intros k u u' Hk Hk'.
    pose proof (loop_above L0 today promo rate _ s (users s) Hrest H0 H0
                  k u' Hk') as Hle.
    unfold L0 in Hle. by rewrite Hk in Hle.
  - intros iid d owner owner' Hi Hdue Hend Hu Hst Hu'.
    assert ((iid, d) ∈ findCreditDue today (investments s)) as Hin.
    { by apply elem_of_findCreditDue. }
    pose proof (NoDup_fst_filter_imap (λ p, creditDue today p.2)
                  (investments s)) as Hnd.
    fold (findCreditDue today (investments s)) in Hnd.
    apply list_elem_of_split in Hin as (l1 & l2 & Hsplit).
    rewrite Hsplit in Hnd, Hrest, Hu' |- *.
    rewrite fmap_app, fmap_cons in Hnd.
    apply NoDup_app in Hnd as (_ & Hl1 & Hnd).
    apply NoDup_cons in Hnd as [Hl2 _]. simpl in Hl1, Hl2.
    assert (iid ∉ l1.*1) as Hl1'.
    { intros Hx. apply (Hl1 iid Hx). by left. }
    apply Forall_app in Hrest as [Hr1 Hr2].
    apply Forall_cons in Hr2 as [Hd Hr2]. simpl in Hd.
    rewrite foldl_app in Hu' |- *. cbn [foldl] in Hu' |- *.
    destruct (loop_frame today promo rate l1 s (users s))
      as (Hsta & _ & Hinva & _).
    pose proof (loop_above L0 today promo rate l1 s (users s) Hr1 H0 H0)
      as Hsa.
    pose proof (loop_above_mem L0 today promo rate l1 s (users s) Hr1 H0 H0)
      as Hma.
    destruct (foldl (processInvestment today promo rate) (s, users s) l1)
      as [sa ma]. simpl in Hsta, Hinva, Hsa, Hma.
    assert (∃ user, ma !! userId d = Some user ∧ status user = active)
      as (user & Hmu & Hmst).
    { assert ((status <$> ma) !! userId d = Some active) as Hx.
      { by rewrite Hsta, list_lookup_fmap, Hu, <- Hst. }
      apply list_lookup_fmap_Some_1 in Hx as (user & ? & ?). eauto. }
    assert (balance owner <= balance user)%Q as Hou.
    { pose proof (Hma _ _ Hmu) as Hx. unfold L0 in Hx. by rewrite Hu in Hx. }
    assert (investments sa !! iid = Some d) as Hia.
    { by rewrite (Hinva iid Hl1'). }
    split.
    + destruct (loop_frame today promo rate l2
                  (processInvestment today promo rate (sa, ma) (iid, d)).1
                  (processInvestment today promo rate (sa, ma) (iid, d)).2)
        as (_ & _ & Hinvf & _).
      rewrite <- surjective_pairing in Hinvf.
      rewrite (Hinvf iid Hl2).
      unfold processInvestment. rewrite Hmu, Hmst.
      rewrite bool_decide_eq_false_2 by done.
      assert ((endDate d <=? today) = false) as -> by lia.
      destruct (creditDailyCommission_frame promo rate user
                  (investedAmount d * inv_dailyProfitRate d)%Q sa)
        as (_ & Hic & _).
      destruct (Qeq_bool _ _); simpl; rewrite Hic;
        by rewrite list_lookup_alter_eq, Hia.
    + set (L1 := λ k, if decide (k = userId d)
                      then (balance owner
                            + investedAmount d * inv_dailyProfitRate d)%Q
                      else L0 k).
      destruct (step_above L0 today promo rate sa ma (iid, d) Hd Hsa Hma)
        as [Hsb Hmb].
      assert (balancesAbove L1
                (users (processInvestment today promo rate (sa, ma)
                          (iid, d)).1)
              ∧ balancesAbove L1
                  (processInvestment today promo rate (sa, ma) (iid, d)).2)
        as [Hs1 Hm1].
      { assert (∀ u, (processInvestment today promo rate (sa, ma) (iid, d)).2
                     !! userId d = Some u →
                     (balance user + investedAmount d * inv_dailyProfitRate d
                      <= balance u)%Q) as Hmem.
        { intros u. unfold processInvestment. rewrite Hmu, Hmst.
          rewrite bool_decide_eq_false_2 by done.
          assert ((endDate d <=? today) = false) as -> by lia.
          destruct (Qeq_bool _ _) eqn:E; simpl.
          - apply Qeq_bool_iff in E. rewrite Hmu. intros [= <-].
            rewrite E. apply Qle_refl.
          - rewrite list_lookup_alter_eq, Hmu. intros [= <-]. apply Qle_refl. }
        assert (∀ u, users (processInvestment today promo rate (sa, ma)
                              (iid, d)).1 !! userId d = Some u →
                     (balance owner + investedAmount d * inv_dailyProfitRate d
                      <= balance u)%Q) as Hsto.
        { intros u. unfold processInvestment. rewrite Hmu, Hmst.
          rewrite bool_decide_eq_false_2 by done.
          assert ((endDate d <=? today) = false) as -> by lia.
          destruct (Qeq_bool _ _) eqn:E; simpl.
          - apply Qeq_bool_iff in E. intros Hk.
            pose proof (creditDailyCommission_above L0 promo rate user _ sa
                          Hd Hsa _ _ Hk) as Hx.
            unfold L0 in Hx. rewrite Hu in Hx. simpl in Hx.
            apply (Qle_trans _ (balance owner + 0)).
            + apply Qplus_le_compat; [apply Qle_refl|].
              apply Qle_lteq. right.
              apply (Qplus_inj_l _ _ (balance user)).
              by rewrite Qplus_0_r.
            + by rewrite Qplus_0_r.
          - intros Hk.
            apply lookup_alter_cases in Hk as [[_ ?]|(x & _ & _ & ->)];
              [done|]. simpl.
            apply Qplus_le_compat; [done|apply Qle_refl]. }
        split; intros k u Hk; unfold L1; destruct (decide (k = userId d))
          as [->|Hne]; eauto.
        apply (Qle_trans _ (balance user
                            + investedAmount d * inv_dailyProfitRate d)).
        - apply Qplus_le_compat; [done|apply Qle_refl].
        - by apply Hmem. }
      rewrite (surjective_pairing
                 (processInvestment today promo rate (sa, ma) (iid, d)))
        in Hu'.
      pose proof (loop_above L1 today promo rate l2 _ _ Hr2 Hs1 Hm1 _ _ Hu')
        as Hfin.
      unfold L1 in Hfin. by rewrite decide_True in Hfin.
Qed.

Lemma batch_pays_at_least_the_profit_witness :
  (balance ex_investor - 500 + 500 * (2 # 100)
   <= balanceOf (processDailyProfitsAndCommissions ex_tomorrow ex_invested) 1)%Q.
Proof.
  assert (Forall (λ i, (0 <= investedAmount i * inv_dailyProfitRate i)%Q)
            (investments ex_invested)) as H.
  { repeat constructor. by vm_compute. }
  destruct (batch_pays_at_least_the_profit ex_tomorrow ex_invested H)
    as [_ Hpay].
  destruct (Hpay 0%nat (ex_investment 1)
              (set_activeInvestments [0%nat]
                 (set_balance (1000 - 500)%Q ex_investor))
              (set_activeInvestments [0%nat]
                 (set_balance (1000 - 500 + 500 * (2 # 100))%Q ex_investor))
              eq_refl eq_refl ltac:(by vm_compute) eq_refl eq_refl eq_refl)
    as [_ Hle].
  exact Hle.
Defined.

(** ** A new administrator *)

Lemma createAdmin_created now code phone pass s s' id :
  createAdmin now code phone pass s = (s', AdminCreated id) →
  id = length (users s)
  ∧ s' = with_users
           (users s
            ++ [mkUser phone pass 0%Q active
                  (String.append "admin_" (pretty now)) true (Some code) None
                  [] [] []]) s.
Proof.
  unfold createAdmin.
  destruct (_ || _); [done|]. destruct (negb _); [done|].
  destruct (list_find _ (users s)); [done|]. cbv zeta.
  destruct (String.length pass <? 6)%nat; [done|].
  destruct (duplicateKey _ (users s)); [done|].
  by intros [= <- <-].
Qed.

(** X26: an administrator that [createAdmin] has created passes
    [protect] and [authorizeAdmin], so every administrator route runs its
    handler for it, and [blockUser] refuses to block it; the users that
    existed are left as they were.  A second [createAdmin] in the same
    millisecond never creates a user: its visitor id is taken. *)
Theorem created_admin_is_authorised (now : Z) (code phone pass : string)
    (s s' : Ledger) (id : nat) :
  createAdmin now code phone pass s = (s', AdminCreated id) →
  (∀ R (handler : nat → Ledger → Ledger * R),
     adminRoute handler (Token id) s'
     = ((handler id s').1, inr (handler id s').2))
  ∧ blockUser id s' = (s', CannotBlockAdmin)
  ∧ (∀ j, j ≠ id → users s' !! j = users s !! j)
  ∧ ∀ code' phone' pass' id',
      (createAdmin now code' phone' pass' s').2 ≠ AdminCreated id'.
Proof.
  intros Hc. apply createAdmin_created in Hc as [-> ->].
  assert (users
            (with_users
               (users s
                ++ [mkUser phone pass 0%Q active
                      (String.append "admin_" (pretty now)) true (Some code)
                      None [] [] []]) s) !! length (users s)
          = Some (mkUser phone pass 0%Q active
                    (String.append "admin_" (pretty now)) true (Some code)
                    None [] [] [])) as Hnew.
  { simpl. by rewrite list_lookup_middle. }
  split; [|split; [|split]].
  - intros R handler. unfold adminRoute, protect. rewrite Hnew. simpl.
    by destruct (handler _ _).
  - unfold blockUser. by rewrite Hnew.
  - intros j Hj. simpl.
    destruct (decide (j < length (users s))%nat) as [Hlt|Hge].
    + by rewrite lookup_app_l.
    + rewrite !lookup_ge_None_2; [done|lia|]. rewrite length_app. simpl. lia.
  - intros code' phone' pass' id'. unfold createAdmin.
    destruct (_ || _); [done|]. destruct (negb _); [done|].
    destruct (list_find _ _); [done|]. cbv zeta.
    destruct (String.length pass' <? 6)%nat; [done|].
    assert (duplicateKey
              (mkUser phone' pass' 0%Q active
                 (String.append "admin_" (pretty now)) true (Some code') None
                 [] [] [])
              (users
                 (with_users
                    (users s
                     ++ [mkUser phone pass 0%Q active
                           (String.append "admin_" (pretty now)) true
                           (Some code) None [] [] []]) s)) = true) as ->;
      [|done].
    unfold duplicateKey. apply existsb_exists.
    eexists. split.
    + apply list_elem_of_In. by apply list_elem_of_lookup_2 in Hnew.
    + simpl. rewrite String.eqb_refl. by rewrite orb_true_r.
Qed.

Lemma created_admin_is_authorised_witness :
  blockUser 2 (createAdmin ex_now "ADM00001" "840000003" "secret3"
                 (ex_ledger active)).1
  = ((createAdmin ex_now "ADM00001" "840000003" "secret3"
        (ex_ledger active)).1, CannotBlockAdmin).
Proof.
  apply (created_admin_is_authorised ex_now "ADM00001" "840000003" "secret3"
           (ex_ledger active) _ 2).
  reflexivity.
Defined.
